(** * SEO audit pipeline: a shallow embedding and its verified properties

    The development follows the TypeScript sources of the audit tool:
    - [types.ts]            the data model (module [Types]);
    - [playwright-audit.ts] extraction, issue derivation and scoring
                            (module [PlaywrightAudit]) and the browser-driven
                            run (module [AuditRun]);
    - [llm-service.ts]      the heuristic deep-analysis generator
                            (module [LLMService]);
    - [memory-storage.ts]   the in-memory storage (module [MemoryStorage]);
    - [audit-service.ts]    the orchestrator (module [AuditService]).

    Part I holds the embedding, Part II the reference definitions the
    properties are stated against, Part III the theorems. *)

From Stdlib Require Import ZArith QArith Qround List String Ascii Bool Lia DecimalString.
From Stdlib Require Import Sorting.Sorted Sorting.Permutation.
From stdpp Require Import gmap strings list fin_maps.

Local Close Scope Q_scope.
Local Open Scope string_scope.
Local Open Scope list_scope.
Local Open Scope Z_scope.

(* ===================================================================== *)
(** * Part I. The embedding                                               *)
(* ===================================================================== *)

(** ** JavaScript runtime notions used by the sources *)

Module JS.

(** A JS [number] that holds a time reading: a finite value or [NaN].
    Finite doubles are rationals, and comparison and [Math.round] on them
    agree with the exact operations on [Q]. *)
Inductive number : Type :=
| NaN
| Num (q : Q).

(** [x > k]; every comparison with [NaN] is false. *)
Definition gt (x : number) (k : Z) : bool :=
  match x with
  | NaN => false
  | Num q => if Qlt_le_dec (inject_Z k) q then true else false
  end.

(** [Math.round] on a finite value: the nearest integer, a tie going up. *)
Definition Math_round (q : Q) : Z := Qfloor (q + (1 # 2))%Q.

(** Truthiness of a [string | null]: [null] and the empty string are falsy. *)
Definition truthy (s : option string) : bool :=
  match s with
  | Some (String _ _) => true
  | _ => false
  end.

(** [s?.length || 0] on a [string | null]. *)
Definition lengthOf (s : option string) : nat :=
  match s with
  | Some d => String.length d
  | None => 0%nat
  end.

(** Template-literal rendering of a non-negative integer. *)
Definition string_of_nat (n : nat) : string :=
  NilEmpty.string_of_uint (Nat.to_uint n).

(** Template-literal rendering of an integer (decimal below 1e21). *)
Definition string_of_Z (z : Z) : string :=
  NilZero.string_of_int (Z.to_int z).

(** Rendering of [Math.round(x)] inside a template literal. *)
Definition string_of_rounded (x : number) : string :=
  match x with
  | NaN => "NaN"
  | Num q => string_of_Z (Math_round q)
  end.

(** [arr.push(x)] on an array held in a local variable. *)
Definition push {A : Type} (arr : list A) (x : A) : list A := arr ++ [x].

(** The double-quote and line-feed characters of string literals. *)
Definition dq : string := String (ascii_of_nat 34) EmptyString.
Definition nl : string := String (ascii_of_nat 10) EmptyString.
Definition quoted (s : string) : string := dq +:+ s +:+ dq.

(** A settled promise: resolved with a value or rejected with a message. *)
Inductive Settled (A : Type) : Type :=
| Resolved (a : A)
| Rejected (message : string).
Arguments Resolved {A} a.
Arguments Rejected {A} message.

End JS.

(** ** types.ts *)

Module Severity.
Inductive t : Type := error | warning | info.
End Severity.

Module Category.
Inductive t : Type := seo | technical | content | performance.
End Category.

Module Impact.
Inductive t : Type := high | medium | low.
End Impact.

Module Priority.
Inductive t : Type := immediate | high | medium | low.
End Priority.

Module Status.
Inductive t : Type := running | completed | failed.
End Status.

Module Types.

Record AuditOptions : Type := {
  includeScreenshots : option bool;
  mobileTest : option bool;
  deepScan : option bool;
  timeout : option Z
}.

Record Issue : Type := {
  issue_id : string;
  issue_type : Severity.t;
  issue_category : Category.t;
  issue_title : string;
  issue_description : string;
  issue_element : option string;
  issue_location : option string;
  issue_impact : Impact.t;
  issue_recommendation : string
}.

Record CategoryScore : Type := {
  score : Z;
  maxScore : Z;
  issues : list Issue
}.

Record Recommendation : Type := {
  rec_id : string;
  rec_title : string;
  rec_description : string;
  rec_priority : Impact.t;
  rec_category : Category.t;
  rec_actionItems : list string;
  rec_estimatedImpact : Impact.t
}.

(** The [title] and [metaDescription] members of [SEOAnalysis]. *)
Record TextSignal : Type := {
  content : option string;
  length : nat;
  isOptimal : bool
}.

Record OpenGraph : Type := {
  og_title : option string;
  og_description : option string;
  og_image : option string;
  og_url : option string;
  og_type : option string
}.

Record HeadingStructure : Type := {
  h1 : list string;
  h2 : list string;
  h3 : list string;
  h4 : list string;
  h5 : list string;
  h6 : list string
}.

Record SEOAnalysis : Type := {
  title : TextSignal;
  metaDescription : TextSignal;
  metaKeywords : option string;
  viewport : option string;
  charset : option string;
  canonical : option string;
  hreflang : list string;
  robots : option string;
  openGraph : OpenGraph;
  headingStructure : HeadingStructure
}.

Record NetworkRequests : Type := {
  net_total : nat;
  net_failed : nat;
  net_totalSize : nat
}.

Record MobileOptimization : Type := {
  hasViewport : bool;
  isResponsive : bool;
  touchTargetSize : bool
}.

Record Accessibility : Type := {
  acc_score : Z;
  acc_issues : list string
}.

Record Security : Type := {
  hasSSL : bool;
  mixedContent : bool;
  vulnerabilities : list string
}.

Record TechnicalAnalysis : Type := {
  loadTime : JS.number;
  firstContentfulPaint : JS.number;
  largestContentfulPaint : JS.number;
  cumulativeLayoutShift : JS.number;
  timeToInteractive : JS.number;
  networkRequests : NetworkRequests;
  mobileOptimization : MobileOptimization;
  accessibility : Accessibility;
  security : Security
}.

(** The counters of [ContentAnalysis] are array lengths in [analyzeContent]. *)
Record ImageStats : Type := {
  img_total : nat;
  withoutAlt : nat;
  withEmptyAlt : nat;
  lazyLoaded : nat;
  oversized : nat
}.

Record LinkStats : Type := {
  link_total : nat;
  link_internal : nat;
  link_external : nat;
  link_broken : nat;
  link_nofollow : nat;
  link_empty : nat
}.

Record StructuredData : Type := {
  hasStructuredData : bool;
  sd_types : list string;
  sd_errors : list string
}.

Record ContentAnalysis : Type := {
  wordCount : nat;
  readabilityScore : Z;
  images : ImageStats;
  links : LinkStats;
  structuredData : StructuredData;
  placeholderLinks : option (list string);
  hasSuspiciousTestimonials : option bool
}.

Record PerformanceMetrics : Type := {
  pm_firstContentfulPaint : JS.number;
  pm_largestContentfulPaint : JS.number;
  pm_firstInputDelay : JS.number;
  pm_cumulativeLayoutShift : JS.number;
  pm_speedIndex : JS.number;
  pm_timeToInteractive : JS.number
}.

Record Opportunity : Type := {
  opp_title : string;
  opp_description : string;
  opp_savings : Z;
  opp_bytes : bool
}.

Record AssetStats : Type := {
  asset_total : nat;
  asset_unused : nat;
  asset_blocking : nat
}.

Record ImageAssetStats : Type := {
  ia_total : nat;
  ia_unoptimized : nat;
  ia_totalSize : nat
}.

Record Resources : Type := {
  res_javascript : AssetStats;
  res_css : AssetStats;
  res_images : ImageAssetStats
}.

Record PerformanceAnalysis : Type := {
  perf_overallScore : Z;
  perf_metrics : PerformanceMetrics;
  perf_opportunities : list Opportunity;
  perf_resources : Resources
}.

Record Screenshots : Type := {
  desktop : option string;
  mobile : option string;
  shots_timestamp : string
}.

Record Categories : Type := {
  cat_seo : CategoryScore;
  cat_technical : CategoryScore;
  cat_content : CategoryScore;
  cat_performance : CategoryScore
}.

(** The issue shape the heuristic generator pushes (it never sets
    [priority], [category] or [estimatedFixTime]). *)
Record DetailedIssue : Type := {
  di_id : string;
  di_title : string;
  di_description : string;
  di_impact : string;
  di_fix : string;
  di_businessImpact : string;
  di_codeExample : option string
}.

Record ContentQualityAssessment : Type := {
  cqa_overallScore : Z;
  cqa_issues : list string;
  cqa_recommendations : list string
}.

Record BusinessImpactProjections : Type := {
  searchVisibilityIncrease : string;
  userExperienceImprovement : string;
  conversionRateImpact : string
}.

Record ActionItem : Type := {
  ai_priority : Priority.t;
  ai_task : string;
  ai_timeline : string;
  ai_codeExample : option string;
  ai_successMetrics : option (list string)
}.

Record LLMAnalysisResult : Type := {
  criticalIssues : list DetailedIssue;
  highPriorityIssues : list DetailedIssue;
  mediumPriorityIssues : list DetailedIssue;
  contentQualityAssessment : ContentQualityAssessment;
  businessImpactProjections : BusinessImpactProjections;
  actionItems : list ActionItem
}.

Record AuditResult : Type := {
  audit_id : option string;
  audit_userId : option string;
  audit_createdAt : option string;
  audit_updatedAt : option string;
  audit_status : option Status.t;
  audit_processingTime : option Z;
  audit_url : string;
  audit_timestamp : string;
  audit_overallScore : Z;
  audit_categories : Categories;
  audit_seo : SEOAnalysis;
  audit_technical : TechnicalAnalysis;
  audit_content : ContentAnalysis;
  audit_performance : PerformanceAnalysis;
  audit_screenshots : Screenshots;
  audit_recommendations : list Recommendation;
  audit_issues : list Issue;
  audit_llmAnalysis : option LLMAnalysisResult
}.

End Types.

Import Types.

(** ** playwright-audit.ts: extraction, issue derivation, scoring *)

Module PlaywrightAudit.

(** What the DOM queries of [analyzeSEO] resolve to. Every [$eval] lookup
    has its own [.catch(() => null)], so each is a [string | null]. *)
Record DomLookups : Type := {
  dom_title : string;
  dom_metaDescription : option string;
  dom_metaKeywords : option string;
  dom_viewport : option string;
  dom_charset : option string;
  dom_canonical : option string;
  dom_robots : option string;
  dom_hreflang : list string;
  dom_openGraph : OpenGraph;
  dom_headings : list (string * string)
}.

(** [headings.filter(h => h.tag === tag).map(h => h.text)] *)
Definition headingsOf (tag : string) (headings : list (string * string)) : list string :=
  map snd (List.filter (fun h => String.eqb (fst h) tag) headings).

Definition analyzeSEO (page : DomLookups) : SEOAnalysis :=
  let title := dom_title page in
  let metaDescription := dom_metaDescription page in
  let headings := dom_headings page in
  let headingStructure :=
    {| h1 := headingsOf "h1" headings;
       h2 := headingsOf "h2" headings;
       h3 := headingsOf "h3" headings;
       h4 := headingsOf "h4" headings;
       h5 := headingsOf "h5" headings;
       h6 := headingsOf "h6" headings |} in
  {| title :=
       {| content := Some title;
          length := String.length title;
          isOptimal := (30 <=? String.length title)%nat && (String.length title <=? 60)%nat |};
     metaDescription :=
       {| content := metaDescription;
          length := JS.lengthOf metaDescription;
          isOptimal := if JS.truthy metaDescription
                       then (120 <=? JS.lengthOf metaDescription)%nat
                            && (JS.lengthOf metaDescription <=? 160)%nat
                       else false |};
     metaKeywords := dom_metaKeywords page;
     viewport := dom_viewport page;
     charset := dom_charset page;
     canonical := dom_canonical page;
     hreflang := dom_hreflang page;
     robots := dom_robots page;
     openGraph := dom_openGraph page;
     headingStructure := headingStructure |}.

(** The object literal pushed for [title-length]. *)
Definition titleLengthIssue (seo : SEOAnalysis) : Issue :=
  {| issue_id := "title-length";
     issue_type := Severity.warning;
     issue_category := Category.seo;
     issue_title := "Title tag length not optimal";
     issue_description :=
       "Title is " +:+ JS.string_of_nat (length (title seo))
         +:+ " characters. Optimal length is 30-60 characters.";
     issue_element := None;
     issue_location := None;
     issue_impact := Impact.medium;
     issue_recommendation :=
       "Optimize title tag length to 30-60 characters for better search visibility." |}.

(** The object literal pushed for [meta-description]. *)
Definition metaDescriptionIssue (seo : SEOAnalysis) : Issue :=
  {| issue_id := "meta-description";
     issue_type := Severity.error;
     issue_category := Category.seo;
     issue_title := "Meta description issues";
     issue_description :=
       if JS.truthy (Types.content (metaDescription seo))
       then "Meta description is " +:+ JS.string_of_nat (length (metaDescription seo))
              +:+ " characters. Optimal length is 120-160 characters."
       else "Meta description is missing.";
     issue_element := None;
     issue_location := None;
     issue_impact := Impact.high;
     issue_recommendation := "Add or optimize meta description to 120-160 characters." |}.

(** The object literal pushed for [missing-h1]. *)
Definition missingH1Issue : Issue :=
  {| issue_id := "missing-h1";
     issue_type := Severity.error;
     issue_category := Category.seo;
     issue_title := "Missing H1 tag";
     issue_description := "Page does not have an H1 tag.";
     issue_element := None;
     issue_location := None;
     issue_impact := Impact.high;
     issue_recommendation := "Add a descriptive H1 tag to clearly identify the page topic." |}.

(** The object literal pushed for [multiple-h1]. *)
Definition multipleH1Issue (seo : SEOAnalysis) : Issue :=
  {| issue_id := "multiple-h1";
     issue_type := Severity.warning;
     issue_category := Category.seo;
     issue_title := "Multiple H1 tags";
     issue_description :=
       "Page has " +:+ JS.string_of_nat (List.length (h1 (headingStructure seo)))
         +:+ " H1 tags.";
     issue_element := None;
     issue_location := None;
     issue_impact := Impact.medium;
     issue_recommendation := "Use only one H1 tag per page for better SEO structure." |}.

(** The object literal pushed for [images-without-alt]. *)
Definition imagesWithoutAltIssue (content : ContentAnalysis) : Issue :=
  {| issue_id := "images-without-alt";
     issue_type := Severity.warning;
     issue_category := Category.content;
     issue_title := "Images without alt text";
     issue_description :=
       JS.string_of_nat (withoutAlt (images content)) +:+ " images are missing alt text.";
     issue_element := None;
     issue_location := None;
     issue_impact := Impact.medium;
     issue_recommendation :=
       "Add descriptive alt text to all images for accessibility and SEO." |}.

(** The object literal pushed for [empty-links]. *)
Definition emptyLinksIssue (content : ContentAnalysis) : Issue :=
  {| issue_id := "empty-links";
     issue_type := Severity.warning;
     issue_category := Category.content;
     issue_title := "Empty link text";
     issue_description :=
       JS.string_of_nat (link_empty (links content))
         +:+ " links have empty or missing text.";
     issue_element := None;
     issue_location := None;
     issue_impact := Impact.medium;
     issue_recommendation :=
       "Add descriptive text to all links for better user experience and SEO." |}.

(** The object literal pushed for [no-ssl]. *)
Definition noSSLIssue : Issue :=
  {| issue_id := "no-ssl";
     issue_type := Severity.error;
     issue_category := Category.technical;
     issue_title := "No SSL certificate";
     issue_description := "Website is not using HTTPS.";
     issue_element := None;
     issue_location := None;
     issue_impact := Impact.high;
     issue_recommendation :=
       "Install SSL certificate to secure the website and improve search rankings." |}.

(** The object literal pushed for [no-viewport]. *)
Definition noViewportIssue : Issue :=
  {| issue_id := "no-viewport";
     issue_type := Severity.error;
     issue_category := Category.technical;
     issue_title := "Missing viewport meta tag";
     issue_description := "Page does not have a viewport meta tag.";
     issue_element := None;
     issue_location := None;
     issue_impact := Impact.high;
     issue_recommendation := "Add viewport meta tag for proper mobile display." |}.

(** The object literal pushed for [slow-loading]. *)
Definition slowLoadingIssue (technical : TechnicalAnalysis) : Issue :=
  {| issue_id := "slow-loading";
     issue_type := Severity.warning;
     issue_category := Category.performance;
     issue_title := "Slow page load time";
     issue_description :=
       "Page loads in " +:+ JS.string_of_rounded (loadTime technical) +:+ "ms.";
     issue_element := None;
     issue_location := None;
     issue_impact := Impact.medium;
     issue_recommendation :=
       "Optimize images, minify CSS/JS, and use caching to improve load times." |}.

(** The object literal pushed for [seo-optimization]. *)
Definition seoOptimization : Recommendation :=
  {| rec_id := "seo-optimization";
     rec_title := "SEO Optimization";
     rec_description :=
       "Improve search engine visibility with better meta tags and content structure.";
     rec_priority := Impact.high;
     rec_category := Category.seo;
     rec_actionItems :=
       [ "Optimize title tag length";
         "Add or improve meta description";
         "Ensure single H1 tag per page";
         "Add Open Graph tags" ];
     rec_estimatedImpact := Impact.high |}.

(** The object literal pushed for [technical-improvements]. *)
Definition technicalImprovements : Recommendation :=
  {| rec_id := "technical-improvements";
     rec_title := "Technical Improvements";
     rec_description := "Enhance website security and mobile optimization.";
     rec_priority := Impact.medium;
     rec_category := Category.technical;
     rec_actionItems :=
       [ "Implement HTTPS if not already";
         "Add viewport meta tag";
         "Optimize mobile experience";
         "Fix broken links" ];
     rec_estimatedImpact := Impact.medium |}.

Definition analyzeIssuesAndRecommendations
  (seo : SEOAnalysis) (technical : TechnicalAnalysis)
  (content : ContentAnalysis) (performance : PerformanceAnalysis)
  : list Issue * list Recommendation :=
  let issues : list Issue := [] in
  let recommendations : list Recommendation := [] in
  let issues :=
    if negb (isOptimal (title seo)) then
      JS.push issues (titleLengthIssue seo)
    else issues in
  let issues :=
    if negb (isOptimal (metaDescription seo)) then
      JS.push issues (metaDescriptionIssue seo)
    else issues in
  let issues :=
    if (List.length (h1 (headingStructure seo)) =? 0)%nat then
      JS.push issues missingH1Issue
    else issues in
  let issues :=
    if (1 <? List.length (h1 (headingStructure seo)))%nat then
      JS.push issues (multipleH1Issue seo)
    else issues in
  let issues :=
    if (0 <? withoutAlt (images content))%nat then
      JS.push issues (imagesWithoutAltIssue content)
    else issues in
  let issues :=
    if (0 <? link_empty (links content))%nat then
      JS.push issues (emptyLinksIssue content)
    else issues in
  let issues :=
    if negb (hasSSL (security technical)) then
      JS.push issues noSSLIssue
    else issues in
  let issues :=
    if negb (hasViewport (mobileOptimization technical)) then
      JS.push issues noViewportIssue
    else issues in
  let issues :=
    if JS.gt (loadTime technical) 3000 then
      JS.push issues (slowLoadingIssue technical)
    else issues in
  let recommendations :=
    JS.push recommendations seoOptimization in
  let recommendations :=
    JS.push recommendations technicalImprovements in
  (issues, recommendations).

(** [categories[key]] and the write-back of the mutated member. *)
Definition getCategory (categories : Categories) (key : Category.t) : CategoryScore :=
  match key with
  | Category.seo => cat_seo categories
  | Category.technical => cat_technical categories
  | Category.content => cat_content categories
  | Category.performance => cat_performance categories
  end.

Definition setCategory (categories : Categories) (key : Category.t) (v : CategoryScore)
  : Categories :=
  match key with
  | Category.seo =>
      {| cat_seo := v; cat_technical := cat_technical categories;
         cat_content := cat_content categories; cat_performance := cat_performance categories |}
  | Category.technical =>
      {| cat_seo := cat_seo categories; cat_technical := v;
         cat_content := cat_content categories; cat_performance := cat_performance categories |}
  | Category.content =>
      {| cat_seo := cat_seo categories; cat_technical := cat_technical categories;
         cat_content := v; cat_performance := cat_performance categories |}
  | Category.performance =>
      {| cat_seo := cat_seo categories; cat_technical := cat_technical categories;
         cat_content := cat_content categories; cat_performance := v |}
  end.

(** [issue.impact === 'high' ? 20 : issue.impact === 'medium' ? 10 : 5] *)
Definition penaltyOf (impact : Impact.t) : Z :=
  match impact with
  | Impact.high => 20
  | Impact.medium => 10
  | _ => 5
  end.

Definition initialCategories : Categories :=
  {| cat_seo := {| score := 100; maxScore := 100; issues := [] |};
     cat_technical := {| score := 100; maxScore := 100; issues := [] |};
     cat_content := {| score := 100; maxScore := 100; issues := [] |};
     cat_performance := {| score := 100; maxScore := 100; issues := [] |} |}.

(** The body of the [forEach] callback. *)
Definition scoreIssue (categories : Categories) (issue : Issue) : Categories :=
  let category := getCategory categories (issue_category issue) in
  let category :=
    {| score := score category; maxScore := maxScore category;
       issues := JS.push (Types.issues category) issue |} in
  let penalty := penaltyOf (issue_impact issue) in
  let category :=
    {| score := Z.max 0 (score category - penalty); maxScore := maxScore category;
       issues := Types.issues category |} in
  setCategory categories (issue_category issue) category.

Definition calculateCategoryScores (issues : list Issue) : Categories :=
  fold_left scoreIssue issues initialCategories.

(** [Object.values(categories)], in property order. *)
Definition Object_values (categories : Categories) : list CategoryScore :=
  [ cat_seo categories; cat_technical categories;
    cat_content categories; cat_performance categories ].

Definition calculateOverallScore (categories : Categories) : Z :=
  let totalScore := fold_left (fun sum cat => sum + score cat) (Object_values categories) 0 in
  JS.Math_round
    (inject_Z totalScore / inject_Z (Z.of_nat (List.length (Object_values categories))))%Q.

End PlaywrightAudit.

(** ** playwright-audit.ts: the browser-driven audit run *)

Module AuditRun.
Import PlaywrightAudit.

(** What the browser is asked to do, in order. *)
Inductive BrowserEvent : Type :=
| Launch
| NewContext (width height : Z)
| Goto (url : string) (timeout : Z)
| WaitForSelector (selector : string) (timeout : Z)
| Screenshot (fullPage : bool)
| SetViewportSize (width height : Z)
| CloseContext.

(** The module-level [browserInstance] and the requests issued so far. *)
Record Browser : Type := {
  browserInstance : bool;
  events : list BrowserEvent
}.

(** What a loaded page answers: the DOM lookups of [analyzeSEO], the
    bundles [analyzeTechnical], [analyzeContent] and [analyzePerformance]
    resolve to, and the base64 text of the two PNG captures. *)
Record PageSnapshot : Type := {
  snap_dom : DomLookups;
  snap_technical : TechnicalAnalysis;
  snap_content : ContentAnalysis;
  snap_performance : PerformanceAnalysis;
  snap_desktopPng : string;
  snap_mobilePng : string
}.

(** How the navigation to a URL goes: [page.goto] rejects, or it resolves
    and [waitForSelector('body')] rejects, or the page is loaded. *)
Inductive Navigation : Type :=
| GotoRejects (message : string)
| BodyMissing (message : string)
| Loaded (page : PageSnapshot).

Definition Web : Type := string -> Navigation.

(** The clock readings of one run, in the order they are taken. *)
Record Clock : Type := {
  startTime : Z;
  defaultShotsIso : string;
  captureIso : string;
  resultIso : string;
  endTime : Z
}.

Definition log (e : BrowserEvent) (b : Browser) : Browser :=
  {| browserInstance := browserInstance b; events := JS.push (events b) e |}.

Definition getBrowser (b : Browser) : Browser :=
  if negb (browserInstance b)
  then {| browserInstance := true; events := JS.push (events b) Launch |}
  else b.

(** [options?.timeout || 30000] *)
Definition navigationTimeout (options : option AuditOptions) : Z :=
  match options with
  | Some o =>
      match timeout o with
      | Some t => if t =? 0 then 30000 else t
      | None => 30000
      end
  | None => 30000
  end.

(** [options?.includeScreenshots] *)
Definition includeScreenshotsOf (options : option AuditOptions) : option bool :=
  match options with
  | Some o => includeScreenshots o
  | None => None
  end.

(** [v !== false] *)
Definition notStrictlyFalse (v : option bool) : bool :=
  match v with
  | Some false => false
  | _ => true
  end.

Definition captureScreenshots (clock : Clock) (page : PageSnapshot) (b : Browser)
  : Screenshots * Browser :=
  let timestamp := captureIso clock in
  let b := log (Screenshot true) b in
  let desktopScreenshot := snap_desktopPng page in
  let b := log (SetViewportSize 375 667) b in
  let b := log (Screenshot true) b in
  let mobileScreenshot := snap_mobilePng page in
  ({| desktop := Some ("data:image/png;base64," +:+ desktopScreenshot);
      mobile := Some ("data:image/png;base64," +:+ mobileScreenshot);
      shots_timestamp := timestamp |}, b).

Definition runPlaywrightAudit (web : Web) (clock : Clock)
  (url : string) (options : option AuditOptions) (b : Browser)
  : JS.Settled AuditResult * Browser :=
  let b := getBrowser b in
  let b := log (NewContext 1920 1080) b in
  let b := log (Goto url (navigationTimeout options)) b in
  match web url with
  | GotoRejects message => (JS.Rejected message, log CloseContext b)
  | BodyMissing message =>
      let b := log (WaitForSelector "body" 10000) b in
      (JS.Rejected message, log CloseContext b)
  | Loaded page =>
      let b := log (WaitForSelector "body" 10000) b in
      let seoAnalysis := analyzeSEO (snap_dom page) in
      let technicalAnalysis := snap_technical page in
      let contentAnalysis := snap_content page in
      let performanceAnalysis := snap_performance page in
      let screenshots :=
        {| desktop := None; mobile := None; shots_timestamp := defaultShotsIso clock |} in
      let '(screenshots, b) :=
        if notStrictlyFalse (includeScreenshotsOf options)
        then captureScreenshots clock page b
        else (screenshots, b) in
      let '(issues, recommendations) :=
        analyzeIssuesAndRecommendations
          seoAnalysis technicalAnalysis contentAnalysis performanceAnalysis in
      let categories := calculateCategoryScores issues in
      let overallScore := calculateOverallScore categories in
      let processingTime := endTime clock - startTime clock in
      (JS.Resolved
         {| audit_id := None;
            audit_userId := None;
            audit_createdAt := None;
            audit_updatedAt := None;
            audit_status := None;
            audit_processingTime := Some processingTime;
            audit_url := url;
            audit_timestamp := resultIso clock;
            audit_overallScore := overallScore;
            audit_categories := categories;
            audit_seo := seoAnalysis;
            audit_technical := technicalAnalysis;
            audit_content := contentAnalysis;
            audit_performance := performanceAnalysis;
            audit_screenshots := screenshots;
            audit_recommendations := recommendations;
            audit_issues := issues;
            audit_llmAnalysis := None |},
       log CloseContext b)
  end.

End AuditRun.

(** ** llm-service.ts: the heuristic deep-analysis generator *)

Module LLMService.

Local Abbreviation q := JS.quoted.

Record LLMAnalysisOptions : Type := {
  includeContentAnalysis : option bool;
  includeBusinessImpact : option bool;
  includeCodeExamples : option bool;
  includePriorityScoring : option bool
}.

Record t : Type := {
  apiKey : string;
  baseUrl : string
}.

(** [placeholderLinks && placeholderLinks.length > 0]: an absent list is
    falsy, an array (even an empty one) is truthy. *)
Definition hasPlaceholderLinks (content : ContentAnalysis) : bool :=
  match placeholderLinks content with
  | Some l => (0 <? List.length l)%nat
  | None => false
  end.

(** [placeholderLinks.length], read only where the list is present. *)
Definition placeholderCount (content : ContentAnalysis) : nat :=
  match placeholderLinks content with
  | Some l => List.length l
  | None => 0%nat
  end.

(** Truthiness of the optional flag [hasSuspiciousTestimonials]. *)
Definition suspicious (content : ContentAnalysis) : bool :=
  match hasSuspiciousTestimonials content with
  | Some true => true
  | _ => false
  end.

Definition extractCriticalIssues (auditResult : AuditResult) : list DetailedIssue :=
  let critical : list DetailedIssue := [] in
  let critical :=
    if negb (JS.truthy (content (metaDescription (audit_seo auditResult)))) then
      JS.push critical
        {| di_id := "missing-meta-description";
           di_title := "Meta Description Missing";
           di_description := "No <meta name=" +:+ q "description" +:+ "> tag found";
           di_impact := "Poor search engine visibility and click-through rates";
           di_fix := "Add compelling 150-160 character descriptions for each page";
           di_businessImpact := "High - affects search rankings and CTR";
           di_codeExample :=
             Some ("<meta name=" +:+ q "description" +:+ " content="
                     +:+ q "Your compelling description here" +:+ ">") |}
    else critical in
  let critical :=
    if negb (JS.truthy (canonical (audit_seo auditResult))) then
      JS.push critical
        {| di_id := "missing-canonical";
           di_title := "Canonical Links Missing";
           di_description := "No <link rel=" +:+ q "canonical" +:+ "> tags found";
           di_impact := "Potential duplicate content issues";
           di_fix := "Add canonical URLs to all pages";
           di_businessImpact := "Medium - affects search indexing";
           di_codeExample :=
             Some ("<link rel=" +:+ q "canonical" +:+ " href="
                     +:+ q "https://example.com/page" +:+ ">") |}
    else critical in
  let critical :=
    if negb (JS.truthy (og_title (openGraph (audit_seo auditResult)))) then
      JS.push critical
        {| di_id := "missing-open-graph";
           di_title := "Open Graph Meta Tags Missing";
           di_description :=
             "No Facebook/social media sharing optimization. Missing: og:title, og:description, og:image, og:url";
           di_impact := "Poor social media sharing appearance";
           di_fix := "Implement complete OG tag set";
           di_businessImpact := "Medium - affects social media reach";
           di_codeExample :=
             Some ("<meta property=" +:+ q "og:title" +:+ " content=" +:+ q "[Page title]" +:+ ">"
                   +:+ JS.nl +:+
                   "<meta property=" +:+ q "og:description" +:+ " content="
                     +:+ q "[Page description]" +:+ ">"
                   +:+ JS.nl +:+
                   "<meta property=" +:+ q "og:image" +:+ " content="
                     +:+ q "[Social sharing image URL]" +:+ ">"
                   +:+ JS.nl +:+
                   "<meta property=" +:+ q "og:url" +:+ " content="
                     +:+ q "[Current page URL]" +:+ ">"
                   +:+ JS.nl +:+
                   "<meta property=" +:+ q "og:type" +:+ " content=" +:+ q "website" +:+ ">") |}
    else critical in
  let critical :=
    if negb (JS.truthy (viewport (audit_seo auditResult))) then
      JS.push critical
        {| di_id := "missing-viewport";
           di_title := "Viewport Meta Tag Missing";
           di_description := "Need to verify mobile viewport configuration";
           di_impact := "Poor mobile experience and rankings";
           di_fix := "Add viewport meta tag for proper mobile display";
           di_businessImpact := "High - affects mobile SEO";
           di_codeExample :=
             Some ("<meta name=" +:+ q "viewport" +:+ " content="
                     +:+ q "width=device-width, initial-scale=1" +:+ ">") |}
    else critical in
  critical.

Definition extractHighPriorityIssues (auditResult : AuditResult) : list DetailedIssue :=
  let high : list DetailedIssue := [] in
  let high :=
    if hasPlaceholderLinks (audit_content auditResult) then
      JS.push high
        {| di_id := "broken-navigation";
           di_title := "Broken Navigation Links";
           di_description :=
             JS.string_of_nat (placeholderCount (audit_content auditResult))
               +:+ " navigation links point to placeholders (#, #_, example.com)";
           di_impact := "Users cannot navigate the main site sections";
           di_fix := "Replace placeholder links with actual URLs";
           di_businessImpact := "High - affects user experience and engagement";
           di_codeExample :=
             Some ("<!-- Replace these: -->" +:+ JS.nl +:+
                   "<a href=" +:+ q "#_" +:+ ">What We Do</a>" +:+ JS.nl +:+
                   "<!-- With actual URLs: -->" +:+ JS.nl +:+
                   "<a href=" +:+ q "/services" +:+ ">What We Do</a>") |}
    else high in
  let high :=
    if negb (isOptimal (title (audit_seo auditResult))) then
      JS.push high
        {| di_id := "title-optimization";
           di_title := "Title Tag Not Optimal";
           di_description :=
             "Title is " +:+ JS.string_of_nat (length (title (audit_seo auditResult)))
               +:+ " characters. Optimal length is 30-60 characters";
           di_impact := "Suboptimal search visibility and click-through rates";
           di_fix := "Optimize title tag to 30-60 characters";
           di_businessImpact := "Medium - affects search rankings and CTR";
           di_codeExample := None |}
    else high in
  let high :=
    if (0 <? withoutAlt (images (audit_content auditResult)))%nat then
      JS.push high
        {| di_id := "images-accessibility";
           di_title := "Images Without Alt Text";
           di_description :=
             JS.string_of_nat (withoutAlt (images (audit_content auditResult)))
               +:+ " images are missing descriptive alt text";
           di_impact := "Poor accessibility for screen readers and SEO";
           di_fix := "Add descriptive alt text to all images";
           di_businessImpact := "Medium - affects accessibility compliance and SEO";
           di_codeExample :=
             Some ("<img src=" +:+ q "logo.png" +:+ " alt="
                     +:+ q "Company Name - Professional Services" +:+ ">") |}
    else high in
  let high :=
    if negb (hasSSL (security (audit_technical auditResult))) then
      JS.push high
        {| di_id := "no-ssl";
           di_title := "No SSL Certificate";
           di_description := "Website is not using HTTPS";
           di_impact := "Security warnings and poor search rankings";
           di_fix := "Install SSL certificate and redirect HTTP to HTTPS";
           di_businessImpact := "High - affects trust and search rankings";
           di_codeExample := None |}
    else high in
  high.

Definition extractMediumPriorityIssues (auditResult : AuditResult) : list DetailedIssue :=
  let medium : list DetailedIssue := [] in
  let medium :=
    if suspicious (audit_content auditResult) then
      JS.push medium
        {| di_id := "fake-testimonials";
           di_title := "Inappropriate Testimonials";
           di_description :=
             "Testimonials contain clearly fake/test content with celebrity names";
           di_impact := "Damages credibility and professionalism";
           di_fix := "Replace with real client testimonials or remove section";
           di_businessImpact := "Medium - affects brand credibility";
           di_codeExample := None |}
    else medium in
  let medium :=
    if JS.gt (loadTime (audit_technical auditResult)) 3000 then
      JS.push medium
        {| di_id := "slow-loading";
           di_title := "Slow Page Load Time";
           di_description :=
             "Page loads in " +:+ JS.string_of_rounded (loadTime (audit_technical auditResult))
               +:+ "ms";
           di_impact := "Poor user experience and search rankings";
           di_fix := "Optimize images, minify CSS/JS, and use caching";
           di_businessImpact := "Medium - affects user engagement";
           di_codeExample := None |}
    else medium in
  let medium :=
    if (wordCount (audit_content auditResult) <? 300)%nat then
      JS.push medium
        {| di_id := "thin-content";
           di_title := "Thin Content";
           di_description :=
             "Page has only " +:+ JS.string_of_nat (wordCount (audit_content auditResult))
               +:+ " words";
           di_impact := "Poor search engine rankings for competitive terms";
           di_fix := "Add more comprehensive, valuable content";
           di_businessImpact := "Medium - affects SEO performance";
           di_codeExample := None |}
    else medium in
  medium.

Definition calculateContentQualityScore (auditResult : AuditResult) : Z :=
  let score := 100 in
  let score :=
    if negb (JS.truthy (content (metaDescription (audit_seo auditResult))))
    then score - 20 else score in
  let score :=
    if hasPlaceholderLinks (audit_content auditResult)
    then score - Z.of_nat (placeholderCount (audit_content auditResult)) * 5 else score in
  let score :=
    if (0 <? withoutAlt (images (audit_content auditResult)))%nat
    then score - Z.of_nat (withoutAlt (images (audit_content auditResult))) * 3 else score in
  let score :=
    if suspicious (audit_content auditResult) then score - 15 else score in
  Z.max 0 (Z.min 100 score).

Definition extractContentIssues (auditResult : AuditResult) : list string :=
  let issues : list string := [] in
  let issues :=
    if negb (JS.truthy (content (metaDescription (audit_seo auditResult))))
    then JS.push issues "Missing meta description tags" else issues in
  let issues :=
    if hasPlaceholderLinks (audit_content auditResult)
    then JS.push issues
           (JS.string_of_nat (placeholderCount (audit_content auditResult))
              +:+ " broken/placeholder links detected")
    else issues in
  let issues :=
    if (0 <? withoutAlt (images (audit_content auditResult)))%nat
    then JS.push issues
           (JS.string_of_nat (withoutAlt (images (audit_content auditResult)))
              +:+ " images missing alt text")
    else issues in
  let issues :=
    if suspicious (audit_content auditResult)
    then JS.push issues "Fake testimonials detected" else issues in
  issues.

Definition extractContentRecommendations (auditResult : AuditResult) : list string :=
  let recommendations : list string := [] in
  let recommendations := JS.push recommendations "Add compelling meta descriptions to all pages" in
  let recommendations := JS.push recommendations "Fix all broken and placeholder links" in
  let recommendations := JS.push recommendations "Add descriptive alt text to all images" in
  let recommendations := JS.push recommendations "Replace test content with real testimonials" in
  let recommendations := JS.push recommendations "Implement proper heading hierarchy" in
  recommendations.

Definition calculateSEOImpact (auditResult : AuditResult) : string :=
  let criticalIssues := List.length (extractCriticalIssues auditResult) in
  if (3 <=? criticalIssues)%nat then "30-50% with proper meta tags and fixes"
  else if (2 <=? criticalIssues)%nat then "20-30% with SEO improvements"
  else "10-20% with minor optimizations".

Definition calculateUXImpact (auditResult : AuditResult) : string :=
  let hasNavigationIssues := hasPlaceholderLinks (audit_content auditResult) in
  let hasPerformanceIssues := JS.gt (loadTime (audit_technical auditResult)) 3000 in
  if hasNavigationIssues && hasPerformanceIssues
  then "High - functional navigation and performance fixes"
  else if hasNavigationIssues
  then "Medium - functional navigation will reduce bounce rate"
  else if hasPerformanceIssues
  then "Medium - performance improvements will help engagement"
  else "Low to Medium - minor improvements".

Definition calculateConversionImpact (auditResult : AuditResult) : string :=
  let hasContactIssues := hasPlaceholderLinks (audit_content auditResult) in
  let hasCredibilityIssues := suspicious (audit_content auditResult) in
  if hasContactIssues && hasCredibilityIssues
  then "Medium to High - working contact methods and credible testimonials"
  else if hasContactIssues
  then "Medium - working contact methods will improve lead generation"
  else if hasCredibilityIssues
  then "Medium - professional testimonials will increase credibility"
  else "Low to Medium - minor conversion improvements".

Definition extractActionItems (auditResult : AuditResult) : list ActionItem :=
  let actionItems : list ActionItem := [] in
  let actionItems :=
    if negb (JS.truthy (content (metaDescription (audit_seo auditResult)))) then
      JS.push actionItems
        {| ai_priority := Priority.immediate;
           ai_task := "Add meta descriptions to all pages";
           ai_timeline := "Today";
           ai_codeExample :=
             Some ("<meta name=" +:+ q "description" +:+ " content="
                     +:+ q "Compelling 150-160 character description" +:+ ">");
           ai_successMetrics :=
             Some ["Improved search result snippets"; "Higher click-through rates"] |}
    else actionItems in
  let actionItems :=
    if hasPlaceholderLinks (audit_content auditResult) then
      JS.push actionItems
        {| ai_priority := Priority.immediate;
           ai_task := "Fix main navigation links - replace #_ with actual URLs";
           ai_timeline := "Today";
           ai_codeExample := Some ("<a href=" +:+ q "/services" +:+ ">What We Do</a>");
           ai_successMetrics := Some ["Functional navigation"; "Reduced bounce rate"] |}
    else actionItems in
  let actionItems :=
    if suspicious (audit_content auditResult) then
      JS.push actionItems
        {| ai_priority := Priority.immediate;
           ai_task := "Replace fake testimonials with real content or remove";
           ai_timeline := "Today";
           ai_codeExample := None;
           ai_successMetrics := Some ["Improved credibility"; "Better user trust"] |}
    else actionItems in
  let actionItems :=
    if negb (JS.truthy (og_title (openGraph (audit_seo auditResult)))) then
      JS.push actionItems
        {| ai_priority := Priority.high;
           ai_task := "Implement Open Graph tags for social sharing";
           ai_timeline := "This week";
           ai_codeExample :=
             Some ("<meta property=" +:+ q "og:title" +:+ " content=" +:+ q "Page Title" +:+ ">"
                   +:+ JS.nl +:+
                   "<meta property=" +:+ q "og:description" +:+ " content="
                     +:+ q "Page Description" +:+ ">");
           ai_successMetrics := Some ["Better social sharing"; "Increased social engagement"] |}
    else actionItems in
  let actionItems :=
    if (0 <? withoutAlt (images (audit_content auditResult)))%nat then
      JS.push actionItems
        {| ai_priority := Priority.high;
           ai_task := "Audit image alt attributes";
           ai_timeline := "This week";
           ai_codeExample :=
             Some ("<img src=" +:+ q "image.jpg" +:+ " alt=" +:+ q "Descriptive alt text" +:+ ">");
           ai_successMetrics := Some ["Better accessibility"; "Improved SEO"] |}
    else actionItems in
  let actionItems :=
    JS.push actionItems
      {| ai_priority := Priority.medium;
         ai_task := "Content proofreading and corrections";
         ai_timeline := "This month";
         ai_codeExample := None;
         ai_successMetrics := Some ["Professional appearance"; "Better user experience"] |} in
  let actionItems :=
    JS.push actionItems
      {| ai_priority := Priority.medium;
         ai_task := "Implement structured data markup";
         ai_timeline := "This month";
         ai_codeExample := None;
         ai_successMetrics := Some ["Rich search results"; "Better search visibility"] |} in
  actionItems.

Definition getFallbackAnalysis (auditResult : AuditResult) : LLMAnalysisResult :=
  {| criticalIssues := extractCriticalIssues auditResult;
     highPriorityIssues := extractHighPriorityIssues auditResult;
     mediumPriorityIssues := extractMediumPriorityIssues auditResult;
     contentQualityAssessment :=
       {| cqa_overallScore := calculateContentQualityScore auditResult;
          cqa_issues := extractContentIssues auditResult;
          cqa_recommendations := extractContentRecommendations auditResult |};
     businessImpactProjections :=
       {| searchVisibilityIncrease := calculateSEOImpact auditResult;
          userExperienceImprovement := calculateUXImpact auditResult;
          conversionRateImpact := calculateConversionImpact auditResult |};
     actionItems := extractActionItems auditResult |}.

(** *** The generative-analysis call *)

(** How a statement completes: normally, by [return], or by [throw]. *)
Inductive Completion (A : Type) : Type :=
| Normal
| Return (a : A)
| Throw (message : string).
Arguments Normal {A}.
Arguments Return {A} a.
Arguments Throw {A} message.

(** [s1; s2]: the second statement runs only when the first completes
    normally. *)
Definition andThen {A : Type} (s1 s2 : Completion A) : Completion A :=
  match s1 with
  | Normal => s2
  | Return a => Return a
  | Throw m => Throw m
  end.

(** [try { body } catch (error) { handler }] *)
Definition tryCatch {A : Type} (body : Completion A) (handler : string -> Completion A)
  : Completion A :=
  match body with
  | Throw m => handler m
  | c => c
  end.

Declare Scope completion_scope.
Delimit Scope completion_scope with completion.
Bind Scope completion_scope with Completion.
Notation "s1 ;; s2" := (andThen s1 s2)
  (at level 100, s2 at level 200, right associativity) : completion_scope.
Local Open Scope completion_scope.

(** The last position of [c] in [s], counting from [pos]. *)
Fixpoint lastIndexOf (c : ascii) (s : string) (pos : nat) (acc : option nat) : option nat :=
  match s with
  | EmptyString => acc
  | String a s' => lastIndexOf c s' (S pos) (if Ascii.eqb a c then Some pos else acc)
  end.

Definition fenceOpen : string := "```json" +:+ JS.nl.
Definition fenceClose : string := JS.nl +:+ "```".

(** The match of the fenced-block pattern (dot-all, lazy group between the
    opening fence line and the first closing fence): the whole match and
    its group 1. *)
Definition matchFenced (response : string) : option (string * string) :=
  match String.index 0 fenceOpen response with
  | Some i =>
      let from := (i + String.length fenceOpen)%nat in
      match String.index from fenceClose response with
      | Some j =>
          Some (String.substring i (j + String.length fenceClose - i) response,
                String.substring from (j - from) response)
      | None => None
      end
  | None => None
  end.

(** The match of the brace pattern (greedy): from the first opening brace
    to the last closing brace after it. *)
Definition matchBraces (response : string) : option string :=
  match String.index 0 "{" response with
  | Some i =>
      match lastIndexOf "}"%char response 0 None with
      | Some j =>
          if (i <? j)%nat then Some (String.substring i (j - i + 1) response) else None
      | None => None
      end
  | None => None
  end.

(** [response.match(fenced) || response.match(braces)], then
    [jsonMatch[1] || jsonMatch[0]]: the text handed to [JSON.parse]. *)
Definition jsonCandidate (response : string) : option string :=
  match matchFenced response with
  | Some (whole, group1) =>
      Some (if JS.truthy (Some group1) then group1 else whole)
  | None => matchBraces response
  end.

(** What the service hands back: the heuristic report, or whatever value
    [JSON.parse] produced from the collaborator's text. *)
Inductive Analysis (JSONValue : Type) : Type :=
| Heuristic (report : LLMAnalysisResult)
| Parsed (value : JSONValue).
Arguments Heuristic {JSONValue} report.
Arguments Parsed {JSONValue} value.

(** The body of the reply, as [analyzeAuditResults] reads it. *)
Inductive Body : Type :=
| BodyRejects (message : string)
| NoContent
| Text (text : option string).

(** How the single [fetch] of a call settles. *)
Inductive FetchOutcome : Type :=
| FetchRejects (message : string)
| Response (ok : bool) (status : Z) (body : Body).

Section Generative.

(** [JSON.parse]: [None] when it throws. *)
Variable JSONValue : Type.
Variable JSON_parse : string -> option JSONValue.

Definition parseAnalysisResponse (response : option string) (auditResult : AuditResult)
  : Completion (Analysis JSONValue) :=
  tryCatch
    (match response with
     | None => Throw "TypeError"
     | Some response =>
         match jsonCandidate response with
         | Some text =>
             match JSON_parse text with
             | Some value => Return (Parsed value)
             | None => Throw "SyntaxError"
             end
         | None => Normal
         end
     end)
    (fun error => Normal) ;;
  Return (Heuristic (getFallbackAnalysis auditResult)).

(** The statements of [analyzeAuditResults] that follow its first
    [return]. *)
Definition generativePath (self : t) (auditResult : AuditResult)
  (outcome : FetchOutcome) : Completion (Analysis JSONValue) :=
  (if String.eqb (apiKey self) ""
   then Return (Heuristic (getFallbackAnalysis auditResult))
   else Normal) ;;
  tryCatch
    (match outcome with
     | FetchRejects message => Throw message
     | Response ok status body =>
         (if negb ok
          then Throw ("LLM API error: " +:+ JS.string_of_Z status)
          else Normal) ;;
         match body with
         | BodyRejects message => Throw message
         | NoContent => Throw "TypeError"
         | Text text => parseAnalysisResponse text auditResult
         end
     end)
    (fun error => Return (Heuristic (getFallbackAnalysis auditResult))).

Definition analyzeAuditResults (self : t) (auditResult : AuditResult)
  (pageContent : string) (options : LLMAnalysisOptions) (outcome : FetchOutcome)
  : Completion (Analysis JSONValue) :=
  Return (Heuristic (getFallbackAnalysis auditResult)) ;;
  generativePath self auditResult outcome.

End Generative.

End LLMService.

(** ** storage/memory-storage.ts *)

Module MemoryStorage.

(** The readings [saveAudit] takes from its environment: [Date.now()] and
    the base-36 text of [Math.random()] inside [generateId], then the ISO
    text of [new Date()]. *)
Record Env : Type := {
  Date_now : Z;
  Math_random_base36 : string;
  Date_toISOString : string
}.

Definition generateId (env : Env) : string :=
  "audit_" +:+ JS.string_of_Z (Date_now env) +:+ "_"
    +:+ String.substring 2 9 (Math_random_base36 env).

(** [{ ...audit, id, createdAt, status: 'completed' }] *)
Definition withMetadata (audit : AuditResult) (id createdAt : string) : AuditResult :=
  {| audit_id := Some id;
     audit_userId := audit_userId audit;
     audit_createdAt := Some createdAt;
     audit_updatedAt := audit_updatedAt audit;
     audit_status := Some Status.completed;
     audit_processingTime := audit_processingTime audit;
     audit_url := audit_url audit;
     audit_timestamp := audit_timestamp audit;
     audit_overallScore := audit_overallScore audit;
     audit_categories := audit_categories audit;
     audit_seo := audit_seo audit;
     audit_technical := audit_technical audit;
     audit_content := audit_content audit;
     audit_performance := audit_performance audit;
     audit_screenshots := audit_screenshots audit;
     audit_recommendations := audit_recommendations audit;
     audit_issues := audit_issues audit;
     audit_llmAnalysis := audit_llmAnalysis audit |}.

(** The private [audits] map is the state; every method threads it. *)
Definition saveAudit (env : Env) (audit : AuditResult) (audits : gmap string AuditResult)
  : string * gmap string AuditResult :=
  let id := generateId env in
  let auditWithMetadata := withMetadata audit id (Date_toISOString env) in
  (id, <[id := auditWithMetadata]> audits).

(** [this.audits.get(id) || null]: a stored record is an object, hence
    truthy, so the result is the stored record or [null]. *)
Definition getAudit (id : string) (audits : gmap string AuditResult) : option AuditResult :=
  audits !! id.

(** [Map.prototype.delete]: removes the entry and tells whether there was
    one. *)
Definition Map_delete (id : string) (audits : gmap string AuditResult)
  : bool * gmap string AuditResult :=
  match audits !! id with
  | Some _ => (true, delete id audits)
  | None => (false, audits)
  end.

Definition deleteAudit (id : string) (audits : gmap string AuditResult)
  : bool * gmap string AuditResult :=
  Map_delete id audits.

End MemoryStorage.

(** ** audit-service.ts *)

Module AuditService.
Import AuditRun.

(** The part of a parsed [URL] object the service reads. *)
Record URL : Type := {
  protocol : string
}.

(** What an audit run can touch: the stored records and the browser. *)
Record World : Type := {
  storage : gmap string AuditResult;
  browser : Browser
}.

Section Service.

(** [new URL(url)]: [None] when the constructor throws. *)
Variable URL_new : string -> option URL.

Definition isValidURL (url : string) : bool :=
  match URL_new url with
  | Some urlObj => existsb (String.eqb (protocol urlObj)) ["http:"; "https:"]
  | None => false
  end.

Definition runAudit (web : Web) (clock : Clock) (env : MemoryStorage.Env)
  (url : string) (options : option AuditOptions) (w : World)
  : JS.Settled string * World :=
  if negb (isValidURL url) then
    (JS.Rejected "Invalid URL format", w)
  else
    let '(auditResult, b) := runPlaywrightAudit web clock url options (browser w) in
    match auditResult with
    | JS.Rejected message =>
        (JS.Rejected message, {| storage := storage w; browser := b |})
    | JS.Resolved auditResult =>
        let '(auditId, audits) := MemoryStorage.saveAudit env auditResult (storage w) in
        (JS.Resolved auditId, {| storage := audits; browser := b |})
    end.

Definition getAuditResult (id : string) (w : World) : option AuditResult :=
  MemoryStorage.getAudit id (storage w).

Definition deleteAudit (id : string) (w : World) : bool * World :=
  let '(deleted, audits) := MemoryStorage.deleteAudit id (storage w) in
  (deleted, {| storage := audits; browser := browser w |}).

End Service.

End AuditService.

(** ** playwright-audit.ts: the content statistics of [analyzeContent] *)

Module ContentExtraction.

(** What the page hands over for one [img] and one [a[href]] element. *)
Record Image : Type := {
  image_src : option string;
  image_alt : option string;
  image_loading : option string
}.

Record Link : Type := {
  anchor_href : option string;
  anchor_text : option string;
  anchor_rel : option string
}.

(** White space and line terminators among the 8-bit code units: tab,
    line feed, vertical tab, form feed, carriage return, space and
    no-break space. *)
Definition isWhiteSpace (c : ascii) : bool :=
  match nat_of_ascii c with
  | 9%nat | 10%nat | 11%nat | 12%nat | 13%nat | 32%nat | 160%nat => true
  | _ => false
  end.

Fixpoint trimStart (s : string) : string :=
  match s with
  | EmptyString => EmptyString
  | String c s' => if isWhiteSpace c then trimStart s' else s
  end.

Fixpoint trimEnd (s : string) : string :=
  match s with
  | EmptyString => EmptyString
  | String c s' =>
      match trimEnd s' with
      | EmptyString => if isWhiteSpace c then EmptyString else String c EmptyString
      | t => String c t
      end
  end.

(** [s.trim()] *)
Definition trim (s : string) : string := trimEnd (trimStart s).

(** [s.split(/\s+/)]: the pieces between the maximal runs of white space;
    [cur] is the piece being read and [inSep] tells that the previous
    character was white space. *)
Fixpoint splitOnWhiteSpace (s cur : string) (inSep : bool) : list string :=
  match s with
  | EmptyString => [cur]
  | String c s' =>
      if isWhiteSpace c
      then if inSep
           then splitOnWhiteSpace s' cur true
           else cur :: splitOnWhiteSpace s' EmptyString true
      else splitOnWhiteSpace s' (cur +:+ String c EmptyString) false
  end.

(** [s.includes(part)] and [s.startsWith(part)] *)
Definition includes (part s : string) : bool :=
  match String.index 0 part s with
  | Some _ => true
  | None => false
  end.

Definition startsWith (part s : string) : bool := String.prefix part s.

(** [value?.method(...)] used as a condition: an absent value is falsy. *)
Definition whenPresent (test : string -> bool) (value : option string) : bool :=
  match value with
  | Some s => test s
  | None => false
  end.

(** [!value || value.trim() === ''] *)
Definition blank (value : option string) : bool :=
  negb (JS.truthy value) || whenPresent (fun s => String.eqb (trim s) "") value.

(** [(document.body.textContent || '').trim().split(/\s+/).length] *)
Definition countWords (textContent : string) : nat :=
  let text := if JS.truthy (Some textContent) then textContent else "" in
  List.length (splitOnWhiteSpace (trim text) EmptyString false).

Definition analyzeContent (pageUrl : string) (textContent : string)
  (images : list Image) (links : list Link) : ContentAnalysis :=
  let wordCount := countWords textContent in
  let imagesWithoutAlt := List.filter (fun img => blank (image_alt img)) images in
  let emptyAltImages :=
    List.filter (fun img => whenPresent (fun alt => String.eqb alt "") (image_alt img)) images in
  let lazyImages :=
    List.filter
      (fun img => whenPresent (fun loading => String.eqb loading "lazy") (image_loading img))
      images in
  let internalLinks :=
    List.filter
      (fun link => whenPresent (startsWith "/") (anchor_href link)
                   || whenPresent (includes pageUrl) (anchor_href link))
      links in
  let externalLinks :=
    List.filter
      (fun link => whenPresent (startsWith "http") (anchor_href link)
                   && negb (whenPresent (includes pageUrl) (anchor_href link)))
      links in
  let nofollowLinks :=
    List.filter (fun link => whenPresent (includes "nofollow") (anchor_rel link)) links in
  let emptyLinks := List.filter (fun link => blank (anchor_text link)) links in
  {| wordCount := wordCount;
     readabilityScore := 75;
     images :=
       {| img_total := List.length images;
          withoutAlt := List.length imagesWithoutAlt;
          withEmptyAlt := List.length emptyAltImages;
          lazyLoaded := List.length lazyImages;
          oversized := 0 |};
     links :=
       {| link_total := List.length links;
          link_internal := List.length internalLinks;
          link_external := List.length externalLinks;
          link_broken := 0;
          link_nofollow := List.length nofollowLinks;
          link_empty := List.length emptyLinks |};
     structuredData := {| hasStructuredData := false; sd_types := []; sd_errors := [] |};
     placeholderLinks := None;
     hasSuspiciousTestimonials := None |}.

End ContentExtraction.

(** ** storage/memory-storage.ts: [listAudits], and the service methods
    that call it *)

Module Listing.

Record AuditFilters : Type := {
  filter_userId : option string;
  filter_dateFrom : option string;
  filter_dateTo : option string;
  filter_minScore : option Z;
  filter_url : option string
}.

(** The summary object of the final [map]; [id] and [createdAt] are read
    with a non-null assertion, which checks nothing at run time. *)
Record AuditSummary : Type := {
  summary_id : option string;
  summary_url : string;
  summary_score : Z;
  summary_createdAt : option string;
  summary_status : Status.t
}.

(** [toLowerCase] on 8-bit code units: A-Z and the Latin-1 capitals. *)
Definition lowerChar (c : ascii) : ascii :=
  let n := nat_of_ascii c in
  if ((65 <=? n) && (n <=? 90))%nat
     || ((192 <=? n) && (n <=? 222) && negb (n =? 215))%nat
  then ascii_of_nat (n + 32)
  else c.

Fixpoint toLowerCase (s : string) : string :=
  match s with
  | EmptyString => EmptyString
  | String c s' => String (lowerChar c) (toLowerCase s')
  end.

(** Truthiness of an optional number: absent and 0 are falsy. *)
Definition truthyNumber (n : option Z) : bool :=
  match n with
  | Some z => negb (z =? 0)
  | None => false
  end.

(** [filters?.field]; each filter below is applied when this value is
    truthy (a non-empty string, a number other than 0). *)
Definition field {A : Type} (filters : option AuditFilters)
  (get : AuditFilters -> option A) : option A :=
  match filters with
  | Some f => get f
  | None => None
  end.

(** [audit.createdAt! >= bound] and [audit.createdAt! <= bound] on strings;
    a comparison with [undefined] is false. *)
Definition createdAtLeast (bound : string) (audit : AuditResult) : bool :=
  match audit_createdAt audit with
  | Some c => String.leb bound c
  | None => false
  end.

Definition createdAtMost (bound : string) (audit : AuditResult) : bool :=
  match audit_createdAt audit with
  | Some c => String.leb c bound
  | None => false
  end.

(** [Array.prototype.sort] with a comparator, as a stable insertion sort.
    The language fixes the result for a consistent comparator (any stable
    sort then gives the same list); for an inconsistent one the order is
    implementation-defined. *)
Fixpoint insertBy {A : Type} (cmp : A -> A -> Z) (x : A) (l : list A) : list A :=
  match l with
  | [] => [x]
  | y :: l' => if cmp x y <=? 0 then x :: y :: l' else y :: insertBy cmp x l'
  end.

Fixpoint Array_sort {A : Type} (cmp : A -> A -> Z) (l : list A) : list A :=
  match l with
  | [] => []
  | x :: l' => insertBy cmp x (Array_sort cmp l')
  end.

Section Dates.

(** [new Date(text).getTime()]: [None] for an invalid date ([NaN]). *)
Variable Date_getTime : string -> option Z.

(** [new Date(audit.createdAt!).getTime()]; [new Date(undefined)] is an
    invalid date. *)
Definition timeOf (audit : AuditResult) : option Z :=
  match audit_createdAt audit with
  | Some c => Date_getTime c
  | None => None
  end.

(** The comparator [(a, b) => time(b) - time(a)]; a [NaN] result counts
    as 0 in [sort]. *)
Definition byRecency (a b : AuditResult) : Z :=
  match timeOf b, timeOf a with
  | Some tb, Some ta => tb - ta
  | _, _ => 0
  end.

Definition summarize (audit : AuditResult) : AuditSummary :=
  {| summary_id := audit_id audit;
     summary_url := audit_url audit;
     summary_score := audit_overallScore audit;
     summary_createdAt := audit_createdAt audit;
     summary_status := match audit_status audit with
                       | Some s => s
                       | None => Status.completed
                       end |}.

(** [listAudits]; [audits] is [Array.from(this.audits.values())], the
    stored records in insertion order. *)
Definition listAudits (filters : option AuditFilters) (audits : list AuditResult)
  : list AuditSummary :=
  let filtered := audits in
  let filtered :=
    match field filters filter_url with
    | Some (String _ _ as url) =>
        List.filter
          (fun audit =>
             ContentExtraction.includes (toLowerCase url) (toLowerCase (audit_url audit)))
          filtered
    | _ => filtered
    end in
  let filtered :=
    match field filters filter_minScore with
    | Some minScore =>
        if truthyNumber (Some minScore)
        then List.filter (fun audit => minScore <=? audit_overallScore audit) filtered
        else filtered
    | None => filtered
    end in
  let filtered :=
    match field filters filter_userId with
    | Some (String _ _ as userId) =>
        List.filter
          (fun audit =>
             match audit_userId audit with
             | Some u => String.eqb u userId
             | None => false
             end)
          filtered
    | _ => filtered
    end in
  let filtered :=
    match field filters filter_dateFrom with
    | Some (String _ _ as dateFrom) => List.filter (createdAtLeast dateFrom) filtered
    | _ => filtered
    end in
  let filtered :=
    match field filters filter_dateTo with
    | Some (String _ _ as dateTo) => List.filter (createdAtMost dateTo) filtered
    | _ => filtered
    end in
  map summarize (Array_sort byRecency filtered).

(** audit-service.ts: [getUserAudits] and [searchAudits]. *)
Definition getUserAudits (userId : option string) (audits : list AuditResult)
  : list AuditSummary :=
  listAudits
    (Some {| filter_userId := userId; filter_dateFrom := None; filter_dateTo := None;
             filter_minScore := None; filter_url := None |})
    audits.

Definition searchAudits (query : string) (audits : list AuditResult) : list AuditSummary :=
  listAudits
    (Some {| filter_userId := None; filter_dateFrom := None; filter_dateTo := None;
             filter_minScore := None; filter_url := Some query |})
    audits.

End Dates.

End Listing.

(** ** pages/api: the HTTP handlers *)

Module Api.
Import AuditRun AuditService.

(** The object a handler serialises as the response body; an absent key and
    a [null] value are both [None]. *)
Record ResponseBody (D : Type) : Type := {
  body_success : bool;
  body_data : option D;
  body_error : option string;
  body_auditId : option string;
  body_processingTime : option Z
}.
Arguments body_success {D} _.
Arguments body_data {D} _.
Arguments body_error {D} _.
Arguments body_auditId {D} _.
Arguments body_processingTime {D} _.

Record Response (D : Type) : Type := {
  response_status : Z;
  response_body : ResponseBody D
}.
Arguments response_status {D} _.
Arguments response_body {D} _.

(** [{ success: false, error }] with the given status. *)
Definition failure {D : Type} (status : Z) (error : string) : Response D :=
  {| response_status := status;
     response_body :=
       {| body_success := false; body_data := None; body_error := Some error;
          body_auditId := None; body_processingTime := None |} |}.

(** What [await request.json()] gives: it rejects, or yields an object
    whose [url] and [options] members are read. *)
Inductive RequestJson : Type :=
| JsonRejects (message : string)
| JsonObject (url : option string) (options : option AuditOptions).

Section Handlers.

Variable URL_new : string -> option URL.

(** [POST /api/audit]; [handlerStart] and [handlerEnd] are the two
    [Date.now()] readings of the handler. Every error the model can raise
    is an [Error] with a message, which becomes the [error] member. *)
Definition POST (web : Web) (clock : Clock) (env : MemoryStorage.Env)
  (handlerStart handlerEnd : Z) (request : RequestJson) (w : World)
  : Response AuditResult * World :=
  match request with
  | JsonRejects message => (failure 500 message, w)
  | JsonObject url options =>
      match url with
      | Some (String _ _ as url) =>
          let startTime := handlerStart in
          let '(auditId, w') := runAudit URL_new web clock env url options w in
          match auditId with
          | JS.Rejected message => (failure 500 message, w')
          | JS.Resolved auditId =>
              let processingTime := handlerEnd - startTime in
              let auditResult := getAuditResult auditId w' in
              ({| response_status := 200;
                  response_body :=
                    {| body_success := true; body_data := auditResult; body_error := None;
                       body_auditId := Some auditId;
                       body_processingTime := Some processingTime |} |}, w')
          end
      | _ => (failure 400 "URL is required", w)
      end
  end.

(** [GET /api/audit/[id]]; [id] is [params.id]. *)
Definition GET_audit (id : option string) (w : World) : Response AuditResult :=
  match id with
  | Some (String _ _ as auditId) =>
      match getAuditResult auditId w with
      | Some audit =>
          {| response_status := 200;
             response_body :=
               {| body_success := true; body_data := Some audit; body_error := None;
                  body_auditId := None; body_processingTime := None |} |}
      | None => failure 404 "Audit not found"
      end
  | _ => failure 400 "Audit ID is required"
  end.

End Handlers.

(** [GET /api/audits]; [q] and [userId] are the two query parameters and
    [audits] the stored records in insertion order. *)
Definition GET_audits (Date_getTime : string -> option Z) (q userId : option string)
  (audits : list AuditResult) : Response (list Listing.AuditSummary) :=
  let listed :=
    match q with
    | Some (String _ _ as query) => Listing.searchAudits Date_getTime query audits
    | _ =>
        Listing.getUserAudits Date_getTime
          (if JS.truthy userId then userId else None) audits
    end in
  {| response_status := 200;
     response_body :=
       {| body_success := true; body_data := Some listed; body_error := None;
          body_auditId := None; body_processingTime := None |} |}.

End Api.

(* ===================================================================== *)
(** * Part II. Reference definitions                                      *)
(* ===================================================================== *)

(** ** The scoring rules in the specification's words *)

Module ScoringSpec.

Definition penalty (impact : Impact.t) : Z :=
  match impact with
  | Impact.high => 20
  | Impact.medium => 10
  | Impact.low => 5
  end.

Definition sameCategory (a b : Category.t) : bool :=
  match a, b with
  | Category.seo, Category.seo => true
  | Category.technical, Category.technical => true
  | Category.content, Category.content => true
  | Category.performance, Category.performance => true
  | _, _ => false
  end.

(** The sum of the penalties of the issues of one category. *)
Definition penaltySum (c : Category.t) (issues : list Issue) : Z :=
  fold_right Z.add 0
    (map (fun i => penalty (issue_impact i))
       (List.filter (fun i => sameCategory c (issue_category i)) issues)).

(** The arithmetic mean of the four category scores. *)
Definition mean (categories : Categories) : Q :=
  (inject_Z (score (cat_seo categories) + score (cat_technical categories)
             + score (cat_content categories) + score (cat_performance categories))
   / inject_Z 4)%Q.

(** [n] is [x] rounded to the nearest integer, a tie going up. *)
Definition roundsHalfUpTo (x : Q) (n : Z) : Prop :=
  (inject_Z n - (1 # 2) <= x)%Q /\ (x < inject_Z n + (1 # 2))%Q.

End ScoringSpec.

(** ** The deriver's rule table in the specification's words *)

Module DeriverSpec.
Import PlaywrightAudit.

(** One rule: whether its predicate holds on the bundles, and the issue its
    template yields. *)
Record Rule : Type := {
  holds : bool;
  emits : Issue
}.

(** The nine rules in their fixed evaluation order. The flag [isOptimal]
    of the meta description is false both for a description of non-optimal
    length and for a missing one (see [metaNotOptimal_extracted]). *)
Definition ruleTable (seo : SEOAnalysis) (technical : TechnicalAnalysis)
  (content : ContentAnalysis) : list Rule :=
  [ {| holds := negb (isOptimal (title seo)); emits := titleLengthIssue seo |};
    {| holds := negb (isOptimal (metaDescription seo)); emits := metaDescriptionIssue seo |};
    {| holds := (List.length (h1 (headingStructure seo)) =? 0)%nat; emits := missingH1Issue |};
    {| holds := (1 <? List.length (h1 (headingStructure seo)))%nat;
       emits := multipleH1Issue seo |};
    {| holds := (0 <? withoutAlt (images content))%nat; emits := imagesWithoutAltIssue content |};
    {| holds := (0 <? link_empty (links content))%nat; emits := emptyLinksIssue content |};
    {| holds := negb (hasSSL (security technical)); emits := noSSLIssue |};
    {| holds := negb (hasViewport (mobileOptimization technical)); emits := noViewportIssue |};
    {| holds := JS.gt (loadTime technical) 3000; emits := slowLoadingIssue technical |} ].

(** The issues of the rules whose predicates hold, in table order. *)
Definition fired (rules : list Rule) : list Issue :=
  map emits (List.filter holds rules).

(** Identifier, severity and category of an issue. *)
Definition tagOf (i : Issue) : string * Severity.t * Category.t :=
  (issue_id i, issue_type i, issue_category i).

(** The description is missing, or its length is outside [120,160]. *)
Definition missingOrNotOptimal (description : option string) : bool :=
  match description with
  | None => true
  | Some d => negb ((120 <=? String.length d)%nat && (String.length d <=? 160)%nat)
  end.

(** Sample bundles: a page with no description, no H1, plain HTTP and a
    five-second load. *)
Definition bareSeo : SEOAnalysis :=
  analyzeSEO
    {| dom_title := "Home";
       dom_metaDescription := None;
       dom_metaKeywords := None;
       dom_viewport := None;
       dom_charset := None;
       dom_canonical := None;
       dom_robots := None;
       dom_hreflang := [];
       dom_openGraph :=
         {| og_title := None; og_description := None; og_image := None;
            og_url := None; og_type := None |};
       dom_headings := [("h2", "Welcome")] |}.

Definition zeroTimings (load : JS.number) (viewportTag ssl : bool) : TechnicalAnalysis :=
  {| loadTime := load;
     firstContentfulPaint := JS.Num 0;
     largestContentfulPaint := JS.Num 0;
     cumulativeLayoutShift := JS.Num 0;
     timeToInteractive := JS.Num 0;
     networkRequests := {| net_total := 3; net_failed := 0; net_totalSize := 0 |};
     mobileOptimization :=
       {| hasViewport := viewportTag; isResponsive := viewportTag; touchTargetSize := true |};
     accessibility := {| acc_score := 85; acc_issues := [] |};
     security := {| hasSSL := ssl; mixedContent := false; vulnerabilities := [] |} |}.

Definition bareTechnical : TechnicalAnalysis := zeroTimings (JS.Num 5000) false false.

Definition cleanContent : ContentAnalysis :=
  {| wordCount := 420;
     readabilityScore := 75;
     images :=
       {| img_total := 2; withoutAlt := 0; withEmptyAlt := 0; lazyLoaded := 0; oversized := 0 |};
     links :=
       {| link_total := 5; link_internal := 4; link_external := 1; link_broken := 0;
          link_nofollow := 0; link_empty := 0 |};
     structuredData := {| hasStructuredData := false; sd_types := []; sd_errors := [] |};
     placeholderLinks := None;
     hasSuspiciousTestimonials := None |}.

Definition samplePerformance : PerformanceAnalysis :=
  {| perf_overallScore := 85;
     perf_metrics :=
       {| pm_firstContentfulPaint := JS.Num 0; pm_largestContentfulPaint := JS.Num 0;
          pm_firstInputDelay := JS.Num 0; pm_cumulativeLayoutShift := JS.Num 0;
          pm_speedIndex := JS.Num 0; pm_timeToInteractive := JS.Num 0 |};
     perf_opportunities := [];
     perf_resources :=
       {| res_javascript := {| asset_total := 1; asset_unused := 0; asset_blocking := 0 |};
          res_css := {| asset_total := 1; asset_unused := 0; asset_blocking := 0 |};
          res_images := {| ia_total := 2; ia_unoptimized := 0; ia_totalSize := 0 |} |} |}.

End DeriverSpec.

(** ** Extraction thresholds and the clean-page scenario *)

Module ExtractionSpec.
Import PlaywrightAudit DeriverSpec.

(** A page that answers only the title and description lookups. *)
Definition pageOf (title : string) (description : option string) : DomLookups :=
  {| dom_title := title;
     dom_metaDescription := description;
     dom_metaKeywords := None;
     dom_viewport := None;
     dom_charset := None;
     dom_canonical := None;
     dom_robots := None;
     dom_hreflang := [];
     dom_openGraph :=
       {| og_title := None; og_description := None; og_image := None;
          og_url := None; og_type := None |};
     dom_headings := [] |}.

(** A text of [n] characters. *)
Fixpoint textOfLength (n : nat) : string :=
  match n with
  | O => EmptyString
  | S n' => String "x"%char (textOfLength n')
  end.

Definition titleOptimalAt (n : nat) : bool :=
  isOptimal (title (analyzeSEO (pageOf (textOfLength n) None))).

Definition descriptionOptimalAt (n : nat) : bool :=
  isOptimal (metaDescription (analyzeSEO (pageOf "t" (Some (textOfLength n))))).

(** All five Open Graph fields present. *)
Definition fullOpenGraph (og : OpenGraph) : Prop :=
  JS.truthy (og_title og) = true /\ JS.truthy (og_description og) = true
  /\ JS.truthy (og_image og) = true /\ JS.truthy (og_url og) = true
  /\ JS.truthy (og_type og) = true.

(** The scenario: a 45-character title, a 140-character description,
    exactly one H1, the full Open Graph set, SSL, and a load time of
    800 ms. *)
Definition cleanScenario (page : DomLookups) (technical : TechnicalAnalysis) : Prop :=
  String.length (dom_title page) = 45%nat
  /\ (exists d, dom_metaDescription page = Some d /\ String.length d = 140%nat)
  /\ List.length (headingsOf "h1" (dom_headings page)) = 1%nat
  /\ fullOpenGraph (dom_openGraph page)
  /\ hasSSL (security technical) = true
  /\ (exists t, loadTime technical = JS.Num t /\ (t == 800)%Q).

(** The issue list and the overall score of one run over the bundles. *)
Definition issuesOf (page : DomLookups) (technical : TechnicalAnalysis)
  (content : ContentAnalysis) (performance : PerformanceAnalysis) : list Issue :=
  fst (analyzeIssuesAndRecommendations (analyzeSEO page) technical content performance).

Definition overallOf (page : DomLookups) (technical : TechnicalAnalysis)
  (content : ContentAnalysis) (performance : PerformanceAnalysis) : Z :=
  calculateOverallScore (calculateCategoryScores (issuesOf page technical content performance)).

(** A page that meets the scenario. *)
Definition acmePage (viewportTag : option string) : DomLookups :=
  {| dom_title := "Acme Widgets - Quality Widgets for Every Home";
     dom_metaDescription :=
       Some "Acme Widgets designs, builds and ships durable household widgets, with free delivery, a five-year warranty and friendly support any weekday.";
     dom_metaKeywords := None;
     dom_viewport := viewportTag;
     dom_charset := Some "utf-8";
     dom_canonical := Some "https://acme.example/";
     dom_robots := None;
     dom_hreflang := [];
     dom_openGraph :=
       {| og_title := Some "Acme Widgets";
          og_description := Some "Durable household widgets";
          og_image := Some "https://acme.example/og.png";
          og_url := Some "https://acme.example/";
          og_type := Some "website" |};
     dom_headings := [("h1", "Acme Widgets"); ("h2", "Our range"); ("h2", "Contact")] |}.

(** Its technical bundle, with or without a viewport meta tag. *)
Definition acmeTechnical (viewportTag : bool) : TechnicalAnalysis :=
  zeroTimings (JS.Num 800) viewportTag true.

End ExtractionSpec.

(** ** Screenshot capture *)

Module CaptureSpec.
Import PlaywrightAudit AuditRun DeriverSpec ExtractionSpec.

(** The options object is present and its [includeScreenshots] is [false]. *)
Definition explicitlyDisabled (options : option AuditOptions) : Prop :=
  exists o, options = Some o /\ includeScreenshots o = Some false.

Definition isScreenshot (e : BrowserEvent) : bool :=
  match e with
  | Screenshot _ => true
  | _ => false
  end.

(** How many captures the browser was asked for. *)
Definition screenshotsTaken (b : Browser) : nat :=
  List.length (List.filter isScreenshot (events b)).

(** Both images present. *)
Definition captured (shots : Screenshots) : bool :=
  match desktop shots, mobile shots with
  | Some _, Some _ => true
  | _, _ => false
  end.

(** A sample run: one reachable page, a browser not yet launched. *)
Definition acmeSnapshot : PageSnapshot :=
  {| snap_dom := acmePage (Some "width=device-width, initial-scale=1");
     snap_technical := acmeTechnical true;
     snap_content := cleanContent;
     snap_performance := samplePerformance;
     snap_desktopPng := "iVBORw0KGgoAAAANSUhEUgAAB4A";
     snap_mobilePng := "iVBORw0KGgoAAAANSUhEUgAAAXc" |}.

Definition acmeWeb : Web :=
  fun url =>
    if String.eqb url "https://acme.example/"
    then Loaded acmeSnapshot
    else GotoRejects "net::ERR_NAME_NOT_RESOLVED".

Definition sampleClock : Clock :=
  {| startTime := 1700000000000;
     defaultShotsIso := "2023-11-14T22:13:21.200Z";
     captureIso := "2023-11-14T22:13:21.201Z";
     resultIso := "2023-11-14T22:13:22.100Z";
     endTime := 1700000002100 |}.

Definition freshBrowser : Browser := {| browserInstance := false; events := [] |}.

Definition optionsWith (shots : option bool) : AuditOptions :=
  {| includeScreenshots := shots; mobileTest := None; deepScan := None; timeout := None |}.

End CaptureSpec.

(** ** The heuristic generator in the specification's words *)

Module HeuristicSpec.
Import PlaywrightAudit AuditRun LLMService DeriverSpec ExtractionSpec.

(** The meta description content is missing: absent or empty. *)
Definition descriptionMissing (auditResult : AuditResult) : bool :=
  match content (metaDescription (audit_seo auditResult)) with
  | None => true
  | Some EmptyString => true
  | Some (String _ _) => false
  end.

Definition placeholderLinkCount (auditResult : AuditResult) : Z :=
  match placeholderLinks (audit_content auditResult) with
  | Some l => Z.of_nat (List.length l)
  | None => 0
  end.

Definition imagesMissingAlt (auditResult : AuditResult) : Z :=
  Z.of_nat (withoutAlt (images (audit_content auditResult))).

Definition testimonialsFlagged (auditResult : AuditResult) : bool :=
  match hasSuspiciousTestimonials (audit_content auditResult) with
  | Some true => true
  | _ => false
  end.

Definition clamp (x : Z) : Z := Z.max 0 (Z.min 100 x).

(** 100, minus 20 for a missing description, 5 per placeholder link, 3 per
    image missing alt, 15 for flagged testimonials, clamped to [0,100]. *)
Definition contentQuality (auditResult : AuditResult) : Z :=
  clamp (100
         - (if descriptionMissing auditResult then 20 else 0)
         - 5 * placeholderLinkCount auditResult
         - 3 * imagesMissingAlt auditResult
         - (if testimonialsFlagged auditResult then 15 else 0)).

(** The record one run over the given bundles assembles. *)
Definition assemble (url : string) (page : DomLookups) (technical : TechnicalAnalysis)
  (content : ContentAnalysis) (performance : PerformanceAnalysis) : AuditResult :=
  {| audit_id := None;
     audit_userId := None;
     audit_createdAt := None;
     audit_updatedAt := None;
     audit_status := None;
     audit_processingTime := Some 2100;
     audit_url := url;
     audit_timestamp := "2023-11-14T22:13:22.100Z";
     audit_overallScore := overallOf page technical content performance;
     audit_categories := calculateCategoryScores (issuesOf page technical content performance);
     audit_seo := analyzeSEO page;
     audit_technical := technical;
     audit_content := content;
     audit_performance := performance;
     audit_screenshots :=
       {| desktop := None; mobile := None; shots_timestamp := "2023-11-14T22:13:21.200Z" |};
     audit_recommendations :=
       snd (analyzeIssuesAndRecommendations (analyzeSEO page) technical content performance);
     audit_issues := issuesOf page technical content performance;
     audit_llmAnalysis := None |}.

(** A page whose only negative signal is the missing meta description. *)
Definition noDescriptionPage : DomLookups :=
  {| dom_title := dom_title (acmePage None);
     dom_metaDescription := None;
     dom_metaKeywords := None;
     dom_viewport := Some "width=device-width, initial-scale=1";
     dom_charset := Some "utf-8";
     dom_canonical := Some "https://acme.example/";
     dom_robots := None;
     dom_hreflang := [];
     dom_openGraph := dom_openGraph (acmePage None);
     dom_headings := dom_headings (acmePage None) |}.

Definition noDescriptionAudit : AuditResult :=
  assemble "https://acme.example/" noDescriptionPage (acmeTechnical true)
    cleanContent samplePerformance.

(** The collaborator gives nothing usable: no API key, a rejected or
    timed-out request, a non-success reply, a body that cannot be read, or
    a text from which no JSON can be parsed. *)
Definition collaboratorFails {JSONValue : Type} (JSON_parse : string -> option JSONValue)
  (self : LLMService.t) (outcome : FetchOutcome) : bool :=
  String.eqb (apiKey self) ""
  || match outcome with
     | FetchRejects _ => true
     | Response false _ _ => true
     | Response true _ (BodyRejects _) => true
     | Response true _ NoContent => true
     | Response true _ (Text None) => true
     | Response true _ (Text (Some text)) =>
         match jsonCandidate text with
         | None => true
         | Some candidate =>
             match JSON_parse candidate with
             | None => true
             | Some _ => false
             end
         end
     end.

(** The report has its six sections filled the way the generator fills
    them: a score within range, the five standing recommendations, and the
    two housekeeping action items last. *)
Definition completeReport (report : LLMAnalysisResult) : Prop :=
  0 <= cqa_overallScore (contentQualityAssessment report) <= 100
  /\ List.length (cqa_recommendations (contentQualityAssessment report)) = 5%nat
  /\ (2 <= List.length (actionItems report))%nat.

(** A sample service and a [JSON.parse] that accepts nothing. *)
Definition sampleService : LLMService.t :=
  {| apiKey := "sk-test"; baseUrl := "https://api.anthropic.com/v1/messages" |}.

Definition sampleOptions : LLMAnalysisOptions :=
  {| includeContentAnalysis := None; includeBusinessImpact := None;
     includeCodeExamples := None; includePriorityScoring := None |}.

Definition rejectAll : string -> option unit := fun _ => None.

End HeuristicSpec.

(** ** Storage and service contracts *)

Module StorageSpec.
Import AuditRun MemoryStorage AuditService HeuristicSpec CaptureSpec.

(** Two records agree on every field the storage does not assign. *)
Definition sameAuditData (a b : AuditResult) : Prop :=
  audit_userId a = audit_userId b
  /\ audit_updatedAt a = audit_updatedAt b
  /\ audit_processingTime a = audit_processingTime b
  /\ audit_url a = audit_url b
  /\ audit_timestamp a = audit_timestamp b
  /\ audit_overallScore a = audit_overallScore b
  /\ audit_categories a = audit_categories b
  /\ audit_seo a = audit_seo b
  /\ audit_technical a = audit_technical b
  /\ audit_content a = audit_content b
  /\ audit_performance a = audit_performance b
  /\ audit_screenshots a = audit_screenshots b
  /\ audit_recommendations a = audit_recommendations b
  /\ audit_issues a = audit_issues b
  /\ audit_llmAnalysis a = audit_llmAnalysis b.

Definition sampleEnv : Env :=
  {| Date_now := 1700000002100;
     Math_random_base36 := "0.4fzyo82mvyr";
     Date_toISOString := "2023-11-14T22:13:22.101Z" |}.

(** The caller's string does not parse as a URL, or parses with a scheme
    other than http and https. *)
Definition invalidInput (URL_new : string -> option URL) (url : string) : Prop :=
  URL_new url = None
  \/ exists urlObj, URL_new url = Some urlObj
                    /\ protocol urlObj <> "http:" /\ protocol urlObj <> "https:".

(** A stand-in for the URL constructor on sample inputs: the scheme is the
    non-empty text before the first colon. *)
Definition schemeOnly (url : string) : option URL :=
  match String.index 0 ":" url with
  | Some i =>
      if (0 <? i)%nat then Some {| protocol := String.substring 0 (i + 1) url |} else None
  | None => None
  end.

Definition sampleWorld : World :=
  {| storage := <["audit_1_abc" := noDescriptionAudit]> ∅; browser := freshBrowser |}.

End StorageSpec.

(** ** Further reference definitions for scoring and derivation *)

Module PipelineSpec.
Import PlaywrightAudit DeriverSpec ScoringSpec.

(** The issues of one category, in list order. *)
Definition issuesIn (c : Category.t) (issues : list Issue) : list Issue :=
  List.filter (fun i => sameCategory c (issue_category i)) issues.

(** The score of category [c] after scoring [issues]. *)
Definition scoreOf (c : Category.t) (issues : list Issue) : Z :=
  score (getCategory (calculateCategoryScores issues) c).

Definition overall (issues : list Issue) : Z :=
  calculateOverallScore (calculateCategoryScores issues).

(** The issues the deriver returns for four bundles. *)
Definition derived (seo : SEOAnalysis) (technical : TechnicalAnalysis)
  (content : ContentAnalysis) (performance : PerformanceAnalysis) : list Issue :=
  fst (analyzeIssuesAndRecommendations seo technical content performance).

(** A content bundle with an image missing alt text and an empty link. *)
Definition messyContent : ContentAnalysis :=
  {| wordCount := 120;
     readabilityScore := 75;
     images :=
       {| img_total := 4; withoutAlt := 3; withEmptyAlt := 1; lazyLoaded := 0; oversized := 0 |};
     links :=
       {| link_total := 9; link_internal := 6; link_external := 2; link_broken := 0;
          link_nofollow := 0; link_empty := 2 |};
     structuredData := {| hasStructuredData := false; sd_types := []; sd_errors := [] |};
     placeholderLinks := Some ["#"; "#_"];
     hasSuspiciousTestimonials := Some true |}.

(** A low-impact issue, as the [Issue] type allows. *)
Definition lowContentIssue : Issue :=
  {| issue_id := "note";
     issue_type := Severity.info;
     issue_category := Category.content;
     issue_title := "Note";
     issue_description := "A low-impact remark.";
     issue_element := None;
     issue_location := None;
     issue_impact := Impact.low;
     issue_recommendation := "None." |}.

End PipelineSpec.

(** ** Reference definitions for the audit run *)

Module RunSpec.
Import PlaywrightAudit AuditRun CaptureSpec.

Definition isLaunch (e : BrowserEvent) : bool :=
  match e with Launch => true | _ => false end.

Definition isNewContext (e : BrowserEvent) : bool :=
  match e with NewContext _ _ => true | _ => false end.

Definition isCloseContext (e : BrowserEvent) : bool :=
  match e with CloseContext => true | _ => false end.

Definition countOf (p : BrowserEvent -> bool) (l : list BrowserEvent) : nat :=
  List.length (List.filter p l).

(** What the page is asked after the navigation request. *)
Definition pageRequests (web : Web) (url : string) (options : option AuditOptions)
  : list BrowserEvent :=
  match web url with
  | GotoRejects _ => []
  | BodyMissing _ => [WaitForSelector "body" 10000]
  | Loaded _ =>
      WaitForSelector "body" 10000
        :: (if notStrictlyFalse (includeScreenshotsOf options)
            then [Screenshot true; SetViewportSize 375 667; Screenshot true]
            else [])
  end.

(** The requests of one run, in order. *)
Definition runRequests (web : Web) (url : string) (options : option AuditOptions)
  (launched : bool) : list BrowserEvent :=
  (if launched then [] else [Launch])
  ++ [NewContext 1920 1080; Goto url (navigationTimeout options)]
  ++ pageRequests web url options
  ++ [CloseContext].

(** The six heading tags the selector of [analyzeSEO] matches. *)
Definition headingTags : list string := ["h1"; "h2"; "h3"; "h4"; "h5"; "h6"].

Definition headingTotal (hs : HeadingStructure) : nat :=
  (List.length (h1 hs) + List.length (h2 hs) + List.length (h3 hs)
   + List.length (h4 hs) + List.length (h5 hs) + List.length (h6 hs))%nat.

End RunSpec.

(** ** Reference definitions for the service *)

Module ServiceSpec.
Import AuditRun MemoryStorage AuditService.

(** The caller's string parses as a URL whose scheme is http or https. *)
Definition validInput (URL_new : string -> option URL) (url : string) : Prop :=
  exists urlObj, URL_new url = Some urlObj
                 /\ (protocol urlObj = "http:" \/ protocol urlObj = "https:").

(** The navigation to [url] fails with [message]. *)
Definition navigationFails (web : Web) (url message : string) : Prop :=
  web url = GotoRejects message \/ web url = BodyMissing message.

End ServiceSpec.

(** ** Further reference definitions for the heuristic generator *)

Module ReportSpec.
Import PlaywrightAudit LLMService HeuristicSpec.

Definition missing (signal : option string) : nat :=
  if JS.truthy signal then 0%nat else 1%nat.

(** How many of the four fundamentals are missing: description content,
    canonical link, Open Graph title, viewport tag. *)
Definition missingFundamentals (auditResult : AuditResult) : nat :=
  (missing (content (metaDescription (audit_seo auditResult)))
   + missing (canonical (audit_seo auditResult))
   + missing (og_title (openGraph (audit_seo auditResult)))
   + missing (viewport (audit_seo auditResult)))%nat.

(** Urgency of an action item: the smaller, the sooner. *)
Definition urgency (p : Priority.t) : nat :=
  match p with
  | Priority.immediate => 0%nat
  | Priority.high => 1%nat
  | Priority.medium => 2%nat
  | Priority.low => 3%nat
  end.

(** The two housekeeping tasks that close every action list. *)
Definition housekeeping : list string :=
  ["Content proofreading and corrections"; "Implement structured data markup"].

(** A record with placeholder links, flagged testimonials and images
    missing alt text. *)
Definition messyAudit : AuditResult :=
  assemble "http://messy.example/" noDescriptionPage DeriverSpec.bareTechnical
    PipelineSpec.messyContent DeriverSpec.samplePerformance.

End ReportSpec.

(** ** Reference definitions for the content statistics *)

Module ContentSpec.
Import ContentExtraction.

(** The number of words of a text: the characters that are not white space
    and follow white space or start the text; [prevWs] tells that the
    previous character was white space. *)
Fixpoint wordStarts (prevWs : bool) (s : string) : nat :=
  match s with
  | EmptyString => 0%nat
  | String c s' =>
      ((if negb (isWhiteSpace c) && prevWs then 1 else 0) + wordStarts (isWhiteSpace c) s')%nat
  end.

Definition wordsIn (s : string) : nat := wordStarts true s.

(** The runs of white space that begin after a character which is not
    white space. *)
Fixpoint gapStarts (prevWs : bool) (s : string) : nat :=
  match s with
  | EmptyString => 0%nat
  | String c s' =>
      ((if isWhiteSpace c && negb prevWs then 1 else 0) + gapStarts (isWhiteSpace c) s')%nat
  end.

(** Whether the text ends in white space, [prevWs] standing for the
    character before it. *)
Fixpoint endsInWhiteSpace (prevWs : bool) (s : string) : bool :=
  match s with
  | EmptyString => prevWs
  | String c s' => endsInWhiteSpace (isWhiteSpace c) s'
  end.

(** Every character of the text is white space. *)
Fixpoint allWhiteSpace (s : string) : bool :=
  match s with
  | EmptyString => true
  | String c s' => isWhiteSpace c && allWhiteSpace s'
  end.

Definition sampleImages : list Image :=
  [ {| image_src := Some "/logo.png"; image_alt := Some "Acme"; image_loading := None |};
    {| image_src := Some "/hero.jpg"; image_alt := Some ""; image_loading := Some "lazy" |};
    {| image_src := Some "/team.jpg"; image_alt := None; image_loading := Some "lazy" |};
    {| image_src := Some "/map.png"; image_alt := Some "  "; image_loading := None |} ].

Definition sampleLinks : list Link :=
  [ {| anchor_href := Some "/about"; anchor_text := Some "About"; anchor_rel := None |};
    {| anchor_href := Some "https://acme.example/shop"; anchor_text := Some "Shop";
       anchor_rel := None |};
    {| anchor_href := Some "https://partner.example/"; anchor_text := Some "";
       anchor_rel := Some "noopener nofollow" |};
    {| anchor_href := Some "mailto:hi@acme.example"; anchor_text := Some "Mail";
       anchor_rel := None |} ].

End ContentSpec.

(** ** Reference definitions for the listing *)

Module ListingSpec.
Import Listing.

(** The record passes every filter that is given; a filter is given when
    its value is truthy (a non-empty string, a number other than 0). *)
Definition passes (filters : option AuditFilters) (audit : AuditResult) : Prop :=
  (forall url, field filters filter_url = Some url -> url <> EmptyString ->
     ContentExtraction.includes (toLowerCase url) (toLowerCase (audit_url audit)) = true)
  /\ (forall minScore, field filters filter_minScore = Some minScore -> minScore <> 0 ->
        minScore <= audit_overallScore audit)
  /\ (forall userId, field filters filter_userId = Some userId -> userId <> EmptyString ->
        audit_userId audit = Some userId)
  /\ (forall dateFrom, field filters filter_dateFrom = Some dateFrom ->
        dateFrom <> EmptyString ->
        exists c, audit_createdAt audit = Some c /\ String.leb dateFrom c = true)
  /\ (forall dateTo, field filters filter_dateTo = Some dateTo -> dateTo <> EmptyString ->
        exists c, audit_createdAt audit = Some c /\ String.leb c dateTo = true).

(** No filter is given. *)
Definition unfiltered (filters : option AuditFilters) : Prop :=
  JS.truthy (field filters filter_url) = false
  /\ truthyNumber (field filters filter_minScore) = false
  /\ JS.truthy (field filters filter_userId) = false
  /\ JS.truthy (field filters filter_dateFrom) = false
  /\ JS.truthy (field filters filter_dateTo) = false.

(** The same test as a boolean, one factor per filter. *)
Definition passesUrl (filters : option AuditFilters) (audit : AuditResult) : bool :=
  match field filters filter_url with
  | Some (String _ _ as url) =>
      ContentExtraction.includes (toLowerCase url) (toLowerCase (audit_url audit))
  | _ => true
  end.

Definition passesMinScore (filters : option AuditFilters) (audit : AuditResult) : bool :=
  match field filters filter_minScore with
  | Some minScore => if truthyNumber (Some minScore)
                     then minScore <=? audit_overallScore audit else true
  | None => true
  end.

Definition passesUserId (filters : option AuditFilters) (audit : AuditResult) : bool :=
  match field filters filter_userId with
  | Some (String _ _ as userId) =>
      match audit_userId audit with
      | Some u => String.eqb u userId
      | None => false
      end
  | _ => true
  end.

Definition passesDateFrom (filters : option AuditFilters) (audit : AuditResult) : bool :=
  match field filters filter_dateFrom with
  | Some (String _ _ as dateFrom) => createdAtLeast dateFrom audit
  | _ => true
  end.

Definition passesDateTo (filters : option AuditFilters) (audit : AuditResult) : bool :=
  match field filters filter_dateTo with
  | Some (String _ _ as dateTo) => createdAtMost dateTo audit
  | _ => true
  end.

Definition passesAll (filters : option AuditFilters) (audit : AuditResult) : bool :=
  passesUrl filters audit && passesMinScore filters audit && passesUserId filters audit
  && passesDateFrom filters audit && passesDateTo filters audit.

Section Dates.

Variable Date_getTime : string -> option Z.

Definition summaryTime (s : AuditSummary) : option Z :=
  match summary_createdAt s with
  | Some c => Date_getTime c
  | None => None
  end.

(** [a] was created no earlier than [b]. *)
Definition notOlder (a b : AuditSummary) : Prop :=
  exists ta tb, summaryTime a = Some ta /\ summaryTime b = Some tb /\ tb <= ta.

(** Every record has a creation time that parses as a date. *)
Definition datesParse (audits : list AuditResult) : Prop :=
  Forall (fun audit => exists t, timeOf Date_getTime audit = Some t) audits.

End Dates.

(** Three stored records and a clock that reads the seconds of their
    timestamps. *)
Definition storedAt (id createdAt url : string) (overallScore : Z) : AuditResult :=
  MemoryStorage.withMetadata
    {| audit_id := None; audit_userId := None; audit_createdAt := None;
       audit_updatedAt := None; audit_status := None; audit_processingTime := None;
       audit_url := url; audit_timestamp := createdAt; audit_overallScore := overallScore;
       audit_categories := PlaywrightAudit.initialCategories;
       audit_seo := DeriverSpec.bareSeo;
       audit_technical := DeriverSpec.bareTechnical;
       audit_content := DeriverSpec.cleanContent;
       audit_performance := DeriverSpec.samplePerformance;
       audit_screenshots := {| desktop := None; mobile := None; shots_timestamp := createdAt |};
       audit_recommendations := []; audit_issues := []; audit_llmAnalysis := None |}
    id createdAt.

Definition sampleRecords : list AuditResult :=
  [ storedAt "audit_1_a" "2023-11-14T22:13:21.000Z" "https://Acme.example/" 95;
    storedAt "audit_3_c" "2023-11-14T22:13:23.000Z" "https://other.example/" 70;
    storedAt "audit_2_b" "2023-11-14T22:13:22.000Z" "https://acme.example/shop" 80 ].

Definition secondsOf (text : string) : option Z :=
  match String.get 18 text with
  | Some c => Some (Z.of_nat (nat_of_ascii c) - 48)
  | None => None
  end.

End ListingSpec.

(* ===================================================================== *)
(** * Part III. Properties                                                *)
(* ===================================================================== *)

(** ** Scoring engine *)

Module ScoringProofs.
Import PlaywrightAudit ScoringSpec.

Lemma sameCategory_true (a b : Category.t) : sameCategory a b = true <-> a = b.
Proof. destruct a, b; simpl; split; congruence. Qed.

Lemma penaltyOf_penalty (impact : Impact.t) : penaltyOf impact = penalty impact.
Proof. destruct impact; reflexivity. Qed.

Lemma penalty_pos (impact : Impact.t) : 0 < penalty impact.
Proof. destruct impact; simpl; lia. Qed.

Lemma penaltySum_nonneg (c : Category.t) (issues : list Issue) : 0 <= penaltySum c issues.
Proof.
  unfold penaltySum. induction issues as [|i rest IH]; simpl; [lia|].
  destruct (sameCategory c (issue_category i)); simpl; [|exact IH].
  pose proof (penalty_pos (issue_impact i)). lia.
Qed.

Lemma penaltySum_cons (c : Category.t) (i : Issue) (rest : list Issue) :
  penaltySum c (i :: rest) =
  (if sameCategory c (issue_category i) then penalty (issue_impact i) else 0)
  + penaltySum c rest.
Proof.
  unfold penaltySum. simpl.
  destruct (sameCategory c (issue_category i)); reflexivity.
Qed.

(** One step of the loop touches the score of the issue's category only,
    and clamps it at zero. *)
Lemma scoreIssue_score (categories : Categories) (i : Issue) (c : Category.t) :
  score (getCategory (scoreIssue categories i) c) =
  if sameCategory c (issue_category i)
  then Z.max 0 (score (getCategory categories c) - penalty (issue_impact i))
  else score (getCategory categories c).
Proof.
  unfold scoreIssue. rewrite penaltyOf_penalty.
  destruct c, (issue_category i); reflexivity.
Qed.

Lemma fold_scoreIssue_score (issues : list Issue) :
  forall (categories : Categories) (c : Category.t),
    0 <= score (getCategory categories c) ->
    score (getCategory (fold_left scoreIssue issues categories) c) =
    Z.max 0 (score (getCategory categories c) - penaltySum c issues).
Proof.
  induction issues as [|i rest IH]; intros categories c Hpos.
  - simpl. unfold penaltySum. simpl. lia.
  - simpl fold_left. rewrite IH.
    + rewrite scoreIssue_score, penaltySum_cons.
      pose proof (penaltySum_nonneg c rest).
      destruct (sameCategory c (issue_category i)); lia.
    + rewrite scoreIssue_score.
      destruct (sameCategory c (issue_category i)); lia.
Qed.

Lemma initial_score (c : Category.t) : score (getCategory initialCategories c) = 100.
Proof. destruct c; reflexivity. Qed.

Lemma category_score_closed (issues : list Issue) (c : Category.t) :
  score (getCategory (calculateCategoryScores issues) c) =
  Z.max 0 (100 - penaltySum c issues).
Proof.
  unfold calculateCategoryScores.
  rewrite fold_scoreIssue_score; rewrite initial_score; [reflexivity | lia].
Qed.

Lemma category_score_range (issues : list Issue) (c : Category.t) :
  0 <= score (getCategory (calculateCategoryScores issues) c) <= 100.
Proof.
  rewrite category_score_closed. pose proof (penaltySum_nonneg c issues). lia.
Qed.

Lemma overall_is_rounded_mean (categories : Categories) :
  roundsHalfUpTo (mean categories) (calculateOverallScore categories).
Proof.
  unfold calculateOverallScore, JS.Math_round, roundsHalfUpTo, mean.
  simpl fold_left. simpl List.length.
  set (total := 0 + score (cat_seo categories) + score (cat_technical categories)
                + score (cat_content categories) + score (cat_performance categories)).
  replace (score (cat_seo categories) + score (cat_technical categories)
           + score (cat_content categories) + score (cat_performance categories))
    with total by (unfold total; lia).
  change (Z.of_nat 4) with 4.
  set (x := (inject_Z total / inject_Z 4)%Q).
  pose proof (Qfloor_le (x + (1 # 2))%Q) as Hle.
  pose proof (Qlt_floor (x + (1 # 2))%Q) as Hlt.
  rewrite inject_Z_plus in Hlt.
  split.
  - apply Qplus_le_l with (z := (1 # 2)%Q). ring_simplify.
    ring_simplify in Hle. exact Hle.
  - apply Qplus_lt_l with (z := (1 # 2)%Q).
    eapply Qlt_le_trans; [exact Hlt|].
    apply Qle_lteq. right. ring.
Qed.

Lemma overall_range (categories : Categories) :
  (forall c, 0 <= score (getCategory categories c) <= 100) ->
  0 <= calculateOverallScore categories <= 100.
Proof.
  intros H.
  pose proof (H Category.seo) as H1. pose proof (H Category.technical) as H2.
  pose proof (H Category.content) as H3. pose proof (H Category.performance) as H4.
  simpl in H1, H2, H3, H4.
  unfold calculateOverallScore, JS.Math_round.
  simpl fold_left. simpl List.length. change (Z.of_nat 4) with 4.
  set (total := 0 + score (cat_seo categories) + score (cat_technical categories)
                + score (cat_content categories) + score (cat_performance categories)).
  assert (0 <= total <= 400) as Ht by (unfold total; lia).
  split.
  - change 0 with (Qfloor 0). apply Qfloor_resp_le.
    unfold Qle, Qplus, Qdiv, Qmult, Qinv, inject_Z. simpl. lia.
  - change 100 with (Qfloor (201 # 2)). apply Qfloor_resp_le.
    unfold Qle, Qplus, Qdiv, Qmult, Qinv, inject_Z. simpl. lia.
Qed.

(** C1. For every issue list: each of the four categories starts at 100;
    each issue subtracts 20 (high), 10 (medium) or 5 (low) from the running
    score of its own category, which is clamped at 0 after the subtraction;
    the final category score is max(0, 100 - sum of the category's
    penalties); the overall score is the mean of the four final scores
    rounded half-up, an integer between 0 and 100. *)
Theorem C1_scoring_engine (issues : list Issue) :
  let categories := calculateCategoryScores issues in
  (forall c, score (getCategory (calculateCategoryScores []) c) = 100)
  /\ (forall impact, penaltyOf impact = penalty impact)
  /\ (forall issue c,
        score (getCategory (calculateCategoryScores (issues ++ [issue])) c) =
        if sameCategory c (issue_category issue)
        then Z.max 0 (score (getCategory categories c) - penalty (issue_impact issue))
        else score (getCategory categories c))
  /\ (forall c, score (getCategory categories c) = Z.max 0 (100 - penaltySum c issues))
  /\ roundsHalfUpTo (mean categories) (calculateOverallScore categories)
  /\ 0 <= calculateOverallScore categories <= 100.
Proof.
  intros categories. subst categories.
  split; [exact initial_score|].
  split; [exact penaltyOf_penalty|].
  split.
  { intros issue c. unfold calculateCategoryScores.
    rewrite fold_left_app. simpl fold_left. apply scoreIssue_score. }
  split; [apply category_score_closed|].
  split; [apply overall_is_rounded_mean|].
  apply overall_range. apply category_score_range.
Qed.

End ScoringProofs.

(** ** Issue deriver *)

Module DeriverProofs.
Import PlaywrightAudit DeriverSpec.

Lemma push_if {A : Type} (b : bool) (l : list A) (x : A) :
  (if b then JS.push l x else l) = l ++ (if b then [x] else []).
Proof. destruct b; unfold JS.push; [reflexivity | symmetry; apply app_nil_r]. Qed.

Lemma fired_cons (r : Rule) (rules : list Rule) :
  fired (r :: rules) = (if holds r then [emits r] else []) ++ fired rules.
Proof. unfold fired. simpl. destruct (holds r); reflexivity. Qed.

Lemma fired_In (rules : list Rule) (i : Issue) :
  In i (fired rules) <-> exists r, In r rules /\ holds r = true /\ emits r = i.
Proof.
  unfold fired. rewrite in_map_iff. split.
  - intros [r [He Hin]]. apply filter_In in Hin. exists r. tauto.
  - intros [r [Hin [Hh He]]]. exists r. split; [exact He|].
    apply filter_In. tauto.
Qed.

Lemma issues_are_fired_rules (seo : SEOAnalysis) (technical : TechnicalAnalysis)
  (content : ContentAnalysis) (performance : PerformanceAnalysis) :
  fst (analyzeIssuesAndRecommendations seo technical content performance) =
  fired (ruleTable seo technical content).
Proof.
  unfold analyzeIssuesAndRecommendations, ruleTable.
  cbv zeta. simpl fst.
  rewrite !push_if, !fired_cons. simpl holds. simpl emits.
  unfold fired. simpl List.filter. simpl map.
  rewrite app_nil_r, <- !app_assoc. reflexivity.
Qed.

Lemma metaNotOptimal_extracted (page : DomLookups) :
  negb (isOptimal (metaDescription (analyzeSEO page))) =
  missingOrNotOptimal (dom_metaDescription page).
Proof.
  unfold analyzeSEO, missingOrNotOptimal. simpl.
  destruct (dom_metaDescription page) as [d|]; [|reflexivity].
  destruct d as [|a d]; reflexivity.
Qed.

(** C2. For every quadruple of signal bundles the deriver returns exactly
    the issues of the rules whose predicates hold, in the fixed order of the
    table: title not optimal (warning/seo), meta description not optimal or
    missing (error/seo), no H1 (error/seo), more than one H1 (warning/seo),
    images missing alt (warning/content), empty-text links
    (warning/content), no SSL (error/technical), no viewport
    (error/technical), load time over 3000 ms (warning/performance). The
    deriver is a function of the bundles, so equal inputs give the same
    ordered list. *)
Theorem C2_deriver_rule_table (seo : SEOAnalysis) (technical : TechnicalAnalysis)
  (content : ContentAnalysis) (performance : PerformanceAnalysis) :
  let issues := fst (analyzeIssuesAndRecommendations seo technical content performance) in
  issues = fired (ruleTable seo technical content)
  /\ map (fun r => tagOf (emits r)) (ruleTable seo technical content) =
     [ ("title-length", Severity.warning, Category.seo);
       ("meta-description", Severity.error, Category.seo);
       ("missing-h1", Severity.error, Category.seo);
       ("multiple-h1", Severity.warning, Category.seo);
       ("images-without-alt", Severity.warning, Category.content);
       ("empty-links", Severity.warning, Category.content);
       ("no-ssl", Severity.error, Category.technical);
       ("no-viewport", Severity.error, Category.technical);
       ("slow-loading", Severity.warning, Category.performance) ]
  /\ (forall i, In i issues <->
        exists r, In r (ruleTable seo technical content) /\ holds r = true /\ emits r = i)
  /\ (forall page, negb (isOptimal (metaDescription (analyzeSEO page))) =
                   missingOrNotOptimal (dom_metaDescription page))
  /\ (forall seo' technical' content' performance',
        (seo', technical', content', performance') = (seo, technical, content, performance) ->
        fst (analyzeIssuesAndRecommendations seo' technical' content' performance') = issues).
Proof.
  intros issues. subst issues.
  split; [apply issues_are_fired_rules|].
  split; [reflexivity|].
  split.
  { intros i. rewrite issues_are_fired_rules. apply fired_In. }
  split; [exact metaNotOptimal_extracted|].
  intros seo' technical' content' performance' Heq.
  injection Heq as -> -> -> ->. reflexivity.
Qed.

(** The table at work: a page with no description, no H1, no viewport tag,
    plain HTTP and a five-second load. *)
Lemma C2_deriver_rule_table_witness :
  map tagOf
    (fst (analyzeIssuesAndRecommendations bareSeo bareTechnical cleanContent samplePerformance))
  = [ ("title-length", Severity.warning, Category.seo);
      ("meta-description", Severity.error, Category.seo);
      ("missing-h1", Severity.error, Category.seo);
      ("no-ssl", Severity.error, Category.technical);
      ("no-viewport", Severity.error, Category.technical);
      ("slow-loading", Severity.warning, Category.performance) ].
Proof.
  destruct (C2_deriver_rule_table bareSeo bareTechnical cleanContent samplePerformance)
    as [Hfired _].
  rewrite Hfired. vm_compute. reflexivity.
Defined.

End DeriverProofs.

(** ** Extraction thresholds *)

Module ExtractionProofs.
Import PlaywrightAudit DeriverSpec ExtractionSpec.

Lemma between_true (lo hi n : nat) :
  ((lo <=? n)%nat && (n <=? hi)%nat = true) <-> (lo <= n <= hi)%nat.
Proof.
  rewrite andb_true_iff, !Nat.leb_le. reflexivity.
Qed.

Lemma title_isOptimal_iff (page : DomLookups) :
  isOptimal (title (analyzeSEO page)) = true <->
  (30 <= String.length (dom_title page) <= 60)%nat.
Proof. unfold analyzeSEO. cbn [title isOptimal]. apply between_true. Qed.

Lemma description_isOptimal_iff (page : DomLookups) :
  isOptimal (metaDescription (analyzeSEO page)) = true <->
  exists d, dom_metaDescription page = Some d /\ (120 <= String.length d <= 160)%nat.
Proof.
  unfold analyzeSEO. cbn [metaDescription isOptimal].
  destruct (dom_metaDescription page) as [d|] eqn:Hd.
  - destruct d as [|a d'] eqn:Hs.
    + cbn [JS.truthy]. split; [discriminate|].
      intros [d0 [Heq Hlen]]. injection Heq as <-. simpl in Hlen. lia.
    + cbn [JS.truthy JS.lengthOf]. rewrite between_true. split.
      * intros Hlen. exists (String a d'). split; [reflexivity | exact Hlen].
      * intros [d0 [Heq Hlen]]. injection Heq as <-. exact Hlen.
  - cbn [JS.truthy]. split; [discriminate|]. intros [d0 [Heq _]]. discriminate.
Qed.

(** C5. The title is flagged optimal exactly when its length is between 30
    and 60 inclusive (30 and 60 are, 29 and 61 are not); the meta
    description is flagged optimal exactly when it is present and its length
    is between 120 and 160 inclusive (120 and 160 are, 119 and 161 are not);
    an absent description is never optimal. *)
Theorem C5_optimality_thresholds (page : DomLookups) :
  (isOptimal (title (analyzeSEO page)) = true <->
     (30 <= String.length (dom_title page) <= 60)%nat)
  /\ (isOptimal (metaDescription (analyzeSEO page)) = true <->
        exists d, dom_metaDescription page = Some d /\ (120 <= String.length d <= 160)%nat)
  /\ match dom_metaDescription page with
     | None => isOptimal (metaDescription (analyzeSEO page)) = false
     | Some d => length (metaDescription (analyzeSEO page)) = String.length d
     end
  /\ map titleOptimalAt [29; 30; 60; 61]%nat = [false; true; true; false]
  /\ map descriptionOptimalAt [119; 120; 160; 161]%nat = [false; true; true; false].
Proof.
  split; [apply title_isOptimal_iff|].
  split; [apply description_isOptimal_iff|].
  split.
  { unfold analyzeSEO. cbn [metaDescription isOptimal length].
    destruct (dom_metaDescription page); reflexivity. }
  split; vm_compute; reflexivity.
Qed.

End ExtractionProofs.

(** ** The clean-page scenario *)

Module ScenarioProofs.
Import PlaywrightAudit DeriverSpec ExtractionSpec.

Lemma gt_false_of_eq (t : Q) (k bound : Z) :
  (t == inject_Z k)%Q -> k <= bound -> JS.gt (JS.Num t) bound = false.
Proof.
  intros Heq Hle. unfold JS.gt.
  destruct (Qlt_le_dec (inject_Z bound) t) as [Hlt|_]; [|reflexivity].
  exfalso. rewrite Heq in Hlt. rewrite <- Zlt_Qlt in Hlt. lia.
Qed.

Lemma no_issue_overall : calculateOverallScore (calculateCategoryScores []) = 100.
Proof. vm_compute. reflexivity. Qed.

Lemma acme_meets_scenario (viewportTag : option string) (tag : bool) :
  cleanScenario (acmePage viewportTag) (acmeTechnical tag).
Proof.
  unfold cleanScenario.
  split; [reflexivity|].
  split; [eexists; split; reflexivity|].
  split; [reflexivity|].
  split; [repeat split|].
  split; [reflexivity|].
  exists 800%Q. split; reflexivity.
Qed.

(** C7, as stated, fails: the scenario says nothing of the viewport tag,
    and a page that meets every listed condition but has no viewport meta
    tag gets the issue [no-viewport] and scores 95. *)
Lemma C7_scenario_counterexample :
  cleanScenario (acmePage None) (acmeTechnical false)
  /\ map issue_id (issuesOf (acmePage None) (acmeTechnical false) cleanContent samplePerformance)
     = ["no-viewport"]
  /\ overallOf (acmePage None) (acmeTechnical false) cleanContent samplePerformance = 95.
Proof.
  split; [apply acme_meets_scenario|].
  split; vm_compute; reflexivity.
Qed.

(** C7, amended. A page with a 45-character title, a 140-character meta
    description, exactly one H1, the full Open Graph set, SSL and a load
    time of 800 ms, that also has a viewport meta tag, no image missing alt
    text and no empty-text link, yields no issue and an overall score of
    100. *)
Theorem C7_clean_page_scores_100 (page : DomLookups) (technical : TechnicalAnalysis)
  (content : ContentAnalysis) (performance : PerformanceAnalysis) :
  cleanScenario page technical ->
  hasViewport (mobileOptimization technical) = true ->
  withoutAlt (images content) = 0%nat ->
  link_empty (links content) = 0%nat ->
  issuesOf page technical content performance = []
  /\ overallOf page technical content performance = 100.
Proof.
  intros (Htitle & (d & Hd & Hdlen) & Hh1 & _ & Hssl & (t & Hload & Ht)) Hvp Halt Hlinks.
  assert (issuesOf page technical content performance = []) as Hnone.
  { unfold issuesOf. rewrite DeriverProofs.issues_are_fired_rules.
    unfold ruleTable, fired.
    assert (isOptimal (title (analyzeSEO page)) = true) as ->.
    { apply ExtractionProofs.title_isOptimal_iff. lia. }
    assert (isOptimal (metaDescription (analyzeSEO page)) = true) as ->.
    { apply ExtractionProofs.description_isOptimal_iff. exists d. split; [exact Hd | lia]. }
    assert (h1 (headingStructure (analyzeSEO page)) = headingsOf "h1" (dom_headings page))
      as -> by reflexivity.
    rewrite Hh1, Halt, Hlinks, Hssl, Hvp, Hload.
    rewrite (gt_false_of_eq t 800 3000) by (exact Ht || lia).
    reflexivity. }
  split; [exact Hnone|].
  unfold overallOf. rewrite Hnone. apply no_issue_overall.
Qed.

Lemma C7_clean_page_scores_100_witness :
  issuesOf (acmePage (Some "width=device-width, initial-scale=1")) (acmeTechnical true)
    cleanContent samplePerformance = []
  /\ overallOf (acmePage (Some "width=device-width, initial-scale=1")) (acmeTechnical true)
       cleanContent samplePerformance = 100.
Proof.
  apply (C7_clean_page_scores_100
           (acmePage (Some "width=device-width, initial-scale=1")) (acmeTechnical true)
           cleanContent samplePerformance).
  - apply acme_meets_scenario.
  - reflexivity.
  - reflexivity.
  - reflexivity.
Defined.

End ScenarioProofs.

(** ** Screenshot capture *)

Module CaptureProofs.
Import PlaywrightAudit AuditRun CaptureSpec.

Lemma notStrictlyFalse_false (options : option AuditOptions) :
  notStrictlyFalse (includeScreenshotsOf options) = false <-> explicitlyDisabled options.
Proof.
  unfold explicitlyDisabled, includeScreenshotsOf, notStrictlyFalse. split.
  - destruct options as [o|]; [|discriminate].
    destruct (includeScreenshots o) as [[|]|] eqn:Hs; try discriminate.
    intros _. exists o. split; [reflexivity | exact Hs].
  - intros [o [-> ->]]. reflexivity.
Qed.

Lemma screenshotsTaken_log (e : BrowserEvent) (b : Browser) :
  screenshotsTaken (log e b) =
  (screenshotsTaken b + if isScreenshot e then 1 else 0)%nat.
Proof.
  unfold screenshotsTaken, log, JS.push. cbn [events].
  rewrite List.filter_app, List.length_app. simpl.
  destruct (isScreenshot e); reflexivity.
Qed.

Lemma screenshotsTaken_getBrowser (b : Browser) :
  screenshotsTaken (getBrowser b) = screenshotsTaken b.
Proof.
  unfold getBrowser. destruct (browserInstance b); simpl; [reflexivity|].
  change {| browserInstance := true; events := JS.push (events b) Launch |}
    with {| browserInstance := true; events := events (log Launch b) |}.
  unfold screenshotsTaken at 1. cbn [events].
  change (List.length (List.filter isScreenshot (events (log Launch b))))
    with (screenshotsTaken (log Launch b)).
  rewrite screenshotsTaken_log. simpl. lia.
Qed.

(** C9. Screenshots are captured unless the options object is present
    with [includeScreenshots] equal to [false]: the guard of the capture
    holds when the options are absent or the field is undefined, and fails
    only for an explicit [false]; on a loaded page the run then takes both
    captures, and with the explicit [false] it takes none and keeps the
    empty default. *)
Theorem C9_screenshots_default_on (web : Web) (clock : Clock) (url : string)
  (options : option AuditOptions) (b : Browser) :
  (notStrictlyFalse (includeScreenshotsOf options) = false <-> explicitlyDisabled options)
  /\ notStrictlyFalse (includeScreenshotsOf None) = true
  /\ (forall o, includeScreenshots o = None ->
                notStrictlyFalse (includeScreenshotsOf (Some o)) = true)
  /\ forall page, web url = Loaded page ->
     exists audit b',
       runPlaywrightAudit web clock url options b = (JS.Resolved audit, b')
       /\ (captured (audit_screenshots audit) = false <-> explicitlyDisabled options)
       /\ (includeScreenshotsOf options = None -> captured (audit_screenshots audit) = true)
       /\ (explicitlyDisabled options ->
             audit_screenshots audit =
               {| desktop := None; mobile := None; shots_timestamp := defaultShotsIso clock |}
             /\ screenshotsTaken b' = screenshotsTaken b)
       /\ (~ explicitlyDisabled options ->
             audit_screenshots audit =
               {| desktop := Some ("data:image/png;base64," +:+ snap_desktopPng page);
                  mobile := Some ("data:image/png;base64," +:+ snap_mobilePng page);
                  shots_timestamp := captureIso clock |}
             /\ screenshotsTaken b' = (screenshotsTaken b + 2)%nat).
Proof.
  split; [apply notStrictlyFalse_false|].
  split; [reflexivity|].
  split.
  { intros o Hundef. unfold includeScreenshotsOf. rewrite Hundef. reflexivity. }
  intros page Hnav. unfold runPlaywrightAudit. rewrite Hnav.
  destruct (analyzeIssuesAndRecommendations (PlaywrightAudit.analyzeSEO (snap_dom page))
              (snap_technical page) (snap_content page) (snap_performance page))
    as [issues recommendations] eqn:Hderived.
  destruct (notStrictlyFalse (includeScreenshotsOf options)) eqn:Hwant.
  - (* the guard holds: both captures are taken *)
    assert (~ explicitlyDisabled options) as Hnot.
    { intros Hdis. apply notStrictlyFalse_false in Hdis. congruence. }
    cbv zeta. unfold captureScreenshots. cbv zeta.
    eexists. eexists. split; [reflexivity|].
    cbn [audit_screenshots].
    split; [split; [discriminate | intros Hdis; contradiction]|].
    split; [reflexivity|].
    split; [intros Hdis; contradiction|].
    intros _. split; [reflexivity|].
    rewrite !screenshotsTaken_log, screenshotsTaken_getBrowser. simpl. lia.
  - (* the field is an explicit false: the default stays *)
    pose proof (proj1 (notStrictlyFalse_false options) Hwant) as Hdis.
    cbv zeta.
    eexists. eexists. split; [reflexivity|].
    cbn [audit_screenshots].
    split; [split; [intros _; exact Hdis | reflexivity]|].
    split.
    { intros Hnone. destruct Hdis as [o [-> Hfalse]]. simpl in Hnone. congruence. }
    split.
    + intros _. split; [reflexivity|].
      rewrite !screenshotsTaken_log, screenshotsTaken_getBrowser. simpl. lia.
    + intros Hnot. contradiction.
Qed.

Lemma C9_screenshots_default_on_witness :
  exists audit b',
    runPlaywrightAudit acmeWeb sampleClock "https://acme.example/" None freshBrowser
      = (JS.Resolved audit, b')
    /\ captured (audit_screenshots audit) = true
    /\ screenshotsTaken b' = 2%nat.
Proof.
  destruct (C9_screenshots_default_on acmeWeb sampleClock "https://acme.example/" None
              freshBrowser)
    as (_ & _ & _ & Hrun).
  destruct (Hrun acmeSnapshot eq_refl) as (audit & b' & Hrun' & _ & Hdefault & _ & Hcount).
  exists audit, b'. split; [exact Hrun'|].
  split; [apply Hdefault; reflexivity|].
  apply Hcount. intros [o [Habs _]]. discriminate.
Defined.

End CaptureProofs.

(** ** Heuristic deep-analysis generator *)

Module HeuristicProofs.
Import LLMService HeuristicSpec.

Lemma truthy_missing (auditResult : AuditResult) :
  negb (JS.truthy (content (metaDescription (audit_seo auditResult)))) =
  descriptionMissing auditResult.
Proof.
  unfold descriptionMissing.
  destruct (content (metaDescription (audit_seo auditResult))) as [[|a s]|]; reflexivity.
Qed.

Lemma suspicious_flagged (auditResult : AuditResult) :
  suspicious (audit_content auditResult) = testimonialsFlagged auditResult.
Proof. reflexivity. Qed.

Lemma placeholder_deduction (auditResult : AuditResult) (score : Z) :
  (if hasPlaceholderLinks (audit_content auditResult)
   then score - Z.of_nat (placeholderCount (audit_content auditResult)) * 5
   else score) = score - 5 * placeholderLinkCount auditResult.
Proof.
  unfold hasPlaceholderLinks, placeholderCount, placeholderLinkCount.
  destruct (placeholderLinks (audit_content auditResult)) as [l|]; [|lia].
  destruct (Nat.ltb_spec 0 (List.length l)); lia.
Qed.

Lemma alt_deduction (auditResult : AuditResult) (score : Z) :
  (if (0 <? withoutAlt (images (audit_content auditResult)))%nat
   then score - Z.of_nat (withoutAlt (images (audit_content auditResult))) * 3
   else score) = score - 3 * imagesMissingAlt auditResult.
Proof.
  unfold imagesMissingAlt.
  destruct (Nat.ltb_spec 0 (withoutAlt (images (audit_content auditResult)))); lia.
Qed.

Lemma score_refines_spec (auditResult : AuditResult) :
  calculateContentQualityScore auditResult = contentQuality auditResult.
Proof.
  unfold calculateContentQualityScore, contentQuality, clamp. cbv zeta.
  rewrite alt_deduction, placeholder_deduction, truthy_missing, suspicious_flagged.
  destruct (descriptionMissing auditResult), (testimonialsFlagged auditResult); f_equal; lia.
Qed.

(** C3. The content-quality score of the heuristic generator is 100, minus
    20 when the meta description content is missing, minus 5 per placeholder
    link, minus 3 per image missing alt, minus 15 when suspicious
    testimonials are flagged, clamped to [0,100]; a record whose only
    negative signal is a missing meta description scores exactly 80. *)
Theorem C3_content_quality_score (auditResult : AuditResult) :
  calculateContentQualityScore auditResult = contentQuality auditResult
  /\ 0 <= calculateContentQualityScore auditResult <= 100
  /\ (descriptionMissing auditResult = true ->
      placeholderLinkCount auditResult = 0 ->
      imagesMissingAlt auditResult = 0 ->
      testimonialsFlagged auditResult = false ->
      calculateContentQualityScore auditResult = 80).
Proof.
  split; [apply score_refines_spec|].
  split.
  - rewrite score_refines_spec. unfold contentQuality, clamp. lia.
  - intros Hmissing Hlinks Himages Hflag.
    rewrite score_refines_spec. unfold contentQuality, clamp.
    rewrite Hmissing, Hlinks, Himages, Hflag. reflexivity.
Qed.

Lemma C3_content_quality_score_witness :
  descriptionMissing noDescriptionAudit = true
  /\ calculateContentQualityScore noDescriptionAudit = 80.
Proof.
  split; [reflexivity|].
  apply (C3_content_quality_score noDescriptionAudit); reflexivity.
Defined.

Lemma fallback_complete (auditResult : AuditResult) :
  completeReport (getFallbackAnalysis auditResult).
Proof.
  unfold completeReport, getFallbackAnalysis.
  cbn [contentQualityAssessment cqa_overallScore cqa_recommendations actionItems].
  split.
  { rewrite score_refines_spec. unfold contentQuality, clamp. lia. }
  split; [reflexivity|].
  unfold extractActionItems. cbv zeta. unfold JS.push.
  rewrite !List.length_app. simpl. lia.
Qed.

Section Generative.

Variable JSONValue : Type.
Variable JSON_parse : string -> option JSONValue.

Lemma parse_falls_back (text : option string) (auditResult : AuditResult) :
  match text with
  | None => True
  | Some response =>
      match jsonCandidate response with
      | None => True
      | Some candidate => JSON_parse candidate = None
      end
  end ->
  parseAnalysisResponse JSONValue JSON_parse text auditResult =
  Return (Heuristic (getFallbackAnalysis auditResult)).
Proof.
  unfold parseAnalysisResponse. destruct text as [response|]; [|reflexivity].
  destruct (jsonCandidate response) as [candidate|]; [|reflexivity].
  intros ->. reflexivity.
Qed.

Lemma generativePath_falls_back (self : LLMService.t) (auditResult : AuditResult)
  (outcome : FetchOutcome) :
  collaboratorFails JSON_parse self outcome = true ->
  generativePath JSONValue JSON_parse self auditResult outcome =
  Return (Heuristic (getFallbackAnalysis auditResult)).
Proof.
  unfold collaboratorFails, generativePath. intros Hfails.
  destruct (String.eqb (apiKey self) ""); [reflexivity|].
  simpl in Hfails. cbn [andThen].
  destruct outcome as [message | ok status body]; [reflexivity|].
  destruct ok; [|reflexivity].
  cbn [negb andThen].
  destruct body as [message | | text]; try reflexivity.
  rewrite parse_falls_back; [reflexivity|].
  destruct text as [response|]; [|exact I].
  destruct (jsonCandidate response) as [candidate|]; [|exact I].
  destruct (JSON_parse candidate); [discriminate | reflexivity].
Qed.

End Generative.

(** C4. Whatever the generative-analysis collaborator does, and so also
    when it is unavailable, fails, times out, answers with a non-success
    status or sends text from which no JSON can be parsed,
    [analyzeAuditResults] returns the complete report of the heuristic
    fallback and throws nothing; the statements behind its first [return]
    fall back the same way in each of those cases. *)
Theorem C4_fallback_on_collaborator_failure (JSONValue : Type)
  (JSON_parse : string -> option JSONValue) (self : LLMService.t)
  (auditResult : AuditResult) (pageContent : string) (options : LLMAnalysisOptions)
  (outcome : FetchOutcome) :
  analyzeAuditResults JSONValue JSON_parse self auditResult pageContent options outcome =
    Return (Heuristic (getFallbackAnalysis auditResult))
  /\ completeReport (getFallbackAnalysis auditResult)
  /\ (collaboratorFails JSON_parse self outcome = true ->
      generativePath JSONValue JSON_parse self auditResult outcome =
        Return (Heuristic (getFallbackAnalysis auditResult))).
Proof.
  split.
  - unfold analyzeAuditResults. cbn [andThen]. reflexivity.
  - split; [apply fallback_complete | apply generativePath_falls_back].
Qed.

Lemma C4_fallback_on_collaborator_failure_witness :
  analyzeAuditResults unit rejectAll sampleService noDescriptionAudit "<html></html>"
    sampleOptions (FetchRejects "The operation timed out")
  = Return (Heuristic (getFallbackAnalysis noDescriptionAudit))
  /\ generativePath unit rejectAll sampleService noDescriptionAudit
       (Response true 200 (Text (Some "Sorry, I cannot help with that.")))
     = Return (Heuristic (getFallbackAnalysis noDescriptionAudit)).
Proof.
  split.
  - exact (proj1 (C4_fallback_on_collaborator_failure unit rejectAll sampleService
                    noDescriptionAudit "<html></html>" sampleOptions
                    (FetchRejects "The operation timed out"))).
  - apply (proj2 (proj2 (C4_fallback_on_collaborator_failure unit rejectAll sampleService
                           noDescriptionAudit "<html></html>" sampleOptions
                           (Response true 200 (Text (Some "Sorry, I cannot help with that.")))))).
    vm_compute. reflexivity.
Defined.

End HeuristicProofs.

(** ** In-memory storage *)

Module StorageProofs.
Import MemoryStorage HeuristicSpec StorageSpec.

Lemma withMetadata_sameAuditData (audit : AuditResult) (id createdAt : string) :
  sameAuditData (withMetadata audit id createdAt) audit.
Proof. unfold sameAuditData, withMetadata. cbn. repeat split. Qed.

Lemma get_after_save (env : Env) (audit : AuditResult) (audits : gmap string AuditResult) :
  getAudit (fst (saveAudit env audit audits)) (snd (saveAudit env audit audits)) =
  Some (withMetadata audit (generateId env) (Date_toISOString env)).
Proof. unfold saveAudit, getAudit. cbn [fst snd]. apply lookup_insert_eq. Qed.

(** C6, as stated, fails: the record read back carries the identifier,
    creation time and status the storage assigned, which the saved record
    did not have. *)
Lemma C6_round_trip_counterexample :
  audit_id noDescriptionAudit = None
  /\ exists stored,
       getAudit (fst (saveAudit sampleEnv noDescriptionAudit ∅))
                (snd (saveAudit sampleEnv noDescriptionAudit ∅)) = Some stored
       /\ audit_id stored = Some "audit_1700000002100_4fzyo82mv"
       /\ stored <> noDescriptionAudit.
Proof.
  split; [reflexivity|].
  eexists. split; [apply get_after_save|].
  split; [vm_compute; reflexivity|].
  intros Heq. apply (f_equal audit_id) in Heq. discriminate Heq.
Qed.

(** C6, amended. Saving a record and reading it back by the returned
    identifier yields a record equal to the saved one in every field except
    [id], [createdAt] and [status], which the storage assigns: the returned
    identifier, the time of the save, and [completed]. *)
Theorem C6_round_trip_up_to_metadata (env : Env) (audit : AuditResult)
  (audits : gmap string AuditResult) :
  let id := fst (saveAudit env audit audits) in
  let audits' := snd (saveAudit env audit audits) in
  exists stored,
    getAudit id audits' = Some stored
    /\ sameAuditData stored audit
    /\ audit_id stored = Some id
    /\ audit_createdAt stored = Some (Date_toISOString env)
    /\ audit_status stored = Some Status.completed.
Proof.
  intros id audits'. subst id audits'.
  exists (withMetadata audit (generateId env) (Date_toISOString env)).
  split; [apply get_after_save|].
  split; [apply withMetadata_sameAuditData|].
  repeat split.
Qed.

Lemma Map_delete_spec (id : string) (audits : gmap string AuditResult) :
  Map_delete id audits = (bool_decide (is_Some (audits !! id)), delete id audits).
Proof.
  unfold Map_delete. destruct (audits !! id) as [a|] eqn:Hlook.
  - rewrite bool_decide_eq_true_2 by eauto. reflexivity.
  - rewrite bool_decide_eq_false_2 by (intros [a Ha]; discriminate).
    rewrite delete_id by exact Hlook. reflexivity.
Qed.

(** C10. [deleteAudit] answers [true] exactly when a record with the
    identifier was stored; afterwards [getAudit] on the identifier answers
    [null]; deleting an absent identifier answers [false] and leaves the
    records as they were, so a second delete of the same identifier answers
    [false]. *)
Theorem C10_delete_contract (id : string) (audits : gmap string AuditResult) :
  let deleted := fst (deleteAudit id audits) in
  let audits' := snd (deleteAudit id audits) in
  (deleted = true <-> is_Some (getAudit id audits))
  /\ getAudit id audits' = None
  /\ match getAudit id audits with
     | None => deleted = false /\ audits' = audits
     | Some _ => deleted = true
     end
  /\ (forall other, other <> id -> getAudit other audits' = getAudit other audits)
  /\ fst (deleteAudit id audits') = false
  /\ snd (deleteAudit id audits') = audits'.
Proof.
  intros deleted audits'. subst deleted audits'.
  unfold deleteAudit, getAudit. rewrite !Map_delete_spec. cbn [fst snd].
  split; [apply bool_decide_eq_true|].
  split; [apply lookup_delete_eq|].
  split.
  { destruct (audits !! id) as [a|] eqn:Hlook.
    - apply bool_decide_eq_true_2. eauto.
    - split; [apply bool_decide_eq_false_2; intros [a Ha]; discriminate|].
      apply delete_id. exact Hlook. }
  split.
  { intros other Hne. apply lookup_delete_ne. congruence. }
  split.
  - apply bool_decide_eq_false_2. rewrite lookup_delete_eq. intros [a Ha]. discriminate.
  - apply delete_id. apply lookup_delete_eq.
Qed.

End StorageProofs.

(** ** Audit service *)

Module ServiceProofs.
Import AuditRun MemoryStorage AuditService StorageSpec CaptureSpec.

Lemma invalid_isValidURL (URL_new : string -> option URL) (url : string) :
  invalidInput URL_new url -> isValidURL URL_new url = false.
Proof.
  unfold invalidInput, isValidURL.
  intros [-> | [urlObj [-> [Hhttp Hhttps]]]]; [reflexivity|].
  cbn [existsb].
  destruct (String.eqb_spec (protocol urlObj) "http:") as [Heq|_]; [contradiction|].
  destruct (String.eqb_spec (protocol urlObj) "https:") as [Heq|_]; [contradiction|].
  reflexivity.
Qed.

(** C8. A caller-supplied string that does not parse as a URL, or whose
    scheme is neither http nor https, makes [runAudit] reject with an error
    before any browser work: the browser is asked nothing, no audit runs
    and no record is saved. *)
Theorem C8_invalid_url_rejected (URL_new : string -> option URL) (web : Web)
  (clock : Clock) (env : Env) (url : string) (options : option AuditOptions) (w : World) :
  invalidInput URL_new url ->
  runAudit URL_new web clock env url options w = (JS.Rejected "Invalid URL format", w)
  /\ events (browser (snd (runAudit URL_new web clock env url options w)))
     = events (browser w)
  /\ storage (snd (runAudit URL_new web clock env url options w)) = storage w.
Proof.
  intros Hinvalid.
  assert (runAudit URL_new web clock env url options w
          = (JS.Rejected "Invalid URL format", w)) as Hrun.
  { unfold runAudit. rewrite invalid_isValidURL by exact Hinvalid. reflexivity. }
  rewrite Hrun. repeat split.
Qed.

Lemma C8_invalid_url_rejected_witness :
  runAudit schemeOnly acmeWeb sampleClock sampleEnv "ftp://acme.example/" None sampleWorld
    = (JS.Rejected "Invalid URL format", sampleWorld)
  /\ runAudit schemeOnly acmeWeb sampleClock sampleEnv "not a url" None sampleWorld
    = (JS.Rejected "Invalid URL format", sampleWorld).
Proof.
  split.
  - apply (C8_invalid_url_rejected schemeOnly acmeWeb sampleClock sampleEnv
             "ftp://acme.example/" None sampleWorld).
    right. eexists. split; [vm_compute; reflexivity|]. split; discriminate.
  - apply (C8_invalid_url_rejected schemeOnly acmeWeb sampleClock sampleEnv
             "not a url" None sampleWorld).
    left. vm_compute. reflexivity.
Defined.

(** For contrast, a valid URL: the browser is driven through one full run
    and the record is saved under the returned identifier. *)
Example valid_url_is_audited :
  fst (runAudit schemeOnly acmeWeb sampleClock sampleEnv "https://acme.example/" None
         sampleWorld) = JS.Resolved "audit_1700000002100_4fzyo82mv"
  /\ events (browser (snd (runAudit schemeOnly acmeWeb sampleClock sampleEnv
                             "https://acme.example/" None sampleWorld)))
     = [ Launch; NewContext 1920 1080; Goto "https://acme.example/" 30000;
         WaitForSelector "body" 10000; Screenshot true; SetViewportSize 375 667;
         Screenshot true; CloseContext ]
  /\ audit_overallScore
       <$> getAuditResult "audit_1700000002100_4fzyo82mv"
             (snd (runAudit schemeOnly acmeWeb sampleClock sampleEnv
                     "https://acme.example/" None sampleWorld))
     = Some 100.
Proof.
  split; [vm_compute; reflexivity|].
  split; vm_compute; reflexivity.
Qed.

End ServiceProofs.

(** ** Scoring engine: further properties *)

Module ScoringExtras.
Import PlaywrightAudit ScoringSpec ScoringProofs DeriverSpec PipelineSpec.

Lemma scoreIssue_issues (categories : Categories) (i : Issue) (c : Category.t) :
  issues (getCategory (scoreIssue categories i) c) =
  issues (getCategory categories c)
  ++ (if sameCategory c (issue_category i) then [i] else []).
Proof.
  unfold scoreIssue, JS.push.
  destruct c, (issue_category i); cbn; try reflexivity; symmetry; apply app_nil_r.
Qed.

Lemma scoreIssue_maxScore (categories : Categories) (i : Issue) (c : Category.t) :
  maxScore (getCategory (scoreIssue categories i) c) = maxScore (getCategory categories c).
Proof. unfold scoreIssue. destruct c, (issue_category i); reflexivity. Qed.

Lemma fold_scoreIssue_issues (l : list Issue) :
  forall (categories : Categories) (c : Category.t),
    issues (getCategory (fold_left scoreIssue l categories) c) =
    issues (getCategory categories c) ++ issuesIn c l.
Proof.
  induction l as [|i rest IH]; intros categories c.
  - simpl. symmetry. apply app_nil_r.
  - simpl fold_left. rewrite IH, scoreIssue_issues.
    unfold issuesIn. simpl List.filter.
    destruct (sameCategory c (issue_category i)).
    + rewrite <- app_assoc. reflexivity.
    + rewrite app_nil_r. reflexivity.
Qed.

Lemma fold_scoreIssue_maxScore (l : list Issue) :
  forall (categories : Categories) (c : Category.t),
    maxScore (getCategory (fold_left scoreIssue l categories) c) =
    maxScore (getCategory categories c).
Proof.
  induction l as [|i rest IH]; intros categories c; [reflexivity|].
  simpl fold_left. rewrite IH. apply scoreIssue_maxScore.
Qed.

Lemma issuesIn_cons (c : Category.t) (i : Issue) (rest : list Issue) :
  issuesIn c (i :: rest) =
  if sameCategory c (issue_category i) then i :: issuesIn c rest else issuesIn c rest.
Proof. reflexivity. Qed.

Lemma issuesIn_length_sum (l : list Issue) :
  (List.length (issuesIn Category.seo l) + List.length (issuesIn Category.technical l)
   + List.length (issuesIn Category.content l)
   + List.length (issuesIn Category.performance l))%nat = List.length l.
Proof.
  induction l as [|i rest IH]; [reflexivity|].
  rewrite !issuesIn_cons.
  destruct (issue_category i); cbn [sameCategory List.length]; lia.
Qed.

(** Each category record lists exactly the issues of its own category, in
    the order they were given, keeps [maxScore] at 100, and the four lists
    together hold every issue once. *)
Theorem category_issue_lists (l : list Issue) :
  (forall c, issues (getCategory (calculateCategoryScores l) c) = issuesIn c l)
  /\ (forall c, maxScore (getCategory (calculateCategoryScores l) c) = 100)
  /\ (forall i, In i l <->
        In i (issues (getCategory (calculateCategoryScores l) (issue_category i))))
  /\ (List.length (issues (cat_seo (calculateCategoryScores l)))
      + List.length (issues (cat_technical (calculateCategoryScores l)))
      + List.length (issues (cat_content (calculateCategoryScores l)))
      + List.length (issues (cat_performance (calculateCategoryScores l))))%nat
     = List.length l.
Proof.
  assert (forall c, issues (getCategory (calculateCategoryScores l) c) = issuesIn c l) as Hlists.
  { intros c. unfold calculateCategoryScores. rewrite fold_scoreIssue_issues.
    destruct c; reflexivity. }
  split; [exact Hlists|].
  split.
  { intros c. unfold calculateCategoryScores. rewrite fold_scoreIssue_maxScore.
    destruct c; reflexivity. }
  split.
  { intros i. rewrite Hlists. unfold issuesIn. rewrite filter_In.
    split; [|tauto]. intros Hin. split; [exact Hin|].
    apply sameCategory_true. reflexivity. }
  change (cat_seo (calculateCategoryScores l))
    with (getCategory (calculateCategoryScores l) Category.seo).
  change (cat_technical (calculateCategoryScores l))
    with (getCategory (calculateCategoryScores l) Category.technical).
  change (cat_content (calculateCategoryScores l))
    with (getCategory (calculateCategoryScores l) Category.content).
  change (cat_performance (calculateCategoryScores l))
    with (getCategory (calculateCategoryScores l) Category.performance).
  rewrite !Hlists. apply issuesIn_length_sum.
Qed.

Lemma penaltySum_app (c : Category.t) (l1 l2 : list Issue) :
  penaltySum c (l1 ++ l2) = penaltySum c l1 + penaltySum c l2.
Proof.
  induction l1 as [|i rest IH]; [unfold penaltySum at 2; simpl; lia|].
  rewrite <- app_comm_cons, !penaltySum_cons, IH. lia.
Qed.

Lemma penaltySum_Permutation (c : Category.t) (l l' : list Issue) :
  Permutation l l' -> penaltySum c l = penaltySum c l'.
Proof.
  induction 1 as [|x l l' _ IH|x y l|l l' l'' _ IH1 _ IH2].
  - reflexivity.
  - rewrite !penaltySum_cons, IH. reflexivity.
  - rewrite !penaltySum_cons. lia.
  - congruence.
Qed.

(** The overall score is a function of the four category scores. *)
Lemma overall_from_scores (a b : Categories) :
  (forall c, score (getCategory a c) = score (getCategory b c)) ->
  calculateOverallScore a = calculateOverallScore b.
Proof.
  intros H. unfold calculateOverallScore. simpl fold_left.
  pose proof (H Category.seo) as H1. pose proof (H Category.technical) as H2.
  pose proof (H Category.content) as H3. pose proof (H Category.performance) as H4.
  simpl in H1, H2, H3, H4. rewrite H1, H2, H3, H4. reflexivity.
Qed.

(** The scores do not depend on the order of the issues: two issue lists
    that are permutations of each other give the same four category scores
    and the same overall score. *)
Theorem scores_ignore_issue_order (l l' : list Issue) :
  Permutation l l' ->
  (forall c, scoreOf c l = scoreOf c l') /\ overall l = overall l'.
Proof.
  intros Hperm.
  assert (forall c, scoreOf c l = scoreOf c l') as Hscores.
  { intros c. unfold scoreOf. rewrite !category_score_closed.
    rewrite (penaltySum_Permutation c l l' Hperm). reflexivity. }
  split; [exact Hscores|].
  unfold overall. apply overall_from_scores. exact Hscores.
Qed.

Lemma scores_ignore_issue_order_witness :
  overall [noSSLIssue; lowContentIssue; noViewportIssue]
  = overall [lowContentIssue; noViewportIssue; noSSLIssue].
Proof.
  apply (scores_ignore_issue_order
           [noSSLIssue; lowContentIssue; noViewportIssue]
           [lowContentIssue; noViewportIssue; noSSLIssue]).
  apply perm_trans with (l' := [lowContentIssue; noSSLIssue; noViewportIssue]).
  - apply perm_swap.
  - apply perm_skip. apply perm_swap.
Defined.

Lemma overall_monotone (a b : Categories) :
  (forall c, score (getCategory a c) <= score (getCategory b c)) ->
  calculateOverallScore a <= calculateOverallScore b.
Proof.
  intros H. unfold calculateOverallScore, JS.Math_round. simpl fold_left.
  simpl List.length. change (Z.of_nat 4) with 4.
  pose proof (H Category.seo) as H1. pose proof (H Category.technical) as H2.
  pose proof (H Category.content) as H3. pose proof (H Category.performance) as H4.
  simpl in H1, H2, H3, H4.
  apply Qfloor_resp_le.
  unfold Qle, Qplus, Qdiv, Qmult, Qinv, inject_Z. simpl. lia.
Qed.

(** One more issue, wherever it is inserted, never raises a score: every
    category score and the overall score stay or drop, the scores of the
    other categories stay, and the score of the issue's own category drops
    unless it is already 0. *)
Theorem extra_issue_never_raises_score (l1 l2 : list Issue) (issue : Issue) :
  (forall c, scoreOf c (l1 ++ issue :: l2) <= scoreOf c (l1 ++ l2))
  /\ (forall c, c <> issue_category issue ->
                scoreOf c (l1 ++ issue :: l2) = scoreOf c (l1 ++ l2))
  /\ (scoreOf (issue_category issue) (l1 ++ issue :: l2)
        < scoreOf (issue_category issue) (l1 ++ l2)
      \/ scoreOf (issue_category issue) (l1 ++ l2) = 0)
  /\ overall (l1 ++ issue :: l2) <= overall (l1 ++ l2).
Proof.
  assert (forall c, scoreOf c (l1 ++ issue :: l2) =
                    Z.max 0 (100 - (penaltySum c (l1 ++ l2)
                                    + if sameCategory c (issue_category issue)
                                      then penalty (issue_impact issue) else 0))) as Hins.
  { intros c. unfold scoreOf. rewrite category_score_closed.
    rewrite !penaltySum_app, penaltySum_cons. f_equal. lia. }
  assert (forall c, scoreOf c (l1 ++ l2) = Z.max 0 (100 - penaltySum c (l1 ++ l2))) as Hold.
  { intros c. unfold scoreOf. apply category_score_closed. }
  pose proof (penalty_pos (issue_impact issue)) as Hpos.
  assert (forall c, scoreOf c (l1 ++ issue :: l2) <= scoreOf c (l1 ++ l2)) as Hle.
  { intros c. rewrite Hins, Hold.
    destruct (sameCategory c (issue_category issue)); lia. }
  split; [exact Hle|].
  split.
  { intros c Hne. rewrite Hins, Hold.
    destruct (sameCategory c (issue_category issue)) eqn:Hsame; [|f_equal; lia].
    apply sameCategory_true in Hsame. contradiction. }
  split.
  { rewrite Hins, Hold.
    assert (sameCategory (issue_category issue) (issue_category issue) = true) as ->
      by (apply sameCategory_true; reflexivity).
    pose proof (penaltySum_nonneg (issue_category issue) (l1 ++ l2)). lia. }
  unfold overall. apply overall_monotone. exact Hle.
Qed.

Lemma overall_below_100 (categories : Categories) (c : Category.t) :
  (forall k, score (getCategory categories k) <= 100) ->
  score (getCategory categories c) <= 95 ->
  calculateOverallScore categories <= 99.
Proof.
  intros Hall Hc. unfold calculateOverallScore, JS.Math_round. simpl fold_left.
  simpl List.length. change (Z.of_nat 4) with 4.
  pose proof (Hall Category.seo) as H1. pose proof (Hall Category.technical) as H2.
  pose proof (Hall Category.content) as H3. pose proof (Hall Category.performance) as H4.
  simpl in H1, H2, H3, H4.
  change 99 with (Qfloor (397 # 4)). apply Qfloor_resp_le.
  unfold Qle, Qplus, Qdiv, Qmult, Qinv, inject_Z. simpl.
  destruct c; simpl in Hc; lia.
Qed.

(** The overall score is 100 exactly when there is no issue at all: a
    single issue, even of low impact, brings it to 99 or less. *)
Theorem overall_100_iff_no_issue (l : list Issue) :
  (overall l = 100 <-> l = []) /\ (l <> [] -> overall l <= 99).
Proof.
  assert (l <> [] -> overall l <= 99) as Hdrop.
  { destruct l as [|i rest]; [congruence|]. intros _.
    unfold overall. apply (overall_below_100 _ (issue_category i)).
    - intros k. apply category_score_range.
    - rewrite category_score_closed, penaltySum_cons.
      assert (sameCategory (issue_category i) (issue_category i) = true) as ->
        by (apply sameCategory_true; reflexivity).
      pose proof (penaltySum_nonneg (issue_category i) rest).
      destruct (issue_impact i); simpl; lia. }
  split; [|exact Hdrop].
  split.
  - intros H100. destruct l as [|i rest]; [reflexivity|].
    assert (overall (i :: rest) <= 99) by (apply Hdrop; discriminate). lia.
  - intros ->. vm_compute. reflexivity.
Qed.

End ScoringExtras.

(** ** Issue deriver: further properties *)

Module DeriverExtras.
Import PlaywrightAudit ScoringSpec DeriverSpec DeriverProofs PipelineSpec.

Lemma h1_rules_exclusive (seo : SEOAnalysis) :
  (List.length (h1 (headingStructure seo)) =? 0)%nat
  && (1 <? List.length (h1 (headingStructure seo)))%nat = false.
Proof.
  destruct (List.length (h1 (headingStructure seo))) as [|[|n]]; reflexivity.
Qed.

(** The deriver returns at most eight issues: their identifiers are
    pairwise distinct, and [missing-h1] and [multiple-h1] never occur
    together. *)
Theorem derived_issues_distinct (seo : SEOAnalysis) (technical : TechnicalAnalysis)
  (content : ContentAnalysis) (performance : PerformanceAnalysis) :
  let ids := map issue_id (derived seo technical content performance) in
  NoDup ids
  /\ (List.length ids <= 8)%nat
  /\ ~ (In "missing-h1" ids /\ In "multiple-h1" ids).
Proof.
  intros ids. subst ids. unfold derived.
  rewrite issues_are_fired_rules. unfold fired, ruleTable.
  pose proof (h1_rules_exclusive seo) as Hh1.
  destruct (List.length (h1 (headingStructure seo)) =? 0)%nat;
    destruct (1 <? List.length (h1 (headingStructure seo)))%nat;
    try discriminate Hh1; clear Hh1;
    destruct (negb (isOptimal (title seo)));
    destruct (negb (isOptimal (metaDescription seo)));
    destruct (0 <? withoutAlt (images content))%nat;
    destruct (0 <? link_empty (links content))%nat;
    destruct (negb (hasSSL (security technical)));
    destruct (negb (hasViewport (mobileOptimization technical)));
    destruct (JS.gt (loadTime technical) 3000);
    cbn [List.filter holds emits map titleLengthIssue metaDescriptionIssue missingH1Issue
           multipleH1Issue imagesWithoutAltIssue emptyLinksIssue noSSLIssue noViewportIssue
           slowLoadingIssue issue_id List.length];
    (split; [refine (bool_decide_unpack _ _); vm_compute; exact I|]);
    (split; [lia|]);
    intros [Hmissing Hmultiple]; cbn [In] in Hmissing, Hmultiple;
    intuition discriminate.
Qed.

Lemma derived_scores_range (seo : SEOAnalysis) (technical : TechnicalAnalysis)
  (content : ContentAnalysis) (performance : PerformanceAnalysis) :
  50 <= scoreOf Category.seo (derived seo technical content performance)
  /\ 60 <= scoreOf Category.technical (derived seo technical content performance)
  /\ 80 <= scoreOf Category.content (derived seo technical content performance)
  /\ 90 <= scoreOf Category.performance (derived seo technical content performance)
  /\ 70 <= overall (derived seo technical content performance) <= 100.
Proof.
  unfold derived, scoreOf, overall.
  rewrite issues_are_fired_rules. unfold fired, ruleTable.
  pose proof (h1_rules_exclusive seo) as Hh1.
  destruct (List.length (h1 (headingStructure seo)) =? 0)%nat;
    destruct (1 <? List.length (h1 (headingStructure seo)))%nat;
    try discriminate Hh1; clear Hh1;
    destruct (negb (isOptimal (title seo)));
    destruct (negb (isOptimal (metaDescription seo)));
    destruct (0 <? withoutAlt (images content))%nat;
    destruct (0 <? link_empty (links content))%nat;
    destruct (negb (hasSSL (security technical)));
    destruct (negb (hasViewport (mobileOptimization technical)));
    destruct (JS.gt (loadTime technical) 3000);
    cbn [List.filter holds emits map];
    repeat split; vm_compute; congruence.
Qed.

(** On the issues of the deriver the scores never come near the floor: the
    seo score is at least 50, the technical score at least 60, the content
    score at least 80, the performance score at least 90, and the overall
    score lies between 70 and 100; the worst page reaches exactly 70. *)
Theorem derived_scores_bounded (seo : SEOAnalysis) (technical : TechnicalAnalysis)
  (content : ContentAnalysis) (performance : PerformanceAnalysis) :
  let l := derived seo technical content performance in
  50 <= scoreOf Category.seo l
  /\ 60 <= scoreOf Category.technical l
  /\ 80 <= scoreOf Category.content l
  /\ 90 <= scoreOf Category.performance l
  /\ 70 <= overall l <= 100
  /\ overall (derived bareSeo bareTechnical messyContent samplePerformance) = 70.
Proof.
  intros l. subst l.
  destruct (derived_scores_range seo technical content performance)
    as (Hseo & Htechnical & Hcontent & Hperformance & Hoverall).
  split; [exact Hseo|]. split; [exact Htechnical|]. split; [exact Hcontent|].
  split; [exact Hperformance|]. split; [exact Hoverall|].
  vm_compute. reflexivity.
Qed.

End DeriverExtras.

(** ** Extraction: further properties *)

Module ExtractionExtras.
Import PlaywrightAudit ExtractionSpec RunSpec.

Lemma headingsOf_cons (tag : string) (h : string * string) (rest : list (string * string)) :
  headingsOf tag (h :: rest) =
  if String.eqb (fst h) tag then snd h :: headingsOf tag rest else headingsOf tag rest.
Proof.
  unfold headingsOf. cbn [List.filter]. destruct (String.eqb (fst h) tag); reflexivity.
Qed.

Lemma headingTotal_cons (page : DomLookups) (h : string * string)
  (rest : list (string * string)) (n : nat) :
  (List.length (headingsOf "h1" rest) + List.length (headingsOf "h2" rest)
   + List.length (headingsOf "h3" rest) + List.length (headingsOf "h4" rest)
   + List.length (headingsOf "h5" rest) + List.length (headingsOf "h6" rest))%nat = n ->
  (List.length (headingsOf "h1" (h :: rest)) + List.length (headingsOf "h2" (h :: rest))
   + List.length (headingsOf "h3" (h :: rest)) + List.length (headingsOf "h4" (h :: rest))
   + List.length (headingsOf "h5" (h :: rest)) + List.length (headingsOf "h6" (h :: rest)))%nat
  = (n + if existsb (String.eqb (fst h)) headingTags then 1 else 0)%nat.
Proof.
  intros <-. rewrite !headingsOf_cons. unfold headingTags. cbn [existsb].
  destruct (String.eqb_spec (fst h) "h1") as [Heq|_]; [rewrite Heq; cbn; lia|].
  destruct (String.eqb_spec (fst h) "h2") as [Heq|_]; [rewrite Heq; cbn; lia|].
  destruct (String.eqb_spec (fst h) "h3") as [Heq|_]; [rewrite Heq; cbn; lia|].
  destruct (String.eqb_spec (fst h) "h4") as [Heq|_]; [rewrite Heq; cbn; lia|].
  destruct (String.eqb_spec (fst h) "h5") as [Heq|_]; [rewrite Heq; cbn; lia|].
  destruct (String.eqb_spec (fst h) "h6") as [_|_]; cbn; lia.
Qed.

(** The heading structure sorts the headings by tag without losing or
    repeating any: the six lists together hold as many texts as there are
    headings tagged h1 to h6, so all of them when every tag is one of the
    six. *)
Theorem heading_structure_partitions (page : DomLookups) :
  headingTotal (headingStructure (analyzeSEO page))
    = List.length (List.filter (fun h => existsb (String.eqb (fst h)) headingTags)
                     (dom_headings page))
  /\ (headingTotal (headingStructure (analyzeSEO page)) <= List.length (dom_headings page))%nat
  /\ (Forall (fun h => In (fst h) headingTags) (dom_headings page) ->
      headingTotal (headingStructure (analyzeSEO page)) = List.length (dom_headings page)).
Proof.
  unfold headingTotal, analyzeSEO.
  cbn [headingStructure h1 h2 h3 h4 h5 h6].
  assert ((List.length (headingsOf "h1" (dom_headings page))
           + List.length (headingsOf "h2" (dom_headings page))
           + List.length (headingsOf "h3" (dom_headings page))
           + List.length (headingsOf "h4" (dom_headings page))
           + List.length (headingsOf "h5" (dom_headings page))
           + List.length (headingsOf "h6" (dom_headings page)))%nat
          = List.length (List.filter (fun h => existsb (String.eqb (fst h)) headingTags)
                           (dom_headings page))) as Hcount.
  { induction (dom_headings page) as [|h rest IH]; [reflexivity|].
    rewrite (headingTotal_cons page h rest _ IH). cbn [List.filter].
    destruct (existsb (String.eqb (fst h)) headingTags); cbn [List.length]; lia. }
  split; [exact Hcount|].
  split.
  - rewrite Hcount. apply List.filter_length_le.
  - intros Hall. rewrite Hcount. f_equal.
    apply forallb_filter_id. apply forallb_forall.
    intros h Hin. rewrite Forall_forall in Hall.
    apply existsb_exists. exists (fst h). split.
    + apply Hall. apply list_elem_of_In. exact Hin.
    + apply String.eqb_refl.
Qed.

Lemma heading_structure_partitions_witness :
  headingTotal (headingStructure (analyzeSEO (acmePage None))) = 3%nat.
Proof.
  apply (heading_structure_partitions (acmePage None)).
  repeat constructor; cbn; tauto.
Defined.

(** The bundle [analyzeSEO] builds is consistent: the title content is
    always present with its length; the recorded description length is 0
    exactly when the description is absent or empty; and a description
    flagged optimal is present, with a recorded length between 120 and
    160. *)
Theorem extracted_bundle_consistent (page : DomLookups) :
  let seo := analyzeSEO page in
  content (title seo) = Some (dom_title page)
  /\ length (title seo) = String.length (dom_title page)
  /\ (isOptimal (title seo) = true <-> (30 <= length (title seo) <= 60)%nat)
  /\ (length (metaDescription seo) = 0%nat <-> JS.truthy (content (metaDescription seo)) = false)
  /\ (isOptimal (metaDescription seo) = true <->
        JS.truthy (content (metaDescription seo)) = true
        /\ (120 <= length (metaDescription seo) <= 160)%nat).
Proof.
  intros seo. subst seo. unfold analyzeSEO.
  cbn [title metaDescription content length isOptimal].
  split; [reflexivity|]. split; [reflexivity|].
  split; [apply ExtractionProofs.between_true|].
  split.
  - destruct (dom_metaDescription page) as [[|a d]|]; cbn; split; congruence.
  - destruct (JS.truthy (dom_metaDescription page)).
    + rewrite ExtractionProofs.between_true. tauto.
    + split; [discriminate | intros [Habs _]; discriminate].
Qed.

End ExtractionExtras.

(** ** The audit run: further properties *)

Module RunExtras.
Import PlaywrightAudit AuditRun CaptureSpec RunSpec PipelineSpec.

Lemma run_browser (web : Web) (clock : Clock) (url : string)
  (options : option AuditOptions) (b : Browser) :
  snd (runPlaywrightAudit web clock url options b) =
  {| browserInstance := true;
     events := events b ++ runRequests web url options (browserInstance b) |}.
Proof.
  unfold runPlaywrightAudit, runRequests, pageRequests, getBrowser, log, JS.push.
  destruct b as [launched evs]. cbn [browserInstance events].
  destruct (web url) as [message | message | page].
  - destruct launched; cbn; rewrite <- ?app_assoc; reflexivity.
  - destruct launched; cbn; rewrite <- ?app_assoc; reflexivity.
  - destruct (analyzeIssuesAndRecommendations (analyzeSEO (snap_dom page))
                (snap_technical page) (snap_content page) (snap_performance page))
      as [issues recommendations].
    unfold captureScreenshots, log, JS.push.
    destruct (notStrictlyFalse (includeScreenshotsOf options));
      destruct launched; cbn; rewrite <- ?app_assoc; reflexivity.
Qed.

Lemma pageRequests_counts (web : Web) (url : string) (options : option AuditOptions) :
  countOf isLaunch (pageRequests web url options) = 0%nat
  /\ countOf isNewContext (pageRequests web url options) = 0%nat
  /\ countOf isCloseContext (pageRequests web url options) = 0%nat.
Proof.
  unfold pageRequests.
  destruct (web url); [repeat split..|].
  destruct (notStrictlyFalse (includeScreenshotsOf options)); repeat split.
Qed.

Lemma countOf_app (p : BrowserEvent -> bool) (l1 l2 : list BrowserEvent) :
  countOf p (l1 ++ l2) = (countOf p l1 + countOf p l2)%nat.
Proof. unfold countOf. rewrite List.filter_app, List.length_app. reflexivity. Qed.


Lemma runRequests_launches (web : Web) (url : string) (options : option AuditOptions)
  (launched : bool) :
  countOf isLaunch (runRequests web url options launched)
  = (if launched then 0 else 1)%nat.
Proof.
  destruct (pageRequests_counts web url options) as (Hl & _ & _).
  unfold runRequests. rewrite !countOf_app, Hl. destruct launched; reflexivity.
Qed.

(** Two runs in a row share the browser: the second never launches one,
    whatever the first one met. *)
Theorem second_run_reuses_browser (web web' : Web) (clock clock' : Clock)
  (url url' : string) (options options' : option AuditOptions) (b : Browser) :
  let b1 := snd (runPlaywrightAudit web clock url options b) in
  let b2 := snd (runPlaywrightAudit web' clock' url' options' b1) in
  countOf isLaunch (events b2) = countOf isLaunch (events b1)
  /\ countOf isLaunch (events b2)
     = (countOf isLaunch (events b) + if browserInstance b then 0 else 1)%nat.
Proof.
  intros b1 b2. subst b1 b2.
  rewrite (run_browser web' clock' url' options').
  rewrite (run_browser web clock url options b).
  cbn [events browserInstance].
  rewrite !countOf_app, !runRequests_launches. split; lia.
Qed.

Lemma loaded_run_resolves (web : Web) (clock : Clock) (url : string)
  (options : option AuditOptions) (b : Browser) (page : PageSnapshot) :
  web url = Loaded page ->
  exists audit,
    fst (runPlaywrightAudit web clock url options b) = JS.Resolved audit
    /\ audit_url audit = url
    /\ audit_seo audit = analyzeSEO (snap_dom page)
    /\ audit_issues audit
       = derived (audit_seo audit) (audit_technical audit)
           (audit_content audit) (audit_performance audit).
Proof.
  intros Hnav. unfold runPlaywrightAudit. rewrite Hnav. unfold derived.
  destruct (analyzeIssuesAndRecommendations (analyzeSEO (snap_dom page))
              (snap_technical page) (snap_content page) (snap_performance page))
    as [issues recommendations] eqn:Hderived.
  destruct (notStrictlyFalse (includeScreenshotsOf options));
    cbv zeta; unfold captureScreenshots; cbv zeta; cbn [fst];
    eexists; (split; [reflexivity|]);
    cbn [audit_url audit_seo audit_issues audit_technical audit_content audit_performance];
    rewrite Hderived; repeat split.
Qed.

(** A run over a loaded page returns a record that hangs together: the
    issues are the deriver's, the categories are the scoring of those
    issues, the overall score is the rounded mean of the categories and
    lies between 70 and 100, the processing time is the elapsed time, and
    the storage metadata is still unset. *)
Theorem run_record_consistent (web : Web) (clock : Clock) (url : string)
  (options : option AuditOptions) (b : Browser) (page : PageSnapshot) :
  web url = Loaded page ->
  exists audit,
    fst (runPlaywrightAudit web clock url options b) = JS.Resolved audit
    /\ audit_url audit = url
    /\ audit_seo audit = analyzeSEO (snap_dom page)
    /\ audit_issues audit
       = derived (audit_seo audit) (audit_technical audit)
           (audit_content audit) (audit_performance audit)
    /\ audit_categories audit = calculateCategoryScores (audit_issues audit)
    /\ audit_overallScore audit = calculateOverallScore (audit_categories audit)
    /\ 70 <= audit_overallScore audit <= 100
    /\ audit_processingTime audit = Some (endTime clock - startTime clock)
    /\ audit_id audit = None /\ audit_createdAt audit = None /\ audit_status audit = None
    /\ audit_llmAnalysis audit = None.
Proof.
  intros Hnav. unfold runPlaywrightAudit. rewrite Hnav.
  pose proof (DeriverExtras.derived_scores_range (analyzeSEO (snap_dom page))
                (snap_technical page) (snap_content page) (snap_performance page))
    as (_ & _ & _ & _ & Hrange).
  unfold overall, derived in Hrange.
  unfold derived.
  destruct (analyzeIssuesAndRecommendations (analyzeSEO (snap_dom page))
              (snap_technical page) (snap_content page) (snap_performance page))
    as [issues recommendations] eqn:Hderived.
  cbn [fst] in Hrange.
  destruct (notStrictlyFalse (includeScreenshotsOf options));
    cbv zeta; unfold captureScreenshots; cbv zeta; cbn [fst];
    eexists; (split; [reflexivity|]);
    cbn [audit_url audit_seo audit_issues audit_technical audit_content audit_performance
           audit_categories audit_overallScore audit_processingTime audit_id
           audit_createdAt audit_status audit_llmAnalysis];
    rewrite Hderived; cbn [fst]; repeat split; exact (proj1 Hrange) || exact (proj2 Hrange).
Qed.

Lemma run_record_consistent_witness :
  exists audit,
    fst (runPlaywrightAudit acmeWeb sampleClock "https://acme.example/" None freshBrowser)
      = JS.Resolved audit
    /\ audit_overallScore audit = calculateOverallScore (audit_categories audit).
Proof.
  destruct (run_record_consistent acmeWeb sampleClock "https://acme.example/" None
              freshBrowser acmeSnapshot eq_refl)
    as (audit & Hrun & _ & _ & _ & _ & Hoverall & _).
  exists audit. split; [exact Hrun | exact Hoverall].
Defined.

End RunExtras.

(** ** Storage and service: further properties *)

Module ServiceExtras.
Import PlaywrightAudit AuditRun MemoryStorage AuditService.
Import HeuristicSpec StorageSpec CaptureSpec RunSpec ServiceSpec.

(** Saving touches one identifier only: every other record stays as it
    was. The identifier comes from the clock and the random draw alone, so
    a save that draws an identifier already in use replaces the record
    stored under it, and the number of records grows by one only for a
    fresh identifier. *)
Theorem save_touches_one_identifier (env : Env) (audit : AuditResult)
  (audits : gmap string AuditResult) :
  let id := fst (saveAudit env audit audits) in
  let audits' := snd (saveAudit env audit audits) in
  id = generateId env
  /\ (forall other, other <> id -> getAudit other audits' = getAudit other audits)
  /\ match getAudit id audits with
     | Some _ => size audits' = size audits
     | None => size audits' = S (size audits)
     end
  /\ (forall audit2,
        getAudit id (snd (saveAudit env audit2 audits'))
          = Some (withMetadata audit2 id (Date_toISOString env))
        /\ size (snd (saveAudit env audit2 audits')) = size audits').
Proof.
  intros id audits'. subst id audits'.
  unfold saveAudit, getAudit. cbn [fst snd].
  split; [reflexivity|].
  split.
  { intros other Hne. apply lookup_insert_ne. congruence. }
  split.
  { destruct (audits !! generateId env) as [old|] eqn:Hold.
    - rewrite <- (insert_delete_id audits (generateId env) old Hold) at 2.
      rewrite <- (insert_delete_eq audits).
      rewrite !map_size_insert_None by apply lookup_delete_eq. reflexivity.
    - apply map_size_insert_None. exact Hold. }
  intros audit2. split; [apply lookup_insert_eq|].
  rewrite insert_insert_eq.
  rewrite <- (insert_delete_eq audits (generateId env) (withMetadata audit2 _ _)).
  rewrite <- (insert_delete_eq audits (generateId env) (withMetadata audit _ _)).
  rewrite !map_size_insert_None by apply lookup_delete_eq. reflexivity.
Qed.

Lemma valid_isValidURL (URL_new : string -> option URL) (url : string) :
  validInput URL_new url <-> isValidURL URL_new url = true.
Proof.
  unfold validInput, isValidURL. split.
  - intros [urlObj [-> [Hp | Hp]]]; cbn [existsb]; rewrite Hp; reflexivity.
  - destruct (URL_new url) as [urlObj|]; [|discriminate].
    cbn [existsb]. intros Hp. exists urlObj. split; [reflexivity|].
    destruct (String.eqb_spec (protocol urlObj) "http:") as [Heq|_]; [left; exact Heq|].
    destruct (String.eqb_spec (protocol urlObj) "https:") as [Heq|_]; [right; exact Heq|].
    discriminate.
Qed.

Lemma runAudit_success (URL_new : string -> option URL) (web : Web)
  (clock : Clock) (env : Env) (url : string) (options : option AuditOptions)
  (w : World) (page : PageSnapshot) :
  validInput URL_new url ->
  web url = Loaded page ->
  exists audit,
    fst (runPlaywrightAudit web clock url options (browser w)) = JS.Resolved audit
    /\ audit_url audit = url
    /\ runAudit URL_new web clock env url options w
       = (JS.Resolved (generateId env),
          {| storage := <[generateId env :=
                            withMetadata audit (generateId env) (Date_toISOString env)]>
                          (storage w);
             browser := snd (runPlaywrightAudit web clock url options (browser w)) |}).
Proof.
  intros Hvalid Hnav.
  destruct (RunExtras.loaded_run_resolves web clock url options (browser w) page Hnav)
    as (audit & Hrun & Hurl & _).
  exists audit. split; [exact Hrun|]. split; [exact Hurl|].
  unfold runAudit. rewrite (proj1 (valid_isValidURL URL_new url) Hvalid). cbn [negb].
  destruct (runPlaywrightAudit web clock url options (browser w)) as [settled b'].
  cbn [fst] in Hrun. subst settled. reflexivity.
Qed.

(** After a successful audit the record can be read back at once: for a
    valid URL whose page loads, [runAudit] resolves with the generated
    identifier, [getAuditResult] on it returns the record of the run with
    the storage metadata set, and no other stored record changes. *)
Theorem audit_is_stored_after_run (URL_new : string -> option URL) (web : Web)
  (clock : Clock) (env : Env) (url : string) (options : option AuditOptions)
  (w : World) (page : PageSnapshot) :
  validInput URL_new url ->
  web url = Loaded page ->
  exists audit w',
    runAudit URL_new web clock env url options w = (JS.Resolved (generateId env), w')
    /\ fst (runPlaywrightAudit web clock url options (browser w)) = JS.Resolved audit
    /\ getAuditResult (generateId env) w'
       = Some (withMetadata audit (generateId env) (Date_toISOString env))
    /\ (forall other, other <> generateId env ->
                      getAuditResult other w' = getAuditResult other w)
    /\ browser w' = snd (runPlaywrightAudit web clock url options (browser w)).
Proof.
  intros Hvalid Hnav.
  destruct (runAudit_success URL_new web clock env url options w page Hvalid Hnav)
    as (audit & Hrun & _ & Hsaved).
  eexists. eexists. split; [exact Hsaved|].
  split; [exact Hrun|].
  unfold getAuditResult, getAudit. cbn [storage browser].
  split; [apply lookup_insert_eq|].
  split; [|reflexivity].
  intros other Hne. apply lookup_insert_ne. congruence.
Qed.

Lemma audit_is_stored_after_run_witness :
  exists audit w',
    runAudit schemeOnly acmeWeb sampleClock sampleEnv "https://acme.example/" None sampleWorld
      = (JS.Resolved (generateId sampleEnv), w')
    /\ getAuditResult (generateId sampleEnv) w'
       = Some (withMetadata audit (generateId sampleEnv) (Date_toISOString sampleEnv)).
Proof.
  destruct (audit_is_stored_after_run schemeOnly acmeWeb sampleClock sampleEnv
              "https://acme.example/" None sampleWorld acmeSnapshot)
    as (audit & w' & Hrun & _ & Hget & _).
  - eexists. split; [vm_compute; reflexivity|]. right. reflexivity.
  - reflexivity.
  - exists audit, w'. split; [exact Hrun | exact Hget].
Defined.

(** A failed navigation leaves nothing behind: for a valid URL whose page
    cannot be loaded, [runAudit] rejects with the navigation's own message,
    stores no record, takes no screenshot, and the browsing context it
    opened is closed. *)
Theorem failed_navigation_saves_nothing (URL_new : string -> option URL) (web : Web)
  (clock : Clock) (env : Env) (url : string) (options : option AuditOptions)
  (w : World) (message : string) :
  validInput URL_new url ->
  navigationFails web url message ->
  let w' := snd (runAudit URL_new web clock env url options w) in
  fst (runAudit URL_new web clock env url options w) = JS.Rejected message
  /\ storage w' = storage w
  /\ screenshotsTaken (browser w') = screenshotsTaken (browser w)
  /\ last (events (browser w')) = Some CloseContext.
Proof.
  intros Hvalid Hfails w'. subst w'.
  pose proof (RunExtras.run_browser web clock url options (browser w)) as Hb.
  unfold runAudit. rewrite (proj1 (valid_isValidURL URL_new url) Hvalid). cbn [negb].
  destruct (runPlaywrightAudit web clock url options (browser w)) as [settled b'] eqn:Hpair.
  cbn [snd] in Hb. subst b'.
  assert (settled = JS.Rejected message) as ->.
  { apply (f_equal fst) in Hpair. cbn [fst] in Hpair. rewrite <- Hpair.
    unfold runPlaywrightAudit. destruct Hfails as [-> | ->]; reflexivity. }
  cbn [fst snd storage browser events].
  split; [reflexivity|]. split; [reflexivity|].
  unfold screenshotsTaken, runRequests, pageRequests. cbn [events].
  split.
  { rewrite !List.filter_app, !List.length_app.
    destruct Hfails as [-> | ->]; destruct (browserInstance (browser w)); cbn; lia. }
  rewrite !app_assoc. apply last_snoc.
Qed.

Lemma failed_navigation_saves_nothing_witness :
  fst (runAudit schemeOnly acmeWeb sampleClock sampleEnv "https://nowhere.example/" None
         sampleWorld) = JS.Rejected "net::ERR_NAME_NOT_RESOLVED"
  /\ storage (snd (runAudit schemeOnly acmeWeb sampleClock sampleEnv
                     "https://nowhere.example/" None sampleWorld)) = storage sampleWorld.
Proof.
  destruct (failed_navigation_saves_nothing schemeOnly acmeWeb sampleClock sampleEnv
              "https://nowhere.example/" None sampleWorld "net::ERR_NAME_NOT_RESOLVED")
    as (Hrejected & Hstorage & _).
  - eexists. split; [vm_compute; reflexivity|]. right. reflexivity.
  - left. reflexivity.
  - split; [exact Hrejected | exact Hstorage].
Defined.

End ServiceExtras.

(** ** Heuristic generator: further properties *)

Module ReportExtras.
Import PlaywrightAudit LLMService HeuristicSpec HeuristicProofs ReportSpec.

Section Generative.

Variable JSONValue : Type.
Variable JSON_parse : string -> option JSONValue.

(** The generative path cannot throw, whatever the collaborator sends, and
    its result is settled by one test: it is the parsed JSON value when the
    service has a key, the reply is a success with a text, and [JSON.parse]
    accepts the text extracted from it; in every other case it is the
    heuristic report. *)
Theorem generative_path_never_throws (self : LLMService.t) (auditResult : AuditResult)
  (outcome : FetchOutcome) :
  (exists result, generativePath JSONValue JSON_parse self auditResult outcome = Return result)
  /\ (forall text, exists result,
        parseAnalysisResponse JSONValue JSON_parse text auditResult = Return result)
  /\ if collaboratorFails JSON_parse self outcome
     then generativePath JSONValue JSON_parse self auditResult outcome
          = Return (Heuristic (getFallbackAnalysis auditResult))
     else exists status text candidate value,
            outcome = Response true status (Text (Some text))
            /\ jsonCandidate text = Some candidate
            /\ JSON_parse candidate = Some value
            /\ generativePath JSONValue JSON_parse self auditResult outcome
               = Return (Parsed value).
Proof.
  assert (forall text, exists result,
            parseAnalysisResponse JSONValue JSON_parse text auditResult = Return result)
    as Hparse.
  { intros text. unfold parseAnalysisResponse.
    destruct text as [response|]; [|eexists; reflexivity].
    destruct (jsonCandidate response) as [candidate|]; [|eexists; reflexivity].
    destruct (JSON_parse candidate); eexists; reflexivity. }
  assert (if collaboratorFails JSON_parse self outcome
          then generativePath JSONValue JSON_parse self auditResult outcome
               = Return (Heuristic (getFallbackAnalysis auditResult))
          else exists status text candidate value,
                 outcome = Response true status (Text (Some text))
                 /\ jsonCandidate text = Some candidate
                 /\ JSON_parse candidate = Some value
                 /\ generativePath JSONValue JSON_parse self auditResult outcome
                    = Return (Parsed value)) as Hcases.
  { destruct (collaboratorFails JSON_parse self outcome) eqn:Hfails.
    - apply generativePath_falls_back. exact Hfails.
    - unfold collaboratorFails in Hfails. unfold generativePath.
      destruct (String.eqb (apiKey self) ""); [discriminate|].
      cbn [orb] in Hfails. cbn [andThen].
      destruct outcome as [message | ok status body]; [discriminate|].
      destruct ok; [|discriminate].
      destruct body as [message | | text]; try discriminate.
      destruct text as [text|]; [|discriminate].
      destruct (jsonCandidate text) as [candidate|] eqn:Hcand; [|discriminate].
      destruct (JSON_parse candidate) as [value|] eqn:Hvalue; [|discriminate].
      exists status, text, candidate, value.
      repeat split; try assumption.
      cbn [negb andThen tryCatch]. unfold parseAnalysisResponse.
      rewrite Hcand, Hvalue. reflexivity. }
  split; [|split; [exact Hparse | exact Hcases]].
  destruct (collaboratorFails JSON_parse self outcome).
  - eexists. exact Hcases.
  - destruct Hcases as (status & text & candidate & value & _ & _ & _ & Hpath).
    eexists. exact Hpath.
Qed.

End Generative.

Lemma missing_push (signal : option string) (l : list DetailedIssue) (x : DetailedIssue) :
  List.length (if negb (JS.truthy signal) then JS.push l x else l)
  = (List.length l + missing signal)%nat.
Proof.
  unfold missing, JS.push. destruct (JS.truthy signal); cbn [negb].
  - lia.
  - rewrite List.length_app. reflexivity.
Qed.

(** The search-visibility projection counts the missing fundamentals: the
    critical tier holds one issue per missing signal among description
    content, canonical link, Open Graph title and viewport tag (so at most
    four), and the projection is the upper range for three or four of
    them, the middle range for two, and the lower range otherwise. *)
Theorem seo_impact_counts_missing_fundamentals (auditResult : AuditResult) :
  List.length (extractCriticalIssues auditResult) = missingFundamentals auditResult
  /\ (List.length (extractCriticalIssues auditResult) <= 4)%nat
  /\ calculateSEOImpact auditResult
     = (if (3 <=? missingFundamentals auditResult)%nat
        then "30-50% with proper meta tags and fixes"
        else if (2 <=? missingFundamentals auditResult)%nat
             then "20-30% with SEO improvements"
             else "10-20% with minor optimizations")
  /\ (extractCriticalIssues auditResult = [] <-> missingFundamentals auditResult = 0%nat).
Proof.
  assert (List.length (extractCriticalIssues auditResult) = missingFundamentals auditResult)
    as Hlen.
  { unfold extractCriticalIssues, missingFundamentals. cbv zeta.
    rewrite !missing_push. cbn [List.length]. lia. }
  split; [exact Hlen|].
  split.
  { rewrite Hlen. unfold missingFundamentals, missing.
    destruct (JS.truthy _), (JS.truthy _), (JS.truthy _), (JS.truthy _); cbn; lia. }
  split.
  { unfold calculateSEOImpact. cbv zeta. rewrite Hlen. reflexivity. }
  rewrite <- Hlen. split.
  - intros ->. reflexivity.
  - destruct (extractCriticalIssues auditResult); [reflexivity | discriminate].
Qed.

Lemma placeholders_positive (auditResult : AuditResult) :
  hasPlaceholderLinks (audit_content auditResult) = true ->
  0 < placeholderLinkCount auditResult.
Proof.
  unfold hasPlaceholderLinks, placeholderLinkCount.
  destruct (placeholderLinks (audit_content auditResult)) as [l|]; [|discriminate].
  intros H. apply Nat.ltb_lt in H. lia.
Qed.

Lemma placeholders_zero (auditResult : AuditResult) :
  hasPlaceholderLinks (audit_content auditResult) = false ->
  placeholderLinkCount auditResult = 0.
Proof.
  unfold hasPlaceholderLinks, placeholderLinkCount.
  destruct (placeholderLinks (audit_content auditResult)) as [l|]; [|reflexivity].
  intros H. apply Nat.ltb_ge in H. lia.
Qed.

(** The content-quality score and the content issue list agree: the score
    is 100 exactly when the list is empty, it is at most 97 as soon as one
    issue is listed, and the list never has more than four entries. *)
Theorem content_score_100_iff_no_content_issue (auditResult : AuditResult) :
  (calculateContentQualityScore auditResult = 100 <-> extractContentIssues auditResult = [])
  /\ (extractContentIssues auditResult <> [] ->
      calculateContentQualityScore auditResult <= 97)
  /\ (List.length (extractContentIssues auditResult) <= 4)%nat.
Proof.
  rewrite score_refines_spec. unfold contentQuality, clamp, extractContentIssues. cbv zeta.
  rewrite truthy_missing, suspicious_flagged.
  unfold imagesMissingAlt.
  pose proof (placeholders_positive auditResult) as Hpos.
  pose proof (placeholders_zero auditResult) as Hzero.
  destruct (descriptionMissing auditResult);
    destruct (hasPlaceholderLinks (audit_content auditResult));
    destruct (Nat.ltb_spec 0 (withoutAlt (images (audit_content auditResult)))) as [Halt|Halt];
    destruct (testimonialsFlagged auditResult);
    try specialize (Hpos eq_refl); try specialize (Hzero eq_refl);
    unfold JS.push; cbn [app List.length];
    (split; [split; [intros Hscore; try lia; try reflexivity
                    | intros Hnil; try discriminate Hnil; lia]|]);
    (split; [intros Hne; try (exfalso; apply Hne; reflexivity); lia | lia]).
Qed.

Lemma content_score_100_iff_no_content_issue_witness :
  calculateContentQualityScore messyAudit <= 97.
Proof.
  apply (content_score_100_iff_no_content_issue messyAudit).
  vm_compute. discriminate.
Defined.

(** The action list is ordered by urgency and always ends with the two
    housekeeping tasks: immediate items come before high ones, high before
    medium, and the list has between two and seven items. *)
Theorem action_items_ordered (auditResult : AuditResult) :
  let items := extractActionItems auditResult in
  StronglySorted le (map (fun item => urgency (ai_priority item)) items)
  /\ (exists front, map ai_task items = front ++ housekeeping
                    /\ List.length front = (List.length items - 2)%nat)
  /\ (2 <= List.length items <= 7)%nat.
Proof.
  intros items. subst items. unfold extractActionItems. cbv zeta.
  destruct (negb (JS.truthy (content (metaDescription (audit_seo auditResult)))));
    destruct (hasPlaceholderLinks (audit_content auditResult));
    destruct (suspicious (audit_content auditResult));
    destruct (negb (JS.truthy (og_title (openGraph (audit_seo auditResult)))));
    destruct (0 <? withoutAlt (images (audit_content auditResult)))%nat;
    unfold JS.push; cbn [app map ai_priority ai_task urgency List.length];
    (split; [repeat (apply SSorted_cons;
                       [|repeat (apply List.Forall_cons; [lia|]); apply List.Forall_nil]);
               apply SSorted_nil|]);
    (split; [|lia]);
    match goal with
    | |- exists front, ?tasks = _ /\ _ =>
        exists (firstn (List.length tasks - 2) tasks); split; reflexivity
    end.
Qed.

End ReportExtras.
(** ** The heuristic report and the issue list of one record *)

Module AgreementExtras.
Import PlaywrightAudit AuditRun LLMService.
Import DeriverSpec DeriverProofs PipelineSpec HeuristicSpec CaptureSpec.

Lemma fired_ids (rules : list Rule) (id : string) :
  In id (map issue_id (fired rules)) <->
  existsb (fun r => String.eqb (issue_id (emits r)) id && holds r) rules = true.
Proof.
  induction rules as [|r rest IH]; [cbn; split; [tauto | discriminate]|].
  rewrite fired_cons, map_app, in_app_iff, IH. cbn [existsb].
  rewrite orb_true_iff, andb_true_iff, String.eqb_eq.
  destruct (holds r); cbn [map In]; intuition congruence.
Qed.

Lemma derived_has (seo : SEOAnalysis) (technical : TechnicalAnalysis)
  (content : ContentAnalysis) (performance : PerformanceAnalysis) :
  let ids := map issue_id (derived seo technical content performance) in
  (In "title-length" ids <-> isOptimal (title seo) = false)
  /\ (In "meta-description" ids <-> isOptimal (metaDescription seo) = false)
  /\ (In "images-without-alt" ids <-> (0 < withoutAlt (images content))%nat)
  /\ (In "no-ssl" ids <-> hasSSL (security technical) = false)
  /\ (In "no-viewport" ids <-> hasViewport (mobileOptimization technical) = false)
  /\ (In "slow-loading" ids <-> JS.gt (loadTime technical) 3000 = true).
Proof.
  intros ids. subst ids. unfold derived.
  rewrite issues_are_fired_rules.
  repeat split; intros H;
    first [ apply fired_ids in H | apply fired_ids ];
    unfold ruleTable in *;
    cbn [existsb emits holds issue_id titleLengthIssue metaDescriptionIssue missingH1Issue
           multipleH1Issue imagesWithoutAltIssue emptyLinksIssue noSSLIssue noViewportIssue
           slowLoadingIssue] in *;
    repeat match goal with
           | H' : context [String.eqb ?a ?b] |- _ =>
               let v := eval vm_compute in (String.eqb a b) in
               change (String.eqb a b) with v in H'
           | |- context [String.eqb ?a ?b] =>
               let v := eval vm_compute in (String.eqb a b) in
               change (String.eqb a b) with v
           end;
    cbn [andb orb] in *; rewrite ?orb_false_r in *;
    first [ apply negb_true_iff; exact H
          | apply negb_true_iff in H; exact H
          | apply Nat.ltb_lt; exact H
          | apply Nat.ltb_lt in H; exact H
          | exact H ].
Qed.

Lemma resolved_run_loaded (web : Web) (clock : Clock) (url : string)
  (options : option AuditOptions) (b : Browser) (audit : AuditResult) :
  fst (runPlaywrightAudit web clock url options b) = JS.Resolved audit ->
  exists page, web url = Loaded page.
Proof.
  unfold runPlaywrightAudit.
  destruct (web url) as [message | message | page]; [discriminate.. |].
  intros _. exists page. reflexivity.
Qed.

(** On the record of a run the two rule sets tell one story: the heuristic
    report raises the title, alt-text, SSL and load-time findings exactly
    when the issue list has them, and a description it calls missing is
    always in the issue list as well. *)
Theorem heuristic_agrees_with_deriver (web : Web) (clock : Clock) (url : string)
  (options : option AuditOptions) (b : Browser) (audit : AuditResult) :
  fst (runPlaywrightAudit web clock url options b) = JS.Resolved audit ->
  let ids := map issue_id (audit_issues audit) in
  let report := getFallbackAnalysis audit in
  (In "title-length" ids <-> In "title-optimization" (map di_id (highPriorityIssues report)))
  /\ (In "images-without-alt" ids <->
        In "images-accessibility" (map di_id (highPriorityIssues report)))
  /\ (In "no-ssl" ids <-> In "no-ssl" (map di_id (highPriorityIssues report)))
  /\ (In "slow-loading" ids <-> In "slow-loading" (map di_id (mediumPriorityIssues report)))
  /\ (In "missing-meta-description" (map di_id (criticalIssues report)) ->
      In "meta-description" ids).
Proof.
  intros Hrun ids report. subst ids report.
  destruct (resolved_run_loaded _ _ _ _ _ _ Hrun) as [page Hnav].
  destruct (RunExtras.loaded_run_resolves web clock url options b page Hnav)
    as (audit' & Hrun' & _ & Hseo & Hissues).
  rewrite Hrun in Hrun'. injection Hrun' as <-.
  rewrite Hissues.
  destruct (derived_has (audit_seo audit) (audit_technical audit) (audit_content audit)
              (audit_performance audit)) as (Htitle & Hmeta & Halt & Hssl & _ & Hslow).
  cbv zeta in Htitle, Hmeta, Halt, Hssl, Hslow.
  rewrite Htitle, Halt, Hssl, Hslow, Hmeta. clear Htitle Hmeta Halt Hssl Hslow Hissues.
  unfold getFallbackAnalysis.
  cbn [highPriorityIssues mediumPriorityIssues criticalIssues].
  split; [|split; [|split; [|split]]].
  - unfold extractHighPriorityIssues. cbv zeta.
    destruct (hasPlaceholderLinks (audit_content audit));
      destruct (isOptimal (title (audit_seo audit)));
      destruct (0 <? withoutAlt (images (audit_content audit)))%nat;
      destruct (hasSSL (security (audit_technical audit)));
      unfold JS.push; cbn [negb app map di_id In]; intuition congruence.
  - unfold extractHighPriorityIssues. cbv zeta.
    destruct (hasPlaceholderLinks (audit_content audit));
      destruct (isOptimal (title (audit_seo audit)));
      destruct (Nat.ltb_spec 0 (withoutAlt (images (audit_content audit))));
      destruct (hasSSL (security (audit_technical audit)));
      unfold JS.push; cbn [negb app map di_id In];
      intuition (congruence || lia).
  - unfold extractHighPriorityIssues. cbv zeta.
    destruct (hasPlaceholderLinks (audit_content audit));
      destruct (isOptimal (title (audit_seo audit)));
      destruct (0 <? withoutAlt (images (audit_content audit)))%nat;
      destruct (hasSSL (security (audit_technical audit)));
      unfold JS.push; cbn [negb app map di_id In]; intuition congruence.
  - unfold extractMediumPriorityIssues. cbv zeta.
    destruct (suspicious (audit_content audit));
      destruct (JS.gt (loadTime (audit_technical audit)) 3000);
      destruct (wordCount (audit_content audit) <? 300)%nat;
      unfold JS.push; cbn [negb app map di_id In]; intuition congruence.
  - rewrite Hseo.
    pose proof (ExtractionExtras.extracted_bundle_consistent (snap_dom page)) as Hcons.
    cbv zeta in Hcons. destruct Hcons as (_ & _ & _ & _ & Hopt).
    unfold extractCriticalIssues. cbv zeta. rewrite Hseo.
    destruct (JS.truthy (content (metaDescription (analyzeSEO (snap_dom page))))) eqn:Htruthy.
    + destruct (negb (JS.truthy (canonical (analyzeSEO (snap_dom page)))));
        destruct (negb (JS.truthy (og_title (openGraph (analyzeSEO (snap_dom page))))));
        destruct (negb (JS.truthy (viewport (analyzeSEO (snap_dom page)))));
        unfold JS.push; cbn [negb app map di_id In]; intuition congruence.
    + intros _.
      destruct (isOptimal (metaDescription (analyzeSEO (snap_dom page)))); [|reflexivity].
      destruct (proj1 Hopt eq_refl) as [Habs _]. discriminate.
Qed.

Lemma heuristic_agrees_with_deriver_witness :
  exists audit,
    fst (runPlaywrightAudit acmeWeb sampleClock "https://acme.example/" None freshBrowser)
      = JS.Resolved audit
    /\ (In "no-ssl" (map issue_id (audit_issues audit)) <->
          In "no-ssl" (map di_id (highPriorityIssues (getFallbackAnalysis audit)))).
Proof.
  destruct (RunExtras.loaded_run_resolves acmeWeb sampleClock "https://acme.example/" None
              freshBrowser acmeSnapshot eq_refl) as (audit & Hrun & _).
  exists audit. split; [exact Hrun|].
  apply (heuristic_agrees_with_deriver acmeWeb sampleClock "https://acme.example/" None
           freshBrowser audit Hrun).
Defined.

End AgreementExtras.

(** ** Content statistics *)

Module ContentExtras.
Import ContentExtraction ContentSpec.

Lemma filter_length_mono {A : Type} (p q : A -> bool) (l : list A) :
  (forall x, p x = true -> q x = true) ->
  (List.length (List.filter p l) <= List.length (List.filter q l))%nat.
Proof.
  intros Himp. induction l as [|x rest IH]; [reflexivity|].
  cbn [List.filter]. destruct (p x) eqn:Hp.
  - rewrite (Himp x Hp). cbn [List.length]. lia.
  - destruct (q x); cbn [List.length]; lia.
Qed.

Lemma filter_length_disjoint {A : Type} (p q : A -> bool) (l : list A) :
  (forall x, p x = true -> q x = false) ->
  (List.length (List.filter p l) + List.length (List.filter q l) <= List.length l)%nat.
Proof.
  intros Hdis. induction l as [|x rest IH]; [reflexivity|].
  cbn [List.filter]. destruct (p x) eqn:Hp.
  - rewrite (Hdis x Hp). cbn [List.length]. lia.
  - destruct (q x); cbn [List.length]; lia.
Qed.

Lemma slash_is_not_http (s : string) :
  startsWith "/" s = true -> startsWith "http" s = false.
Proof.
  unfold startsWith. destruct s as [|c s']; [discriminate|].
  cbn [String.prefix].
  destruct (ascii_dec "/"%char c) as [<-|_]; [|discriminate].
  intros _. destruct (ascii_dec "h"%char "/"%char) as [Habs|_]; [discriminate Habs | reflexivity].
Qed.

Lemma empty_alt_is_blank (alt : option string) :
  whenPresent (fun a => String.eqb a "") alt = true -> blank alt = true.
Proof.
  destruct alt as [a|]; [|discriminate]. cbn [whenPresent].
  intros Heq. apply String.eqb_eq in Heq. subst a. reflexivity.
Qed.

Lemma split_nonempty (s cur : string) (inSep : bool) :
  (1 <= List.length (splitOnWhiteSpace s cur inSep))%nat.
Proof.
  revert cur inSep. induction s as [|c s' IH]; intros cur inSep; [cbn; lia|].
  cbn [splitOnWhiteSpace]. destruct (isWhiteSpace c); [destruct inSep|]; cbn [List.length].
  - apply IH.
  - lia.
  - apply IH.
Qed.

(** The statistics of [analyzeContent] are consistent counts: images with
    an empty alt are among those missing alt text, which are among all
    images; no link is counted both internal and external; every partial
    count stays within its total; and the word count is at least 1. *)
Theorem content_statistics_consistent (pageUrl textContent : string)
  (images : list Image) (links : list Link) :
  let c := analyzeContent pageUrl textContent images links in
  (withEmptyAlt (Types.images c) <= withoutAlt (Types.images c) <= img_total (Types.images c))%nat
  /\ (lazyLoaded (Types.images c) <= img_total (Types.images c))%nat
  /\ (link_internal (Types.links c) + link_external (Types.links c)
      <= link_total (Types.links c))%nat
  /\ (link_nofollow (Types.links c) <= link_total (Types.links c))%nat
  /\ (link_empty (Types.links c) <= link_total (Types.links c))%nat
  /\ img_total (Types.images c) = List.length images
  /\ link_total (Types.links c) = List.length links
  /\ (1 <= wordCount c)%nat.
Proof.
  intros c. subst c. unfold analyzeContent.
  cbn [Types.images Types.links withEmptyAlt withoutAlt img_total lazyLoaded link_internal
         link_external link_total link_nofollow link_empty wordCount].
  split.
  { split; [|apply List.filter_length_le].
    apply filter_length_mono. intros img. apply empty_alt_is_blank. }
  split; [apply List.filter_length_le|].
  split.
  { apply filter_length_disjoint. intros link Hint.
    destruct (whenPresent (includes pageUrl) (anchor_href link)) eqn:Hinc.
    - apply andb_false_r.
    - rewrite orb_false_r in Hint.
      destruct (anchor_href link) as [href|]; [|reflexivity].
      cbn [whenPresent] in *. rewrite (slash_is_not_http href Hint). reflexivity. }
  split; [apply List.filter_length_le|].
  split; [apply List.filter_length_le|].
  split; [reflexivity|]. split; [reflexivity|].
  unfold countWords. apply split_nonempty.
Qed.

Lemma split_length (s cur : string) (inSep : bool) :
  List.length (splitOnWhiteSpace s cur inSep) = S (gapStarts inSep s).
Proof.
  revert cur inSep. induction s as [|c s' IH]; intros cur inSep; [reflexivity|].
  cbn [splitOnWhiteSpace gapStarts].
  destruct (isWhiteSpace c); [destruct inSep|]; cbn [List.length andb negb]; rewrite IH; lia.
Qed.

(** Words and gaps alternate. *)
Lemma words_and_gaps (s : string) (prevWs : bool) :
  (wordStarts prevWs s + (if endsInWhiteSpace prevWs s then 1 else 0)
   = gapStarts prevWs s + (if prevWs then 1 else 0))%nat.
Proof.
  revert prevWs. induction s as [|c s' IH]; intros prevWs; [cbn; lia|].
  cbn [wordStarts gapStarts endsInWhiteSpace].
  specialize (IH (isWhiteSpace c)).
  destruct (isWhiteSpace c), prevWs; cbn [andb negb] in *; lia.
Qed.

Lemma wordStarts_trimStart (s : string) :
  wordStarts true (trimStart s) = wordStarts true s.
Proof.
  induction s as [|c s' IH]; [reflexivity|].
  cbn [trimStart]. destruct (isWhiteSpace c) eqn:Hc; [|reflexivity].
  rewrite IH. cbn [wordStarts]. rewrite Hc. reflexivity.
Qed.

Lemma wordStarts_empty_trimEnd (s : string) (prevWs : bool) :
  trimEnd s = EmptyString -> wordStarts prevWs s = 0%nat.
Proof.
  revert prevWs. induction s as [|c s' IH]; intros prevWs; [reflexivity|].
  cbn [trimEnd wordStarts].
  destruct (trimEnd s') as [|d t] eqn:Ht; [|discriminate].
  destruct (isWhiteSpace c); [|discriminate].
  intros _. cbn [negb andb]. apply IH. reflexivity.
Qed.

Lemma wordStarts_trimEnd (s : string) (prevWs : bool) :
  wordStarts prevWs (trimEnd s) = wordStarts prevWs s.
Proof.
  revert prevWs. induction s as [|c s' IH]; intros prevWs; [reflexivity|].
  cbn [trimEnd].
  destruct (trimEnd s') as [|d t] eqn:Ht.
  - pose proof (wordStarts_empty_trimEnd s' (isWhiteSpace c) Ht) as Hzero.
    cbn [wordStarts]. rewrite Hzero.
    destruct (isWhiteSpace c) eqn:Hc; cbn [wordStarts]; rewrite ?Hc; reflexivity.
  - cbn [wordStarts]. rewrite <- (IH (isWhiteSpace c)). reflexivity.
Qed.

Lemma trimEnd_ends (s : string) (prevWs : bool) :
  trimEnd s <> EmptyString -> endsInWhiteSpace prevWs (trimEnd s) = false.
Proof.
  revert prevWs. induction s as [|c s' IH]; intros prevWs; [intros H; contradiction|].
  cbn [trimEnd].
  destruct (trimEnd s') as [|d t] eqn:Ht.
  - destruct (isWhiteSpace c) eqn:Hc; [intros H; contradiction|].
    intros _. cbn [endsInWhiteSpace]. exact Hc.
  - intros _. cbn [endsInWhiteSpace].
    apply (IH (isWhiteSpace c)). discriminate.
Qed.

Lemma trimEnd_head (c : ascii) (s : string) :
  isWhiteSpace c = false -> exists t, trimEnd (String c s) = String c t.
Proof.
  intros Hc. cbn [trimEnd]. rewrite Hc.
  destruct (trimEnd s); eexists; reflexivity.
Qed.

Lemma trim_shape (s : string) :
  trim s = EmptyString
  \/ exists c t, trim s = String c t /\ isWhiteSpace c = false.
Proof.
  unfold trim.
  assert (trimStart s = EmptyString
          \/ exists c t, trimStart s = String c t /\ isWhiteSpace c = false) as [-> | Hs].
  { induction s as [|c s' IH]; [left; reflexivity|].
    cbn [trimStart]. destruct (isWhiteSpace c) eqn:Hc; [exact IH|].
    right. exists c, s'. split; [reflexivity | exact Hc]. }
  - left. reflexivity.
  - destruct Hs as (c & t & -> & Hc). right.
    destruct (trimEnd_head c t Hc) as [t' ->]. exists c, t'. split; [reflexivity | exact Hc].
Qed.

(** The word count is the number of words of the text, except that a text
    without any word (empty, or white space only) counts as one word. *)
Theorem word_count_counts_words (textContent : string) :
  countWords textContent = Nat.max 1 (wordsIn textContent)
  /\ (allWhiteSpace textContent = true -> countWords textContent = 1%nat)
  /\ countWords EmptyString = 1%nat.
Proof.
  assert (countWords textContent = Nat.max 1 (wordsIn textContent)) as Hcount.
  { unfold countWords, wordsIn.
    assert ((if JS.truthy (Some textContent) then textContent else "") = textContent) as ->.
    { destruct textContent; reflexivity. }
    rewrite split_length.
    rewrite <- (wordStarts_trimStart textContent).
    rewrite <- (wordStarts_trimEnd (trimStart textContent) true).
    fold (trim textContent).
    destruct (trim_shape textContent) as [-> | (c & t & Heq & Hc)]; [reflexivity|].
    pose proof (trimEnd_ends (trimStart textContent) false) as Hend.
    fold (trim textContent) in Hend. rewrite Heq in Hend |- *.
    specialize (Hend ltac:(discriminate)).
    pose proof (words_and_gaps (String c t) false) as Halt.
    rewrite Hend in Halt.
    cbn [wordStarts gapStarts] in *. rewrite Hc in *. cbn [negb andb] in *. lia. }
  split; [exact Hcount|].
  split; [|reflexivity].
  intros Hall. rewrite Hcount. unfold wordsIn.
  assert (forall s, allWhiteSpace s = true -> wordStarts true s = 0%nat) as Hzero.
  { induction s as [|c s' IH]; [reflexivity|].
    cbn [allWhiteSpace wordStarts]. intros H. apply andb_true_iff in H as [Hc Hrest].
    rewrite Hc. cbn [negb andb]. apply IH. exact Hrest. }
  rewrite (Hzero textContent Hall). reflexivity.
Qed.

Lemma word_count_counts_words_witness :
  countWords "   " = 1%nat /\ countWords "Quality widgets  for every home" = 5%nat.
Proof.
  split.
  - exact (proj1 (proj2 (word_count_counts_words "   ")) eq_refl).
  - rewrite (proj1 (word_count_counts_words "Quality widgets  for every home")).
    reflexivity.
Defined.

(** The statistics of a small page, evaluated. *)
Example content_statistics_sample :
  let c := analyzeContent "https://acme.example/" "Quality widgets  for every home"
             sampleImages sampleLinks in
  (withoutAlt (Types.images c), withEmptyAlt (Types.images c), lazyLoaded (Types.images c))
    = (3%nat, 1%nat, 2%nat)
  /\ (link_internal (Types.links c), link_external (Types.links c),
      link_nofollow (Types.links c), link_empty (Types.links c))
     = (2%nat, 1%nat, 1%nat, 1%nat)
  /\ wordCount c = 5%nat.
Proof. cbv zeta. split; [|split]; vm_compute; reflexivity. Qed.

End ContentExtras.

(** ** Listing stored audits *)

Module ListingExtras.
Import Listing ListingSpec.

Lemma filter_all {A : Type} (l : list A) : List.filter (fun _ => true) l = l.
Proof. induction l as [|x rest IH]; [reflexivity|]. cbn. rewrite IH. reflexivity. Qed.

Lemma filter_filter {A : Type} (p q : A -> bool) (l : list A) :
  List.filter q (List.filter p l) = List.filter (fun x => p x && q x) l.
Proof.
  induction l as [|x rest IH]; [reflexivity|].
  cbn [List.filter]. destruct (p x); cbn [List.filter andb]; rewrite IH; reflexivity.
Qed.

Lemma insertBy_Permutation {A : Type} (cmp : A -> A -> Z) (x : A) (l : list A) :
  Permutation (insertBy cmp x l) (x :: l).
Proof.
  induction l as [|y rest IH]; [reflexivity|].
  cbn [insertBy]. destruct (cmp x y <=? 0); [reflexivity|].
  rewrite IH. apply perm_swap.
Qed.

Lemma Array_sort_Permutation {A : Type} (cmp : A -> A -> Z) (l : list A) :
  Permutation (Array_sort cmp l) l.
Proof.
  induction l as [|x rest IH]; [reflexivity|].
  cbn [Array_sort]. rewrite insertBy_Permutation, IH. reflexivity.
Qed.

Lemma insertBy_sorted {A : Type} (key : A -> Z) (cmp : A -> A -> Z) (x : A) (l : list A) :
  (forall y, In y l -> cmp x y = key y - key x) ->
  StronglySorted (fun a b => key b <= key a) l ->
  StronglySorted (fun a b => key b <= key a) (insertBy cmp x l).
Proof.
  intros Hcmp Hsorted. induction Hsorted as [|y rest Hrest IH Hall].
  - cbn. apply SSorted_cons; [apply SSorted_nil | apply List.Forall_nil].
  - cbn [insertBy].
    pose proof (Hcmp y (or_introl eq_refl)) as Hxy.
    destruct (Z.leb_spec (cmp x y) 0) as [Hle|Hgt].
    + apply SSorted_cons; [apply SSorted_cons; assumption|].
      apply List.Forall_cons; [lia|].
      apply List.Forall_forall. intros z Hz.
      pose proof (proj1 (List.Forall_forall _ _) Hall z Hz). cbn in *. lia.
    + apply SSorted_cons.
      * apply IH. intros z Hz. apply Hcmp. right. exact Hz.
      * apply List.Forall_forall. intros z Hz.
        apply (Permutation_in _ (insertBy_Permutation cmp x rest)) in Hz.
        destruct Hz as [<- | Hz]; [lia|].
        exact (proj1 (List.Forall_forall _ _) Hall z Hz).
Qed.

Lemma Array_sort_sorted {A : Type} (key : A -> Z) (cmp : A -> A -> Z) (l : list A) :
  (forall x y, In x l -> In y l -> cmp x y = key y - key x) ->
  StronglySorted (fun a b => key b <= key a) (Array_sort cmp l).
Proof.
  induction l as [|x rest IH]; intros Hcmp; [apply SSorted_nil|].
  cbn [Array_sort]. apply insertBy_sorted.
  - intros y Hy. apply Hcmp; [left; reflexivity|].
    right. exact (Permutation_in _ (Array_sort_Permutation cmp rest) Hy).
  - apply IH. intros a b Ha Hb. apply Hcmp; right; assumption.
Qed.

Section Dates.

Variable Date_getTime : string -> option Z.

Lemma listAudits_filter (filters : option AuditFilters) (audits : list AuditResult) :
  listAudits Date_getTime filters audits =
  map summarize (Array_sort (byRecency Date_getTime) (List.filter (passesAll filters) audits)).
Proof.
  unfold listAudits. cbv zeta. f_equal. f_equal.
  unfold passesAll, passesUrl, passesMinScore, passesUserId, passesDateFrom, passesDateTo.
  destruct (field filters filter_url) as [[|c1 u]|];
    destruct (field filters filter_minScore) as [m|];
    [destruct (truthyNumber (Some m))| |destruct (truthyNumber (Some m))|
     |destruct (truthyNumber (Some m))|];
    destruct (field filters filter_userId) as [[|c2 v]|];
    destruct (field filters filter_dateFrom) as [[|c3 d1]|];
    destruct (field filters filter_dateTo) as [[|c4 d2]|];
    rewrite ?filter_filter;
    try (rewrite <- (filter_all audits) at 1; rewrite ?filter_filter);
    apply List.filter_ext; intros a; cbn [andb];
    rewrite ?andb_true_r, ?andb_assoc; reflexivity.
Qed.

Lemma given_string (o : option string) (test : string -> bool) (P : string -> Prop) :
  (forall s, test s = true <-> P s) ->
  (match o with
   | Some (String _ _ as s) => test s
   | _ => true
   end = true
   <-> forall s, o = Some s -> s <> EmptyString -> P s).
Proof.
  intros Hiff. destruct o as [[|c s]|].
  - split; [intros _ s Heq Hne; congruence | reflexivity].
  - rewrite Hiff. split.
    + intros HP s' Heq _. injection Heq as <-. exact HP.
    + intros H. apply H; [reflexivity | discriminate].
  - split; [intros _ s Heq; discriminate | reflexivity].
Qed.

Lemma passesUrl_iff (filters : option AuditFilters) (audit : AuditResult) :
  passesUrl filters audit = true <->
  forall url, field filters filter_url = Some url -> url <> EmptyString ->
    ContentExtraction.includes (toLowerCase url) (toLowerCase (audit_url audit)) = true.
Proof.
  unfold passesUrl.
  exact (given_string (field filters filter_url)
           (fun url => ContentExtraction.includes (toLowerCase url)
                         (toLowerCase (audit_url audit)))
           (fun url => ContentExtraction.includes (toLowerCase url)
                         (toLowerCase (audit_url audit)) = true)
           (fun s => conj (fun H => H) (fun H => H))).
Qed.

Lemma passesMinScore_iff (filters : option AuditFilters) (audit : AuditResult) :
  passesMinScore filters audit = true <->
  forall minScore, field filters filter_minScore = Some minScore -> minScore <> 0 ->
    minScore <= audit_overallScore audit.
Proof.
  unfold passesMinScore, truthyNumber.
  destruct (field filters filter_minScore) as [m|].
  - destruct (Z.eqb_spec m 0) as [->|Hne]; cbn [negb].
    + split; [intros _ m Heq Hne; congruence | reflexivity].
    + rewrite Z.leb_le. split.
      * intros Hle m' Heq _. injection Heq as <-. exact Hle.
      * intros H. apply H; [reflexivity | exact Hne].
  - split; [intros _ m Heq; discriminate | reflexivity].
Qed.

Lemma passesUserId_iff (filters : option AuditFilters) (audit : AuditResult) :
  passesUserId filters audit = true <->
  forall userId, field filters filter_userId = Some userId -> userId <> EmptyString ->
    audit_userId audit = Some userId.
Proof.
  unfold passesUserId.
  refine (given_string (field filters filter_userId)
           (fun userId => match audit_userId audit with
                          | Some u => String.eqb u userId
                          | None => false
                          end)
           (fun userId => audit_userId audit = Some userId) _).
  intros s. destruct (audit_userId audit) as [u|].
  - rewrite String.eqb_eq. split; congruence.
  - split; discriminate.
Qed.

Lemma passesDateFrom_iff (filters : option AuditFilters) (audit : AuditResult) :
  passesDateFrom filters audit = true <->
  forall dateFrom, field filters filter_dateFrom = Some dateFrom ->
    dateFrom <> EmptyString ->
    exists c, audit_createdAt audit = Some c /\ String.leb dateFrom c = true.
Proof.
  unfold passesDateFrom.
  refine (given_string (field filters filter_dateFrom) (fun d => createdAtLeast d audit)
           (fun d => exists c, audit_createdAt audit = Some c /\ String.leb d c = true) _).
  intros s. unfold createdAtLeast. destruct (audit_createdAt audit) as [c|].
  - split; [intros H; exists c; split; [reflexivity | exact H]|].
    intros (c' & Heq & H). injection Heq as <-. exact H.
  - split; [discriminate | intros (c' & Heq & _); discriminate].
Qed.

Lemma passesDateTo_iff (filters : option AuditFilters) (audit : AuditResult) :
  passesDateTo filters audit = true <->
  forall dateTo, field filters filter_dateTo = Some dateTo -> dateTo <> EmptyString ->
    exists c, audit_createdAt audit = Some c /\ String.leb c dateTo = true.
Proof.
  unfold passesDateTo.
  refine (given_string (field filters filter_dateTo) (fun d => createdAtMost d audit)
           (fun d => exists c, audit_createdAt audit = Some c /\ String.leb c d = true) _).
  intros s. unfold createdAtMost. destruct (audit_createdAt audit) as [c|].
  - split; [intros H; exists c; split; [reflexivity | exact H]|].
    intros (c' & Heq & H). injection Heq as <-. exact H.
  - split; [discriminate | intros (c' & Heq & _); discriminate].
Qed.

Lemma passesAll_passes (filters : option AuditFilters) (audit : AuditResult) :
  passesAll filters audit = true <-> passes filters audit.
Proof.
  unfold passesAll, passes. rewrite !andb_true_iff.
  rewrite passesUrl_iff, passesMinScore_iff, passesUserId_iff, passesDateFrom_iff,
    passesDateTo_iff.
  tauto.
Qed.

Lemma listAudits_Permutation (filters : option AuditFilters) (audits : list AuditResult) :
  Permutation (listAudits Date_getTime filters audits)
    (map summarize (List.filter (passesAll filters) audits)).
Proof.
  rewrite listAudits_filter. apply Permutation_map. apply Array_sort_Permutation.
Qed.

Lemma listAudits_In (filters : option AuditFilters) (audits : list AuditResult)
  (s : AuditSummary) :
  In s (listAudits Date_getTime filters audits) <->
  exists audit, In audit audits /\ passes filters audit /\ s = summarize audit.
Proof.
  split.
  - intros Hin. apply (Permutation_in _ (listAudits_Permutation filters audits)) in Hin.
    apply in_map_iff in Hin as (audit & <- & Hin).
    apply filter_In in Hin as [Hin Hpass].
    exists audit. split; [exact Hin|]. split; [|reflexivity].
    apply passesAll_passes. exact Hpass.
  - intros (audit & Hin & Hpass & ->).
    apply (Permutation_in _ (Permutation_sym (listAudits_Permutation filters audits))).
    apply in_map. apply filter_In. split; [exact Hin|].
    apply passesAll_passes. exact Hpass.
Qed.

(** The listing holds exactly the stored records that pass every given
    filter, one summary each, whatever their order in the store; a filter
    whose value is falsy (an empty string, a minimum score of 0) is not
    applied. *)
Theorem listing_is_the_filtered_store (filters : option AuditFilters)
  (audits : list AuditResult) :
  Permutation (listAudits Date_getTime filters audits)
    (map summarize (List.filter (passesAll filters) audits))
  /\ (forall audit, passesAll filters audit = true <-> passes filters audit)
  /\ (forall s, In s (listAudits Date_getTime filters audits) <->
        exists audit, In audit audits /\ passes filters audit /\ s = summarize audit)
  /\ (List.length (listAudits Date_getTime filters audits) <= List.length audits)%nat.
Proof.
  split; [apply listAudits_Permutation|].
  split; [intros audit; apply passesAll_passes|].
  split; [intros s; apply listAudits_In|].
  rewrite (Permutation_length (listAudits_Permutation filters audits)), List.length_map.
  apply List.filter_length_le.
Qed.

Lemma unfiltered_passesAll (filters : option AuditFilters) (audit : AuditResult) :
  unfiltered filters -> passesAll filters audit = true.
Proof.
  unfold unfiltered, passesAll, passesUrl, passesMinScore, passesUserId, passesDateFrom,
    passesDateTo.
  intros (Hurl & Hscore & Huser & Hfrom & Hto).
  destruct (field filters filter_url) as [[|c1 u]|]; try discriminate Hurl;
    destruct (field filters filter_minScore) as [m|]; try rewrite Hscore;
    destruct (field filters filter_userId) as [[|c2 v]|]; try discriminate Huser;
    destruct (field filters filter_dateFrom) as [[|c3 d1]|]; try discriminate Hfrom;
    destruct (field filters filter_dateTo) as [[|c4 d2]|]; try discriminate Hto;
    reflexivity.
Qed.

Lemma unfiltered_Permutation (filters : option AuditFilters) (audits : list AuditResult) :
  unfiltered filters ->
  Permutation (listAudits Date_getTime filters audits) (map summarize audits).
Proof.
  intros Hunf. rewrite listAudits_Permutation. f_equal.
  assert (List.filter (passesAll filters) audits = audits) as ->; [|reflexivity].
  rewrite <- (filter_all audits) at 2. apply List.filter_ext.
  intros a. apply unfiltered_passesAll. exact Hunf.
Qed.

(** With no filter given the listing has every stored record: so
    [getUserAudits] without a user, [searchAudits] with an empty query, and
    a filter object with a minimum score of 0 all list the whole store. *)
Theorem unfiltered_listing_is_complete (filters : option AuditFilters)
  (audits : list AuditResult) :
  unfiltered filters ->
  Permutation (listAudits Date_getTime filters audits) (map summarize audits)
  /\ List.length (listAudits Date_getTime filters audits) = List.length audits
  /\ Permutation (getUserAudits Date_getTime None audits) (map summarize audits)
  /\ Permutation (searchAudits Date_getTime EmptyString audits) (map summarize audits).
Proof.
  intros Hunf. split; [apply unfiltered_Permutation; exact Hunf|].
  split.
  { rewrite (Permutation_length (unfiltered_Permutation filters audits Hunf)).
    apply List.length_map. }
  split; apply unfiltered_Permutation; repeat split.
Qed.

Lemma timeOf_summarize (audit : AuditResult) :
  summaryTime Date_getTime (summarize audit) = timeOf Date_getTime audit.
Proof. reflexivity. Qed.

(** The listing is ordered by recency: when the creation time of every
    stored record parses as a date, each summary was created no earlier
    than all the summaries after it. *)
Theorem listing_is_newest_first (filters : option AuditFilters) (audits : list AuditResult) :
  datesParse Date_getTime audits ->
  StronglySorted (notOlder Date_getTime) (listAudits Date_getTime filters audits).
Proof.
  intros Hparse. rewrite listAudits_filter.
  set (kept := List.filter (passesAll filters) audits).
  assert (forall a, In a kept -> exists t, timeOf Date_getTime a = Some t) as Hkept.
  { intros a Hin. apply filter_In in Hin as [Hin _].
    unfold datesParse in Hparse. rewrite List.Forall_forall in Hparse.
    apply Hparse. exact Hin. }
  set (key := fun a => match timeOf Date_getTime a with Some t => t | None => 0 end).
  assert (StronglySorted (fun a b => key b <= key a)
            (Array_sort (byRecency Date_getTime) kept)) as Hsorted.
  { apply Array_sort_sorted. intros x y Hx Hy.
    destruct (Hkept x Hx) as [tx Htx]. destruct (Hkept y Hy) as [ty Hty].
    unfold byRecency, key. rewrite Htx, Hty. reflexivity. }
  assert (forall a, In a (Array_sort (byRecency Date_getTime) kept) ->
                    exists t, timeOf Date_getTime a = Some t) as Hsortedtimes.
  { intros a Hin. apply Hkept.
    exact (Permutation_in _ (Array_sort_Permutation _ kept) Hin). }
  induction Hsorted as [|a rest Hrest IH Hall]; [apply SSorted_nil|].
  cbn [map]. apply SSorted_cons.
  - apply IH. intros b Hb. apply Hsortedtimes. right. exact Hb.
  - apply List.Forall_forall. intros s Hs.
    apply in_map_iff in Hs as (b & <- & Hb).
    destruct (Hsortedtimes a (or_introl eq_refl)) as [ta Hta].
    destruct (Hsortedtimes b (or_intror Hb)) as [tb Htb].
    exists ta, tb. rewrite !timeOf_summarize. split; [exact Hta|]. split; [exact Htb|].
    pose proof (proj1 (List.Forall_forall _ _) Hall b Hb) as Hle.
    unfold key in Hle. rewrite Hta, Htb in Hle. exact Hle.
Qed.

End Dates.

Lemma unfiltered_listing_is_complete_witness :
  List.length
    (listAudits secondsOf
       (Some {| filter_userId := None; filter_dateFrom := None; filter_dateTo := None;
                filter_minScore := Some 0; filter_url := Some EmptyString |})
       sampleRecords) = 3%nat.
Proof.
  apply (unfiltered_listing_is_complete secondsOf
           (Some {| filter_userId := None; filter_dateFrom := None; filter_dateTo := None;
                    filter_minScore := Some 0; filter_url := Some EmptyString |})
           sampleRecords).
  repeat split.
Defined.

Lemma listing_is_newest_first_witness :
  map summary_id (listAudits secondsOf None sampleRecords)
  = [Some "audit_3_c"; Some "audit_2_b"; Some "audit_1_a"]
  /\ StronglySorted (notOlder secondsOf) (listAudits secondsOf None sampleRecords).
Proof.
  split; [vm_compute; reflexivity|].
  apply (listing_is_newest_first secondsOf None sampleRecords).
  repeat (apply List.Forall_cons; [eexists; vm_compute; reflexivity|]).
  apply List.Forall_nil.
Defined.

End ListingExtras.

(** ** HTTP handlers *)

Module ApiExtras.
Import AuditRun MemoryStorage AuditService Api.
Import StorageSpec CaptureSpec ServiceSpec.

Lemma failure_status {D : Type} (status : Z) (error : string) :
  response_status (failure (D := D) status error) = status
  /\ body_success (response_body (failure (D := D) status error)) = false
  /\ body_error (response_body (failure (D := D) status error)) = Some error.
Proof. repeat split. Qed.

(** The audit endpoint answers 200, 400 or 500 and nothing else; [success]
    is true exactly for 200, an [error] text comes with every other
    status, and 400 means exactly that the body parsed but carried no URL,
    in which case nothing is run or stored. *)
Theorem post_status_codes (URL_new : string -> option URL) (web : Web) (clock : Clock)
  (env : Env) (handlerStart handlerEnd : Z) (request : RequestJson) (w : World) :
  let r := fst (POST URL_new web clock env handlerStart handlerEnd request w) in
  let w' := snd (POST URL_new web clock env handlerStart handlerEnd request w) in
  (response_status r = 200 \/ response_status r = 400 \/ response_status r = 500)
  /\ (body_success (response_body r) = true <-> response_status r = 200)
  /\ (body_error (response_body r) = None <-> response_status r = 200)
  /\ (response_status r = 400 <->
        exists url options, request = JsonObject url options /\ JS.truthy url = false)
  /\ (response_status r = 400 -> w' = w)
  /\ (response_status r = 200 ->
        exists id audit, body_auditId (response_body r) = Some id
                         /\ body_data (response_body r) = Some audit
                         /\ getAuditResult id w' = Some audit
                         /\ audit_id audit = Some id).
Proof.
  intros r w'. subst r w'. unfold POST.
  destruct request as [message | url options].
  - cbn. repeat split; try (intros H; discriminate H); try (right; right; reflexivity).
    intros (u & o & Heq & _). discriminate Heq.
  - destruct url as [[|c u]|].
    + cbn. repeat split; try (intros H; discriminate H); try (right; left; reflexivity).
      intros _. exists (Some EmptyString), options. split; reflexivity.
    + unfold runAudit.
      destruct (negb (isValidURL URL_new (String c u))).
      * cbn. repeat split; try (intros H; discriminate H); try (right; right; reflexivity).
        intros (u' & o & Heq & Hfalsy). injection Heq as <- <-. discriminate Hfalsy.
      * destruct (runPlaywrightAudit web clock (String c u) options (browser w))
          as [[audit | message] b'].
        -- unfold saveAudit, getAuditResult, getAudit. cbn [fst snd storage].
           rewrite lookup_insert_eq. cbn.
           repeat split; try (intros H; discriminate H); try (left; reflexivity).
           ++ intros (u' & o & Heq & Hfalsy). injection Heq as <- <-. discriminate Hfalsy.
           ++ intros _. eexists. eexists. repeat split. apply lookup_insert_eq.
        -- cbn. repeat split; try (intros H; discriminate H); try (right; right; reflexivity).
           intros (u' & o & Heq & Hfalsy). injection Heq as <- <-. discriminate Hfalsy.
    + cbn. repeat split; try (intros H; discriminate H); try (right; left; reflexivity).
      intros _. exists None, options. split; reflexivity.
Qed.

(** A URL that is present but invalid is answered with status 500, not
    400, and the text [Invalid URL format]; nothing is run or stored. *)
Theorem post_invalid_url_is_500 (URL_new : string -> option URL) (web : Web) (clock : Clock)
  (env : Env) (handlerStart handlerEnd : Z) (url : string) (options : option AuditOptions)
  (w : World) :
  url <> EmptyString ->
  invalidInput URL_new url ->
  POST URL_new web clock env handlerStart handlerEnd (JsonObject (Some url) options) w
  = (failure 500 "Invalid URL format", w).
Proof.
  intros Hne Hinvalid. unfold POST.
  destruct url as [|c u]; [contradiction|].
  unfold runAudit.
  rewrite (ServiceProofs.invalid_isValidURL URL_new (String c u) Hinvalid). reflexivity.
Qed.

Lemma post_invalid_url_is_500_witness :
  POST schemeOnly acmeWeb sampleClock sampleEnv 0 5
    (JsonObject (Some "ftp://acme.example/") None) sampleWorld
  = (failure 500 "Invalid URL format", sampleWorld).
Proof.
  apply (post_invalid_url_is_500 schemeOnly acmeWeb sampleClock sampleEnv 0 5
           "ftp://acme.example/" None sampleWorld).
  - discriminate.
  - right. eexists. split; [vm_compute; reflexivity|]. split; discriminate.
Defined.

(** The record endpoint answers 400 for a missing identifier, 404 for one
    that is not stored and 200 with the stored record otherwise; after
    [deleteAudit] the identifier is answered with 404. *)
Theorem get_status_codes (id : string) (w : World) :
  response_status (GET_audit None w) = 400
  /\ response_status (GET_audit (Some EmptyString) w) = 400
  /\ (id <> EmptyString ->
      (response_status (GET_audit (Some id) w) = 200 <-> is_Some (getAuditResult id w))
      /\ (response_status (GET_audit (Some id) w) = 404 <-> getAuditResult id w = None)
      /\ body_data (response_body (GET_audit (Some id) w)) = getAuditResult id w
      /\ response_status (GET_audit (Some id) (snd (deleteAudit id w))) = 404).
Proof.
  split; [reflexivity|]. split; [reflexivity|].
  intros Hne. destruct id as [|c s]; [contradiction|].
  unfold GET_audit.
  assert (getAuditResult (String c s) (snd (deleteAudit (String c s) w)) = None) as Hgone.
  { unfold deleteAudit, MemoryStorage.deleteAudit, getAuditResult, getAudit.
    rewrite StorageProofs.Map_delete_spec. cbn [fst snd storage]. apply lookup_delete_eq. }
  rewrite Hgone.
  destruct (getAuditResult (String c s) w) as [audit|]; cbn.
  - repeat split; try discriminate; eauto; intros [a Ha]; discriminate.
  - repeat split; try discriminate; intros [a Ha]; discriminate.
Qed.

Lemma get_status_codes_witness :
  response_status (GET_audit (Some "audit_1_abc") sampleWorld) = 200
  /\ response_status (GET_audit (Some "audit_9_zzz") sampleWorld) = 404.
Proof.
  destruct (get_status_codes "audit_1_abc" sampleWorld) as (_ & _ & Hstored).
  destruct (get_status_codes "audit_9_zzz" sampleWorld) as (_ & _ & Hunknown).
  split.
  - apply (proj1 (Hstored ltac:(discriminate))). vm_compute. eauto.
  - apply (proj1 (proj2 (Hunknown ltac:(discriminate)))). vm_compute. reflexivity.
Defined.

(** An audit that was posted can be fetched: for a valid URL whose page
    loads, the audit endpoint answers 200 with the stored record and its
    identifier, and the record endpoint then answers 200 with the same
    record for that identifier. *)
Theorem post_then_get (URL_new : string -> option URL) (web : Web) (clock : Clock)
  (env : Env) (handlerStart handlerEnd : Z) (url : string) (options : option AuditOptions)
  (w : World) (page : PageSnapshot) :
  url <> EmptyString ->
  validInput URL_new url ->
  web url = Loaded page ->
  let r := fst (POST URL_new web clock env handlerStart handlerEnd
                  (JsonObject (Some url) options) w) in
  let w' := snd (POST URL_new web clock env handlerStart handlerEnd
                   (JsonObject (Some url) options) w) in
  response_status r = 200
  /\ body_auditId (response_body r) = Some (generateId env)
  /\ body_processingTime (response_body r) = Some (handlerEnd - handlerStart)
  /\ (exists audit, body_data (response_body r) = Some audit
                    /\ audit_url audit = url
                    /\ audit_status audit = Some Status.completed)
  /\ response_status (GET_audit (Some (generateId env)) w') = 200
  /\ body_data (response_body (GET_audit (Some (generateId env)) w'))
     = body_data (response_body r).
Proof.
  intros Hne Hvalid Hnav r w'. subst r w'.
  destruct (ServiceExtras.runAudit_success URL_new web clock env url options w page
              Hvalid Hnav) as (audit & Hresolved & Hurl & Hrun).
  assert (getAuditResult (generateId env)
            {| storage := <[generateId env :=
                              withMetadata audit (generateId env) (Date_toISOString env)]>
                            (storage w);
               browser := snd (runPlaywrightAudit web clock url options (browser w)) |}
          = Some (withMetadata audit (generateId env) (Date_toISOString env))) as Hget.
  { unfold getAuditResult, getAudit. cbn [storage]. apply lookup_insert_eq. }
  assert (exists c0 s0, generateId env = String c0 s0) as (c0 & s0 & Hid).
  { unfold generateId. eexists. eexists. reflexivity. }
  unfold POST.
  destruct url as [|c u]; [exfalso; apply Hne; reflexivity|].
  rewrite Hrun. cbv beta iota zeta.
  cbn [fst snd response_status response_body body_auditId body_processingTime body_data].
  rewrite Hget.
  split; [reflexivity|]. split; [reflexivity|]. split; [reflexivity|].
  split.
  { eexists. split; [reflexivity|]. split; [exact Hurl | reflexivity]. }
  unfold GET_audit. rewrite Hid in *. rewrite Hget. split; reflexivity.
Qed.

Lemma post_then_get_witness :
  response_status
    (fst (POST schemeOnly acmeWeb sampleClock sampleEnv 0 5
            (JsonObject (Some "https://acme.example/") None) sampleWorld)) = 200
  /\ response_status
       (GET_audit (Some (generateId sampleEnv))
          (snd (POST schemeOnly acmeWeb sampleClock sampleEnv 0 5
                  (JsonObject (Some "https://acme.example/") None) sampleWorld))) = 200.
Proof.
  destruct (post_then_get schemeOnly acmeWeb sampleClock sampleEnv 0 5
              "https://acme.example/" None sampleWorld acmeSnapshot)
    as (Hposted & _ & _ & _ & Hfetched & _).
  - discriminate.
  - eexists. split; [vm_compute; reflexivity|]. right. reflexivity.
  - reflexivity.
  - split; [exact Hposted | exact Hfetched].
Defined.

(** The listing endpoint always answers 200 with summaries of stored
    records; without a query and without a user it lists the whole store,
    and a query takes precedence over the user filter. *)
Theorem list_endpoint_lists_store (Date_getTime : string -> option Z)
  (q userId : option string) (audits : list AuditResult) :
  let r := GET_audits Date_getTime q userId audits in
  response_status r = 200
  /\ body_success (response_body r) = true
  /\ exists listed,
       body_data (response_body r) = Some listed
       /\ (forall s, In s listed -> exists audit, In audit audits /\ s = Listing.summarize audit)
       /\ (JS.truthy q = false -> JS.truthy userId = false ->
           Permutation listed (map Listing.summarize audits))
       /\ (JS.truthy q = true ->
           forall other, GET_audits Date_getTime q other audits = r).
Proof.
  intros r. subst r. unfold GET_audits. cbv zeta.
  cbn [response_status response_body body_success body_data].
  split; [reflexivity|]. split; [reflexivity|].
  eexists. split; [reflexivity|].
  split.
  { intros s Hin.
    assert (exists filters, In s (Listing.listAudits Date_getTime filters audits))
      as [filters Hlisted].
    { unfold Listing.searchAudits, Listing.getUserAudits in Hin.
      destruct q as [[|c query]|]; eexists; exact Hin. }
    apply (ListingExtras.listAudits_In Date_getTime filters audits) in Hlisted.
    destruct Hlisted as (audit & Haudit & _ & ->). exists audit. split; [exact Haudit|].
    reflexivity. }
  split.
  { intros Hq Huser. rewrite Huser.
    assert (match q with
            | Some (String _ _ as query) => Listing.searchAudits Date_getTime query audits
            | _ => Listing.getUserAudits Date_getTime None audits
            end = Listing.getUserAudits Date_getTime None audits) as ->.
    { destruct q as [[|c query]|]; [reflexivity | discriminate Hq | reflexivity]. }
    apply (ListingExtras.unfiltered_Permutation Date_getTime
             (Some {| Listing.filter_userId := None; Listing.filter_dateFrom := None;
                      Listing.filter_dateTo := None; Listing.filter_minScore := None;
                      Listing.filter_url := None |}) audits).
    repeat split. }
  intros Hq other. destruct q as [[|c query]|]; [discriminate Hq | reflexivity | discriminate Hq].
Qed.

End ApiExtras.

(** ** Extracting the JSON text of a reply *)

Module ParsingExtras.
Import LLMService HeuristicSpec.

Lemma append_empty (t : string) : EmptyString +:+ t = t.
Proof. reflexivity. Qed.

Lemma append_String (a : ascii) (s t : string) : String a s +:+ t = String a (s +:+ t).
Proof. reflexivity. Qed.

Lemma lastIndexOf_closing (c : ascii) (s : string) :
  forall (pos : nat) (acc : option nat),
    lastIndexOf c (s +:+ String c EmptyString) pos acc = Some (pos + String.length s)%nat.
Proof.
  induction s as [|a s' IH]; intros pos acc.
  - rewrite append_empty. cbn [lastIndexOf String.length].
    rewrite Ascii.eqb_refl. f_equal. lia.
  - rewrite append_String. cbn [lastIndexOf String.length]. rewrite IH. f_equal. lia.
Qed.

Lemma substring_whole (s : string) : String.substring 0 (String.length s) s = s.
Proof.
  induction s as [|a s' IH]; [reflexivity|].
  cbn [String.length String.substring]. rewrite IH. reflexivity.
Qed.

Lemma length_append (s t : string) :
  String.length (s +:+ t) = (String.length s + String.length t)%nat.
Proof.
  induction s as [|a s' IH]; [reflexivity|].
  rewrite append_String. cbn [String.length]. rewrite IH. reflexivity.
Qed.

(** A reply that is a bare JSON object, from its opening brace to its
    closing brace and with no fenced block in it, is handed to [JSON.parse]
    whole; when [JSON.parse] accepts it, its value is the result, and when
    it throws, the heuristic report is. *)
Theorem bare_object_reply_is_parsed_whole (JSONValue : Type)
  (JSON_parse : string -> option JSONValue) (body : string) (auditResult : AuditResult) :
  let response := String "{" (body +:+ "}") in
  String.index 0 fenceOpen response = None ->
  jsonCandidate response = Some response
  /\ parseAnalysisResponse JSONValue JSON_parse (Some response) auditResult
     = match JSON_parse response with
       | Some value => Return (Parsed value)
       | None => Return (Heuristic (getFallbackAnalysis auditResult))
       end.
Proof.
  intros response Hnofence.
  assert (jsonCandidate response = Some response) as Hcandidate.
  { unfold jsonCandidate, matchFenced. rewrite Hnofence.
    unfold matchBraces. subst response.
    assert (String.index 0 "{" (String "{" (body +:+ "}")) = Some 0%nat) as ->.
    { cbn [String.index String.prefix].
      destruct (ascii_dec "{" "{") as [_|Hne]; [|contradiction].
      destruct (body +:+ "}"); reflexivity. }
    cbn [lastIndexOf].
    assert (Ascii.eqb "{" "}" = false) as -> by reflexivity.
    rewrite lastIndexOf_closing.
    assert ((0 <? 1 + String.length body)%nat = true) as -> by (apply Nat.ltb_lt; lia).
    f_equal.
    replace (1 + String.length body - 0 + 1)%nat
      with (String.length (String "{" (body +:+ "}"))).
    - apply substring_whole.
    - cbn [String.length]. rewrite length_append. cbn. lia. }
  split; [exact Hcandidate|].
  unfold parseAnalysisResponse. rewrite Hcandidate.
  destruct (JSON_parse response); reflexivity.
Qed.

Lemma bare_object_reply_is_parsed_whole_witness :
  jsonCandidate "{criticalIssues:[]}" = Some "{criticalIssues:[]}".
Proof.
  apply (bare_object_reply_is_parsed_whole unit rejectAll "criticalIssues:[]"
           HeuristicSpec.noDescriptionAudit).
  vm_compute. reflexivity.
Defined.

End ParsingExtras.
